(** * TermiKanban: the board, the cursor and the undo/redo history of [main.py]

    A shallow embedding of [src/main.py].  Python integers are [Z], Python
    lists are Rocq lists read and updated through Python's index rules
    (negative indices count from the end, an index out of range raises
    [IndexError]), and the body of [main] is a state-and-exception monad
    over the local variables of [main] and the outside world (pending key
    presses, the size of the terminal window, the save folder, the files on
    disk and the paths that can be written).

    The screen is modelled where the program reads from it: a key read at
    a position, [getch(y, x)], depends on that position being inside the
    window.  What is written to the screen is not tracked, and the writes
    ([addstr], [clear], [refresh]) are taken to succeed.

    The board is only ever mutated through one live reference: stack
    entries are [copy.deepcopy] copies, a popped entry leaves its stack
    when it becomes the board, and a moved card leaves its source list
    before it joins the destination.  Values therefore model the objects
    faithfully, and [copy.deepcopy] is the identity on values. *)

From Stdlib Require Import ZArith String Ascii Lia Sorted.
From stdpp Require Import base list strings gmap.

Local Open Scope Z_scope.

(** ** Data model *)

(** The classes of [kanban_board.py], with the attributes [main.py] reads
    and writes. *)
Record Card := mkCard {
  title : string;
  description : string;
  priority : Z
}.

Record Column := mkColumn {
  name : string;
  cards : list Card
}.

Record KanbanBoard := mkBoard {
  columns : list Column
}.

(* main.py, l.9-11 *)
Definition LOW_PRIORITY : Z := 1.
Definition MEDIUM_PRIORITY : Z := 1.
Definition HIGH_PRIORITY : Z := 3.

Definition with_cards (col : Column) (cs : list Card) : Column :=
  {| name := name col; cards := cs |}.

Definition with_title (c : Card) (t : string) : Card :=
  {| title := t; description := description c; priority := priority c |}.

Definition with_description (c : Card) (d : string) : Card :=
  {| title := title c; description := d; priority := priority c |}.

Definition with_priority (c : Card) (p : Z) : Card :=
  {| title := title c; description := description c; priority := p |}.

(** ** Python lists *)

Module Py.

Definition len {A} (l : list A) : Z := Z.of_nat (length l).

(** The position a Python index denotes in [l], if any. *)
Definition norm_index {A} (l : list A) (i : Z) : option nat :=
  let j := if i <? 0 then i + len l else i in
  if (0 <=? j) && (j <? len l) then Some (Z.to_nat j) else None.

(** [l[i]] *)
Definition getitem {A} (l : list A) (i : Z) : option A :=
  k ← norm_index l i; l !! k.

(** [l[i] = x] *)
Definition setitem {A} (l : list A) (i : Z) (x : A) : option (list A) :=
  k ← norm_index l i; Some (<[k:=x]> l).

(** [l.pop(i)]: the removed element and what is left of the list. *)
Definition pop {A} (l : list A) (i : Z) : option (A * list A) :=
  k ← norm_index l i; x ← l !! k; Some (x, delete k l).

(** [l.append(x)] *)
Definition append {A} (l : list A) (x : A) : list A := l ++ [x].

(** Truth value of a list: non-empty. *)
Definition truthy {A} (l : list A) : bool :=
  match l with [] => false | _ :: _ => true end.

(** [ord(c)] and [chr(n)] on the ASCII range. *)
Definition ord (c : ascii) : Z := Z.of_nat (nat_of_ascii c).
Definition chr (n : Z) : ascii := ascii_of_nat (Z.to_nat n).

(** [s[:-1]] *)
Fixpoint drop_last (s : string) : string :=
  match s with
  | EmptyString => EmptyString
  | String _ EmptyString => EmptyString
  | String a s' => String a (drop_last s')
  end.

Definition str_len (s : string) : Z := Z.of_nat (String.length s).

Definition str_truthy (s : string) : bool :=
  match s with EmptyString => false | String _ _ => true end.

(** [s.endswith(suffix)] *)
Definition endswith (s suffix : string) : bool :=
  let n := String.length s in
  let m := String.length suffix in
  if (m <=? n)%nat then String.eqb (String.substring (n - m) m s) suffix
  else false.

(** [s.startswith(prefix)] *)
Definition startswith (s pre : string) : bool := String.prefix pre s.

(** [os.path.join(a, b)] on a POSIX system. *)
Definition path_join (a b : string) : string :=
  if startswith b "/" then b
  else if str_truthy a && negb (endswith a "/") then a +:+ "/" +:+ b
  else a +:+ b.

End Py.

(** [curses] key codes (ncurses). *)
Module curses.
Definition KEY_DOWN : Z := 258.
Definition KEY_UP : Z := 259.
Definition KEY_LEFT : Z := 260.
Definition KEY_RIGHT : Z := 261.
Definition KEY_BACKSPACE : Z := 263.
Definition KEY_ENTER : Z := 343.
End curses.

(** ** The persisted file *)

(** Modelled from the spec: what a [.kanban] file holds once read (spec
    6), a structured record whose required fields may be missing. *)
Record FileCard := mkFileCard {
  f_title : option string;
  f_description : option string;
  f_priority : option Z
}.

(** Modelled from the spec: a stored column, its name and its cards. *)
Record FileColumn := mkFileColumn {
  f_name : option string;
  f_cards : option (list FileCard)
}.

(** Modelled from the spec: a file that cannot be read, or the stored
    record with its list of columns. *)
Inductive FileData :=
| Unreadable
| Structured (cols : option (list FileColumn)).

(** ** Local variables of [main] and the outside world *)

Record Locals := mkLocals {
  board : KanbanBoard;
  selected_col : Z;
  selected_card : Z;
  undo_stack : list KanbanBoard;
  redo_stack : list KanbanBoard
}.

Record World := mkWorld {
  keys : list Z;                 (* what the next calls of getch return *)
  maxyx : Z * Z;                 (* stdscr.getmaxyx(): (height, width) *)
  folder_path : string;          (* the save folder *)
  listing : list string;         (* os.listdir(folder_path) *)
  files : gmap string FileData;  (* the files on disk, by path *)
  writable : string → bool       (* the paths a file can be written to *)
}.

Record Machine := mkMachine {
  locals : Locals;
  world : World
}.

Inductive Exn := IndexError | OutOfRange | FormatError | IOError | TypeError.

(** [Blocked]: the statement does not return.  It waits in [getch] for a
    key that never comes, or it repeats for ever a read that takes no key
    (see [get_input_loop]). *)
Inductive Result (A : Type) :=
| Ok (a : A)
| Raise (e : Exn)
| Blocked.
Arguments Ok {A} a.
Arguments Raise {A} e.
Arguments Blocked {A}.

(** Statements run on the machine; the machine reached when an exception
    is raised is kept, since the objects mutated so far stay mutated. *)
Definition M (A : Type) : Type := Machine → Result A * Machine.

Definition ret {A} (a : A) (σ : Machine) : Result A * Machine := (Ok a, σ).

Definition bind {A B} (m : M A) (f : A → M B) (σ : Machine)
  : Result B * Machine :=
  match m σ with
  | (Ok a, σ') => f a σ'
  | (Raise e, σ') => (Raise e, σ')
  | (Blocked, σ') => (Blocked, σ')
  end.

Global Instance M_ret : MRet M := λ A, @ret A.
Global Instance M_bind : MBind M := λ A B f m, bind m f.

Definition raise {A} (e : Exn) (σ : Machine) : Result A * Machine :=
  (Raise e, σ).

Definition blocked {A} (σ : Machine) : Result A * Machine := (Blocked, σ).

(** A result computed outside the monad, taken as the statement's result. *)
Definition of_result {A} (r : Result A) (σ : Machine) : Result A * Machine :=
  (r, σ).

(** [try: m except Exception: h] *)
Definition try_except {A} (m : M A) (h : Exn → M A) (σ : Machine)
  : Result A * Machine :=
  match m σ with
  | (Raise e, σ') => h e σ'
  | r => r
  end.

(** An optional value that raises [e] when absent. *)
Definition or_raise {A} (e : Exn) (o : option A) (σ : Machine)
  : Result A * Machine :=
  match o with Some a => (Ok a, σ) | None => (Raise e, σ) end.

Definition get_locals (σ : Machine) : Result Locals * Machine :=
  (Ok (locals σ), σ).

Definition get_world (σ : Machine) : Result World * Machine :=
  (Ok (world σ), σ).

Definition modify_locals (f : Locals → Locals) (σ : Machine)
  : Result unit * Machine :=
  (Ok tt, {| locals := f (locals σ); world := world σ |}).

Definition modify_world (f : World → World) (σ : Machine)
  : Result unit * Machine :=
  (Ok tt, {| locals := locals σ; world := f (world σ) |}).

Definition set_board (b : KanbanBoard) : M unit :=
  modify_locals (λ l, {| board := b; selected_col := selected_col l;
                         selected_card := selected_card l;
                         undo_stack := undo_stack l; redo_stack := redo_stack l |}).

Definition set_selected_col (i : Z) : M unit :=
  modify_locals (λ l, {| board := board l; selected_col := i;
                         selected_card := selected_card l;
                         undo_stack := undo_stack l; redo_stack := redo_stack l |}).

Definition set_selected_card (j : Z) : M unit :=
  modify_locals (λ l, {| board := board l; selected_col := selected_col l;
                         selected_card := j;
                         undo_stack := undo_stack l; redo_stack := redo_stack l |}).

Definition set_undo_stack (u : list KanbanBoard) : M unit :=
  modify_locals (λ l, {| board := board l; selected_col := selected_col l;
                         selected_card := selected_card l;
                         undo_stack := u; redo_stack := redo_stack l |}).

Definition set_redo_stack (r : list KanbanBoard) : M unit :=
  modify_locals (λ l, {| board := board l; selected_col := selected_col l;
                         selected_card := selected_card l;
                         undo_stack := undo_stack l; redo_stack := r |}).

Definition set_keys (ks : list Z) : M unit :=
  modify_world (λ w, {| keys := ks; maxyx := maxyx w;
                        folder_path := folder_path w; listing := listing w;
                        files := files w; writable := writable w |}).

Definition set_files (fs : gmap string FileData) : M unit :=
  modify_world (λ w, {| keys := keys w; maxyx := maxyx w;
                        folder_path := folder_path w; listing := listing w;
                        files := fs; writable := writable w |}).

Definition get_board : M KanbanBoard := l ← get_locals; mret (board l).
Definition get_selected_col : M Z := l ← get_locals; mret (selected_col l).
Definition get_selected_card : M Z := l ← get_locals; mret (selected_card l).

(** [board.columns[i]] *)
Definition column_at (i : Z) : M Column :=
  b ← get_board; or_raise IndexError (Py.getitem (columns b) i).

(** [board.columns[i] = col], also the write-back of an in-place change of
    the column object found at [board.columns[i]]. *)
Definition set_column_at (i : Z) (col : Column) : M unit :=
  b ← get_board;
  cs ← or_raise IndexError (Py.setitem (columns b) i col);
  set_board {| columns := cs |}.

(** ** The [KanbanBoard] class ([kanban_board.py]) *)

(** Modelled from the spec: the [KanbanBoard] constructor, whose module
    [kanban_board.py] is imported by [main.py]; a new board has no columns. *)
Definition KanbanBoard_new : KanbanBoard := {| columns := [] |}.

(** Modelled from the spec: [KanbanBoard.add_column] (spec 4.3), which
    appends a new empty column. *)
Definition add_column (col_name : string) : M unit :=
  b ← get_board;
  set_board {| columns := Py.append (columns b) {| name := col_name; cards := [] |} |}.

(** Modelled from the spec: [KanbanBoard.add_card] (spec 4.3), which fails
    with [OutOfRange] when [column_index] is not a valid column index and
    otherwise appends the card to that column; the priority defaults to
    Low. *)
Definition add_card (column_index : Z) (t d : string) (p : Z) : M unit :=
  b ← get_board;
  if (0 <=? column_index) && (column_index <? Py.len (columns b)) then
    col ← column_at column_index;
    set_column_at column_index
      (with_cards col (Py.append (cards col) {| title := t; description := d; priority := p |}))
  else raise OutOfRange.

(** Modelled from the spec: [add_card] called without a priority. *)
Definition add_card_default (column_index : Z) (t d : string) : M unit :=
  add_card column_index t d 1.

(** *** Persistence codec *)

(** Modelled from the spec: what [save] writes for a card (spec 4.5, 6):
    title, description and priority. *)
Definition encode_card (c : Card) : FileCard :=
  {| f_title := Some (title c); f_description := Some (description c);
     f_priority := Some (priority c) |}.

(** Modelled from the spec: what [save] writes for a column: its name and
    its cards in insertion order. *)
Definition encode_column (col : Column) : FileColumn :=
  {| f_name := Some (name col); f_cards := Some (encode_card <$> cards col) |}.

(** Modelled from the spec: what [save] writes for a board: its columns
    in order. *)
Definition encode_board (b : KanbanBoard) : FileData :=
  Structured (Some (encode_column <$> columns b)).

(** Modelled from the spec: the priorities [load] accepts (spec 4.5, 6). *)
Definition valid_priority (p : Z) : bool := (1 <=? p) && (p <=? 3).

(** Modelled from the spec: what [load] makes of a stored card; nothing
    when a field is missing or the priority is outside 1..3. *)
Definition decode_card (fc : FileCard) : option Card :=
  t ← f_title fc;
  d ← f_description fc;
  p ← f_priority fc;
  if valid_priority p then Some {| title := t; description := d; priority := p |}
  else None.

(** Modelled from the spec: what [load] makes of a stored column, its
    cards in the order stored. *)
Definition decode_column (fcol : FileColumn) : option Column :=
  n ← f_name fcol;
  fcs ← f_cards fcol;
  cs ← mapM decode_card fcs;
  Some {| name := n; cards := cs |}.

(** Modelled from the spec: what [load] makes of a file, its columns in
    the order stored. *)
Definition decode_board (f : FileData) : option KanbanBoard :=
  match f with
  | Unreadable => None
  | Structured fcols =>
      fcs ← fcols;
      cs ← mapM decode_column fcs;
      Some {| columns := cs |}
  end.

(** Modelled from the spec: [KanbanBoard.save] (spec 4.5), which writes
    the full board to the file: the columns in order, each with its name
    and its cards in insertion order, each card with its title,
    description and priority.  It fails with [IOError] when the file
    cannot be written (spec 7: unwritable, permission denied), and then
    writes nothing. *)
Definition save (filename : string) : M unit :=
  b ← get_board;
  w ← get_world;
  if writable w filename then
    set_files (<[filename := encode_board b]> (files w))
  else raise IOError.

(** Modelled from the spec: [KanbanBoard.load] (spec 4.5), which rebuilds
    the columns and cards in the order stored and fails with [FormatError]
    when the file is missing, unreadable or structurally invalid (a
    required field missing, a priority outside 1..3); a failed load leaves
    the receiving object as it was. *)
Definition load (filename : string) : M unit :=
  w ← get_world;
  f ← or_raise FormatError (files w !! filename);
  b ← or_raise FormatError (decode_board f);
  set_board b.

(** ** Input and rendering *)

(** [stdscr.getch()] *)
Definition getch : M Z :=
  w ← get_world;
  match keys w with
  | [] => blocked
  | k :: ks => set_keys ks;; mret k
  end.

Definition is_enter (key : Z) : bool :=
  (key =? curses.KEY_ENTER) || (key =? 10) || (key =? 13).

Definition is_backspace (key : Z) : bool :=
  (key =? curses.KEY_BACKSPACE) || (key =? 127) || (key =? 8).

(** Whether row [y], column [x] is a cell of a window of size [yx] =
    (height, width): the cursor can be moved there. *)
Definition in_window (yx : Z * Z) (y x : Z) : bool :=
  (0 <=? y) && (y <? yx.1) && (0 <=? x) && (x <? yx.2).

(** What [stdscr.getch(y, x)] returns when the cursor cannot be moved to
    (y, x): the read fails at once and takes no key. *)
Definition ERR : Z := -1.

(** The loop of [get_input], l.122-135, run on the pending keys: the text
    entered and the keys left.  Each round reads its key at column
    [x + len(prompt) + len(inp)] of row [y] (l.123).  When that cell is
    outside the window the read takes no key and returns [ERR], which is
    neither Enter nor a backspace nor a code from 32 to 126: the round
    changes nothing, so the next one is the same and the loop never ends. *)
Fixpoint get_input_loop (yx : Z * Z) (y x : Z) (prompt : string)
    (max_length : Z) (inp : string) (ks : list Z) : Result string * list Z :=
  if negb (in_window yx y (x + Py.str_len prompt + Py.str_len inp)) then
    (Blocked, ks)
  else
    match ks with
    | [] => (Blocked, [])
    | key :: ks' =>
        if is_enter key then (Ok inp, ks')
        else if is_backspace key then
          if 0 <? Py.str_len inp then
            get_input_loop yx y x prompt max_length (Py.drop_last inp) ks'
          else get_input_loop yx y x prompt max_length inp ks'
        else if (32 <=? key) && (key <=? 126) && (Py.str_len inp <? max_length) then
          get_input_loop yx y x prompt max_length
            (inp +:+ String (Py.chr key) EmptyString) ks'
        else get_input_loop yx y x prompt max_length inp ks'
    end.

(** [get_input(stdscr, y, x, prompt, max_length)] *)
Definition get_input (y x : Z) (prompt : string) (max_length : Z) : M string :=
  w ← get_world;
  let '(r, ks) := get_input_loop (maxyx w) y x prompt max_length "" (keys w) in
  set_keys ks;; of_result r.

(** The loop of [file_picker] on the pending keys. *)
Fixpoint file_picker_loop (path : string) (fs : list string) (idx : Z) (ks : list Z)
  : Result (option string) * list Z :=
  match ks with
  | [] => (Blocked, [])
  | key :: ks' =>
      if ((key =? curses.KEY_UP) || (key =? Py.ord "k")) && (idx >? 0) then
        file_picker_loop path fs (idx - 1) ks'
      else if ((key =? curses.KEY_DOWN) || (key =? Py.ord "j")) && (idx <? Py.len fs - 1) then
        file_picker_loop path fs (idx + 1) ks'
      else if is_enter key then
        match Py.getitem fs idx with
        | Some f => (Ok (Some (Py.path_join path f)), ks')
        | None => (Raise IndexError, ks')
        end
      else if key =? 27 then (Ok None, ks')
      else file_picker_loop path fs idx ks'
  end.

(** [file_picker(stdscr)] *)
Definition file_picker : M (option string) :=
  w ← get_world;
  let fs := filter (λ f, Py.endswith f ".kanban" = true) (listing w) in
  if negb (Py.truthy fs) then getch;; mret None
  else
    let '(r, ks) := file_picker_loop (folder_path w) fs 0 (keys w) in
    set_keys ks;; of_result r.

Inductive Action := new | open | quit.

Definition startup_options : list Action := [new; open; quit].

(** The loop of [show_startup_screen] on the pending keys. *)
Fixpoint startup_screen_loop (selected_option : Z) (ks : list Z)
  : Result Action * list Z :=
  match ks with
  | [] => (Blocked, [])
  | key :: ks' =>
      if (key =? curses.KEY_UP) || (key =? Py.ord "k") then
        startup_screen_loop ((selected_option - 1) `mod` Py.len startup_options) ks'
      else if (key =? curses.KEY_DOWN) || (key =? Py.ord "j") then
        startup_screen_loop ((selected_option + 1) `mod` Py.len startup_options) ks'
      else if is_enter key then
        match Py.getitem startup_options selected_option with
        | Some a => (Ok a, ks')
        | None => (Raise IndexError, ks')
        end
      else if key =? 27 then (Ok quit, ks')
      else startup_screen_loop selected_option ks'
  end.

(** [show_startup_screen(stdscr)] *)
Definition show_startup_screen : M Action :=
  w ← get_world;
  let '(r, ks) := startup_screen_loop 0 (keys w) in
  set_keys ks;; of_result r.

(** [show_help(stdscr)]: waits for one key. *)
Definition show_help : M unit := getch;; mret tt.

(** [sorted(cards, key=lambda c: c.priority, reverse=True)]: by priority,
    high to low, cards of equal priority in their stored order. *)
Fixpoint insert_by_priority (c : Card) (l : list Card) : list Card :=
  match l with
  | [] => [c]
  | d :: l' =>
      if priority d <=? priority c then c :: d :: l'
      else d :: insert_by_priority c l'
  end.

Definition sorted_cards (l : list Card) : list Card :=
  foldr insert_by_priority [] l.

(** What [draw_board] puts on a screen tall enough for every card: per
    column its name and its cards in display order, each with the flag of
    the reverse-video attribute ([i == selected_col and j ==
    selected_card]). *)
Definition draw_column (sel_col sel_card : Z) (i : nat) (col : Column)
  : string * list (Card * bool) :=
  (name col,
   imap (λ j card, (card, (Z.of_nat i =? sel_col) && (Z.of_nat j =? sel_card)))
        (sorted_cards (cards col))).

Definition draw_board (b : KanbanBoard) (sel_col sel_card : Z)
  : list (string * list (Card * bool)) :=
  imap (draw_column sel_col sel_card) (columns b).

(** The cards drawn in reverse video. *)
Definition highlighted (b : KanbanBoard) (sel_col sel_card : Z) : list Card :=
  fst <$> filter (λ cb, snd cb = true) (concat (snd <$> draw_board b sel_col sel_card)).

(** [create_default_board(board)] *)
Definition create_default_board : M unit :=
  add_column "To Do";;
  add_column "In Progress";;
  add_column "Done";;
  add_card 0 "Task 1" "Press H for Help" 3;;
  add_card_default 1 "Task 2" "Press 'E' to edit me!";;
  add_card_default 2 "Task 3"
    "Issue? Report it at https://github.com/armadillomike/termikanban/issues".

(** ** The main event loop *)

Inductive Ctl := Continue | Break.

Definition when (b : bool) (m : M unit) (σ : Machine) : Result unit * Machine :=
  if b then m σ else (Ok tt, σ).

(** [key in (k1, k2, ...)] *)
Definition key_in (key : Z) (ks : list Z) : bool := existsb (Z.eqb key) ks.

(** [int(s)] on a string of decimal digits. *)
Fixpoint int_digits (acc : Z) (s : string) : Z :=
  match s with
  | EmptyString => acc
  | String c s' => int_digits (10 * acc + (Py.ord c - 48)) s'
  end.

Definition int (s : string) : Z := int_digits 0 s.

(** main.py, l.345-347 *)
Definition snapshot : M unit :=
  l ← get_locals;
  set_undo_stack (Py.append (undo_stack l) (board l));;
  set_redo_stack [].

(** main.py, l.354 *)
Definition snapshot_keys : list Z :=
  [Py.ord "a"; Py.ord "d"; Py.ord "e"; Py.ord "c";
   Py.ord "m"; Py.ord "b"; Py.ord "["; Py.ord "]"].

(** [q], l.357-367 *)
Definition on_quit : M Ctl :=
  confirm ← getch;
  if key_in confirm [Py.ord "y"; Py.ord "Y"] then
    save_name ← get_input 16 0 "Name:" 10;
    save (save_name +:+ ".kanban");;
    mret Break
  else if key_in confirm [Py.ord "n"; Py.ord "N"] then mret Break
  else mret Continue.

(** [m], l.380-386, and [b], l.387-393: the card under the cursor goes to
    the end of the column [sc + dir]. *)
Definition move_card_by (dir : Z) (guard : Z → KanbanBoard → bool) : M unit :=
  l ← get_locals;
  let sc := selected_col l in
  let scard := selected_card l in
  go ← (if guard sc (board l)
        then col ← column_at sc; mret (Py.truthy (cards col))
        else mret false);
  when go (
    col ← column_at sc;
    '(card, rest) ← or_raise IndexError (Py.pop (cards col) scard);
    set_column_at sc (with_cards col rest);;
    dst ← column_at (sc + dir);
    set_column_at (sc + dir) (with_cards dst (Py.append (cards dst) card));;
    src ← column_at sc;
    when (scard >=? Py.len (cards src))
         (set_selected_card (Z.max 0 (Py.len (cards src) - 1)));;
    set_selected_col (sc + dir)).

Definition on_move_right : M unit :=
  move_card_by 1 (λ sc b, sc <? Py.len (columns b) - 1).

Definition on_move_left : M unit :=
  move_card_by (-1) (λ sc _, sc >? 0).

(** [d], l.396-400 *)
Definition on_delete : M unit :=
  l ← get_locals;
  let sc := selected_col l in
  let scard := selected_card l in
  col ← column_at sc;
  when (Py.truthy (cards col)) (
    '(_, rest) ← or_raise IndexError (Py.pop (cards col) scard);
    set_column_at sc (with_cards col rest);;
    src ← column_at sc;
    when (scard >=? Py.len (cards src))
         (set_selected_card (Z.max 0 (Py.len (cards src) - 1)))).

(** l.405: [int(priority_str) if priority_str in ("1", "2", "3") else 1] *)
Definition entered_priority (priority_str : string) : Z :=
  if existsb (String.eqb priority_str) ["1"; "2"; "3"]%string
  then int priority_str else 1.

(** [a], l.401-406 *)
Definition on_add : M unit :=
  t ← get_input 15 0 "Title: " 20;
  d ← get_input 16 0 "Description: " 40;
  priority_str ← get_input 17 0 "Priority (1=Low, 2=Med, 3=High): " 1;
  add_card 0 t d (entered_priority priority_str).

(** [e], l.407-414 *)
Definition on_edit : M unit :=
  l ← get_locals;
  let sc := selected_col l in
  let scard := selected_card l in
  col ← column_at sc;
  when (Py.truthy (cards col)) (
    card ← or_raise IndexError (Py.getitem (cards col) scard);
    new_title ← get_input 15 0 ("Edit Title (" +:+ title card +:+ "): ") 20;
    new_description ←
      get_input 16 0 ("Edit Description (" +:+ description card +:+ "): ") 40;
    let card1 := with_title card
                   (if Py.str_truthy new_title then new_title else title card) in
    let card2 := with_description card1
                   (if Py.str_truthy new_description then new_description
                    else description card1) in
    cs ← or_raise IndexError (Py.setitem (cards col) scard card2);
    set_column_at sc (with_cards col cs)).

(** [s], l.417-419 *)
Definition on_save : M unit :=
  save_name ← get_input 15 0 "Filename:" 10;
  save (save_name +:+ ".kanban").

(** [o], l.420-424 *)
Definition on_open : M unit :=
  file_path ← file_picker;
  match file_path with
  | Some p => when (Py.str_truthy p) (set_board KanbanBoard_new;; load p)
  | None => mret tt
  end.

(** [c], l.425-431 *)
Definition on_add_column : M unit :=
  col_name ← get_input 15 0 "New column name: " 20;
  when (Py.str_truthy col_name) (
    add_column col_name;;
    b ← get_board;
    set_selected_col (Py.len (columns b) - 1);;
    set_selected_card 0).

(** The tuple assignment [cols[i], cols[j] = cols[j], cols[i]]: both reads,
    then the two writes from left to right. *)
Definition swap_columns (i j : Z) : M unit :=
  x ← column_at j;
  y ← column_at i;
  set_column_at i x;;
  set_column_at j y.

(** [[], l.434-438 *)
Definition on_column_left : M unit :=
  sc ← get_selected_col;
  when (sc >? 0) (swap_columns (sc - 1) sc;; set_selected_col (sc - 1)).

(** []], l.439-443 *)
Definition on_column_right : M unit :=
  l ← get_locals;
  let sc := selected_col l in
  when (sc <? Py.len (columns (board l)) - 1)
       (swap_columns (sc + 1) sc;; set_selected_col (sc + 1)).

(** [z], l.446-449 *)
Definition on_undo : M unit :=
  l ← get_locals;
  when (Py.truthy (undo_stack l)) (
    set_redo_stack (Py.append (redo_stack l) (board l));;
    '(b, rest) ← or_raise IndexError (Py.pop (undo_stack l) (-1));
    set_undo_stack rest;;
    set_board b).

(** [x], l.450-453 *)
Definition on_redo : M unit :=
  l ← get_locals;
  when (Py.truthy (redo_stack l)) (
    set_undo_stack (Py.append (undo_stack l) (board l));;
    '(b, rest) ← or_raise IndexError (Py.pop (redo_stack l) (-1));
    set_redo_stack rest;;
    set_board b).

(** [card.priority % 3 + 1] *)
Definition bump (p : Z) : Z := p `mod` 3 + 1.

(** [p], l.456-459 *)
Definition on_priority : M unit :=
  l ← get_locals;
  let sc := selected_col l in
  let scard := selected_card l in
  col ← column_at sc;
  when (Py.truthy (cards col)) (
    card ← or_raise IndexError (Py.getitem (cards col) scard);
    cs ← or_raise IndexError
           (Py.setitem (cards col) scard (with_priority card (bump (priority card))));
    set_column_at sc (with_cards col cs)).

(** The [if]/[elif] chain on the key, l.357-461. *)
Definition dispatch (key : Z) : M Ctl :=
  if key =? Py.ord "q" then on_quit
  else
    l ← get_locals;
    let b := board l in
    let sc := selected_col l in
    let scard := selected_card l in
    if (key =? curses.KEY_RIGHT) && (sc <? Py.len (columns b) - 1) then
      set_selected_col (sc + 1);; set_selected_card 0;; mret Continue
    else if (key =? curses.KEY_LEFT) && (sc >? 0) then
      set_selected_col (sc - 1);; set_selected_card 0;; mret Continue
    else
      down ← (if key =? curses.KEY_DOWN
              then col ← column_at sc; mret (scard <? Py.len (cards col) - 1)
              else mret false);
      if (down : bool) then set_selected_card (scard + 1);; mret Continue
      else if (key =? curses.KEY_UP) && (scard >? 0) then
        set_selected_card (scard - 1);; mret Continue
      else if key =? Py.ord "m" then on_move_right;; mret Continue
      else if key =? Py.ord "b" then on_move_left;; mret Continue
      else if key =? Py.ord "d" then on_delete;; mret Continue
      else if key =? Py.ord "a" then on_add;; mret Continue
      else if key =? Py.ord "e" then on_edit;; mret Continue
      else if key =? Py.ord "s" then on_save;; mret Continue
      else if key =? Py.ord "o" then on_open;; mret Continue
      else if key =? Py.ord "c" then on_add_column;; mret Continue
      else if key =? Py.ord "[" then on_column_left;; mret Continue
      else if key =? Py.ord "]" then on_column_right;; mret Continue
      else if key =? Py.ord "z" then on_undo;; mret Continue
      else if key =? Py.ord "x" then on_redo;; mret Continue
      else if key =? Py.ord "p" then on_priority;; mret Continue
      else if key =? Py.ord "h" then show_help;; mret Continue
      else mret Continue.

(** One pass of the body of [while True] after [key = stdscr.getch()],
    l.354-461. *)
Definition on_key (key : Z) : M Ctl :=
  when (key_in key snapshot_keys) snapshot;;
  dispatch key.

(** The body of [while True], l.351-461; [draw_board] leaves the machine
    as it is. *)
Definition loop_body : M Ctl :=
  key ← getch;
  on_key key.

Fixpoint main_loop_fuel (fuel : nat) : M unit :=
  match fuel with
  | O => blocked
  | S n =>
      c ← loop_body;
      match c with
      | Break => mret tt
      | Continue => main_loop_fuel n
      end
  end.

(** Every pass reads a key first, so one more pass than there are pending
    keys is all the loop can make. *)
Definition main_loop : M unit :=
  w ← get_world;
  main_loop_fuel (S (length (keys w))).

(** main.py, l.328-343: the cursor made valid for the new or loaded
    board. *)
Definition clamp_cursor : M unit :=
  b ← get_board;
  if negb (Py.truthy (columns b)) then mret tt
  else
    sc ← get_selected_col;
    set_selected_col (Z.min sc (Py.len (columns b) - 1));;
    sc' ← get_selected_col;
    col ← column_at sc';
    if Py.truthy (cards col) then
      scard ← get_selected_card;
      set_selected_card (Z.min scard (Py.len (cards col) - 1))
    else set_selected_card 0.

(** main.py, l.324-343: between the start-up and the main loop. *)
Definition enter_loop : M unit :=
  set_undo_stack [];;
  set_redo_stack [];;
  clamp_cursor.

(** [os.path.exists(path)] *)
Definition path_exists (path : string) : M bool :=
  w ← get_world;
  mret (bool_decide (is_Some (files w !! path))).

Definition new_default_board : M unit :=
  set_board KanbanBoard_new;; create_default_board.

(** main.py, l.266-322: [Break] stands for the [return] that leaves
    [main]. *)
Definition startup (argv : list string) : M Ctl :=
  set_board KanbanBoard_new;;
  set_selected_col 0;;
  set_selected_card 0;;
  if Py.len argv >? 1 then
    file_to_open ← or_raise IndexError (Py.getitem argv 1);
    ex ← path_exists file_to_open;
    if ex && Py.endswith file_to_open ".kanban" then
      try_except (load file_to_open)
        (λ _, getch;;
              set_board KanbanBoard_new;;
              add_column "To Do";;
              add_column "In Progress";;
              add_column "Done";;
              create_default_board);;
      mret Continue
    else
      getch;;
      action ← show_startup_screen;
      match action with
      | new => new_default_board;; mret Continue
      | open =>
          file_path ← file_picker;
          match file_path with
          | Some p =>
              (if Py.str_truthy p then set_board KanbanBoard_new;; load p
               else new_default_board);;
              mret Continue
          | None => new_default_board;; mret Continue
          end
      | quit => mret Break
      end
  else
    action ← show_startup_screen;
    match action with
    | new => new_default_board;; mret Continue
    | open =>
        file_path ← file_picker;
        match file_path with
        | Some p =>
            (* l.316-317: [board] is bound to the class, not to an
               instance, and [load] is called without its receiver *)
            (if Py.str_truthy p then raise TypeError else new_default_board);;
            mret Continue
        | None => new_default_board;; mret Continue
        end
    | quit => mret Break
    end.

(** [main(stdscr)] *)
Definition main (argv : list string) : M unit :=
  c ← startup argv;
  match c with
  | Break => mret tt
  | Continue => enter_loop;; main_loop
  end.

Definition initial_locals : Locals :=
  {| board := KanbanBoard_new; selected_col := 0; selected_card := 0;
     undo_stack := []; redo_stack := [] |}.

(** ** Predicates on machines *)

Definition stacks (σ : Machine) : list KanbanBoard * list KanbanBoard :=
  (undo_stack (locals σ), redo_stack (locals σ)).

(** However [m] ends, the machine it ends on is [R]-related to the one it
    started on. *)
Definition respects {A} (R : relation Machine) (m : M A) : Prop :=
  ∀ σ, R σ (m σ).2.

(** The part [part] of the machine is as it was. *)
Definition same {X} (part : Machine → X) : relation Machine :=
  λ σ σ', part σ' = part σ.

(** No key has been added to the pending ones. *)
Definition no_more_keys : relation Machine :=
  λ σ σ', (length (keys (world σ')) <= length (keys (world σ)))%nat.

Abbreviation keeps part := (respects (same part)).
Abbreviation keeps_stacks := (keeps stacks).
Abbreviation keeps_locals := (keeps locals).

(** The cursor points into the board: a column index within the columns
    (0 when there are none) and a card index within the cards of the
    selected column (0 when it has none). *)
Definition cursor_valid (l : Locals) : bool :=
  match columns (board l) with
  | [] => selected_col l =? 0
  | _ :: _ =>
      match Py.getitem (columns (board l)) (selected_col l) with
      | Some col =>
          (0 <=? selected_col l) &&
          match cards col with
          | [] => selected_card l =? 0
          | _ :: _ =>
              (0 <=? selected_card l) && (selected_card l <? Py.len (cards col))
          end
      | None => false
      end
  end.

(** Every card of the board has a priority of the data model, 1 to 3. *)
Definition board_ok (b : KanbanBoard) : bool :=
  forallb (λ col, forallb (λ c, valid_priority (priority c)) (cards col))
          (columns b).

(** The same as propositions, on cards, columns and the locals: the
    board and every snapshot on the two stacks. *)
Definition card_ok (c : Card) : Prop := 1 <= priority c <= 3.
Definition cards_ok (cs : list Card) : Prop := Forall card_ok cs.
Definition columns_ok (cols : list Column) : Prop :=
  Forall (λ col, cards_ok (cards col)) cols.
Definition locals_ok (l : Locals) : Prop :=
  columns_ok (columns (board l)) ∧
  Forall (λ b, columns_ok (columns b)) (undo_stack l) ∧
  Forall (λ b, columns_ok (columns b)) (redo_stack l).

(** [m], started on locals within the data model, leaves such locals
    however it ends, and what it returns satisfies [φ]. *)
Definition yields {A} (m : M A) (φ : A → Prop) : Prop :=
  ∀ σ, locals_ok (locals σ) →
       locals_ok (locals (m σ).2) ∧ ∀ a, (m σ).1 = Ok a → φ a.

Abbreviation keeps_ok m := (yields m (λ _, True)).

(** ** Sample machines *)

Definition default_board : KanbanBoard :=
  {| columns :=
       [ {| name := "To Do";
            cards := [ {| title := "Task 1"; description := "Press H for Help";
                          priority := 3 |} ] |};
         {| name := "In Progress";
            cards := [ {| title := "Task 2"; description := "Press 'E' to edit me!";
                          priority := 1 |} ] |};
         {| name := "Done";
            cards := [ {| title := "Task 3";
                          description := "Issue? Report it at https://github.com/armadillomike/termikanban/issues";
                          priority := 1 |} ] |} ] |}.

Definition work_board : KanbanBoard :=
  {| columns :=
       [ {| name := "Inbox";
            cards := [ {| title := "Call Ana"; description := ""; priority := 2 |} ] |} ] |}.

Definition sample_folder : string := "/home/user/Documents/TermiKanban Boards".

Definition sample_files : gmap string FileData :=
  {[ Py.path_join sample_folder "work.kanban" := encode_board work_board;
     Py.path_join sample_folder "broken.kanban" := Unreadable ]}.

(** A world with a terminal of 24 rows and 80 columns, whose save folder
    lists two boards, one of them unreadable, where a file can be written
    under any name without a [/] (the working directory has no
    sub-directory), and where [ks] are the keys to come. *)
Definition sample_world (ks : list Z) : World :=
  {| keys := ks; maxyx := (24, 80); folder_path := sample_folder;
     listing := ["broken.kanban"; "notes.txt"; "work.kanban"]%string;
     files := sample_files;
     writable := λ path, negb (existsb (Ascii.eqb "/") (list_ascii_of_string path)) |}.

(** The machine [main] starts on. *)
Definition start (ks : list Z) : Machine :=
  {| locals := initial_locals; world := sample_world ks |}.

(** A world whose only file, [empty.kanban], holds a board without
    columns. *)
Definition empty_board_world (ks : list Z) : World :=
  {| keys := ks; maxyx := (24, 80); folder_path := sample_folder;
     listing := [];
     files := {[ "empty.kanban"%string := Structured (Some []) ]};
     writable := λ _, true |}.

(** The machine in the main loop, default board on screen, cursor on the
    first card. *)
Definition at_default (ks : list Z) : Machine :=
  {| locals := {| board := default_board; selected_col := 0; selected_card := 0;
                  undo_stack := []; redo_stack := [] |};
     world := sample_world ks |}.

(** The Enter key as a terminal sends it. *)
Definition ENTER : Z := 10.

(** New board, three cards added with empty answers, cursor two down. *)
Definition keys_before_move : list Z :=
  [ENTER;
   Py.ord "a"; ENTER; ENTER; ENTER;
   Py.ord "a"; ENTER; ENTER; ENTER;
   Py.ord "a"; ENTER; ENTER; ENTER;
   curses.KEY_DOWN; curses.KEY_DOWN].

(** New board, cursor on the third column. *)
Definition keys_before_open : list Z :=
  [ENTER; curses.KEY_RIGHT; curses.KEY_RIGHT].

(** In the file picker: down to the second board file, [work.kanban], and
    Enter. *)
Definition keys_pick_work : list Z := [curses.KEY_DOWN; ENTER].

(** New board, "Task 1" bumped from priority 3 to 1, then a card "X" of
    priority 3 added. *)
Definition keys_before_delete : list Z :=
  [ENTER; Py.ord "p";
   Py.ord "a"; Py.ord "X"; ENTER; ENTER; Py.ord "3"; ENTER].

(** [main] without arguments on the sample world, fed the keys [ks]; the
    run ends [Blocked] when the keys run out inside the main loop. *)
Definition run (ks : list Z) : Result unit * Machine := main [] (start ks).

(** ** Keys typed and keys bound *)

(** The key codes that type the string [s]. *)
Definition keys_of_string (s : string) : list Z :=
  Py.ord <$> list_ascii_of_string s.

(** The characters [get_input] accepts: codes 32 to 126. *)
Definition printable (s : string) : Prop :=
  Forall (λ c, 32 <= Py.ord c <= 126) (list_ascii_of_string s).

(** The keys the chain of l.354-461 has a branch for. *)
Definition bound_keys : list Z :=
  [Py.ord "q"; curses.KEY_RIGHT; curses.KEY_LEFT; curses.KEY_DOWN; curses.KEY_UP;
   Py.ord "m"; Py.ord "b"; Py.ord "d"; Py.ord "a"; Py.ord "e"; Py.ord "s";
   Py.ord "o"; Py.ord "c"; Py.ord "["; Py.ord "]"; Py.ord "z"; Py.ord "x";
   Py.ord "p"; Py.ord "h"].

(** * Properties *)

(** ** Python lists *)

Section PyLists.
Context {A : Type}.
Implicit Types (l : list A) (x : A) (i : Z).

Lemma len_app l x : Py.len (Py.append l x) = Py.len l + 1.
Proof. unfold Py.len, Py.append. rewrite length_app. simpl. lia. Qed.

Lemma len_nonneg l : 0 <= Py.len l.
Proof. unfold Py.len. lia. Qed.

Lemma truthy_append l x : Py.truthy (Py.append l x) = true.
Proof. destruct l; reflexivity. Qed.

Lemma norm_index_last l x : Py.norm_index (Py.append l x) (-1) = Some (length l).
Proof.
  unfold Py.norm_index. rewrite len_app.
  replace (-1 <? 0) with true by reflexivity.
  replace (-1 + (Py.len l + 1)) with (Py.len l) by lia.
  pose proof (len_nonneg l).
  replace (0 <=? Py.len l) with true by (symmetry; apply Z.leb_le; lia).
  replace (Py.len l <? Py.len l + 1) with true by (symmetry; apply Z.ltb_lt; lia).
  simpl. unfold Py.len. by rewrite Nat2Z.id.
Qed.

(** [l.append(x)] then [l.pop()] gives [x] back and leaves [l]. *)
Lemma pop_append l x : Py.pop (Py.append l x) (-1) = Some (x, l).
Proof.
  unfold Py.pop. rewrite norm_index_last. simpl.
  unfold Py.append. rewrite lookup_app_r by lia.
  rewrite Nat.sub_diag. simpl. f_equal. f_equal.
  induction l as [|a l IH]; simpl; [reflexivity | by rewrite IH].
Qed.

Lemma norm_index_nonneg l i :
  0 <= i < Py.len l → Py.norm_index l i = Some (Z.to_nat i).
Proof.
  intros [H0 H1]. unfold Py.norm_index.
  replace (i <? 0) with false by (symmetry; apply Z.ltb_ge; lia).
  replace (0 <=? i) with true by (symmetry; apply Z.leb_le; lia).
  replace (i <? Py.len l) with true by (symmetry; apply Z.ltb_lt; lia).
  reflexivity.
Qed.

Lemma len_cons x l : Py.len (x :: l) = Py.len l + 1.
Proof. unfold Py.len. simpl length. lia. Qed.

Lemma norm_index_0 x l : Py.norm_index (x :: l) 0 = Some 0%nat.
Proof.
  rewrite norm_index_nonneg; [reflexivity|].
  rewrite len_cons. pose proof (len_nonneg l). lia.
Qed.

Lemma getitem_0 x l : Py.getitem (x :: l) 0 = Some x.
Proof. unfold Py.getitem. by rewrite norm_index_0. Qed.

Lemma setitem_0 x y l : Py.setitem (x :: l) 0 y = Some (y :: l).
Proof. unfold Py.setitem. by rewrite norm_index_0. Qed.
End PyLists.

(** ** What a statement leaves alone *)

Global Instance same_preorder {X} (part : Machine → X) : PreOrder (same part).
Proof.
  split; [by intros σ | intros σ1 σ2 σ3 H12 H23].
  unfold same in *. by rewrite H23.
Qed.

Global Instance no_more_keys_preorder : PreOrder no_more_keys.
Proof.
  split; [intros σ | intros σ1 σ2 σ3 H12 H23]; unfold no_more_keys in *; lia.
Qed.

Create HintDb frame discriminated.

Section Respects.
Context {A B : Type} (R : relation Machine) `{!PreOrder R}.

Lemma respects_ret (a : A) : respects R (mret a).
Proof. by intros σ. Qed.

Lemma respects_raise (e : Exn) : respects R (@raise A e).
Proof. by intros σ. Qed.

Lemma respects_blocked : respects R (@blocked A).
Proof. by intros σ. Qed.

Lemma respects_of_result (r : Result A) : respects R (of_result r).
Proof. by intros σ. Qed.

Lemma respects_or_raise e (o : option A) : respects R (or_raise e o).
Proof. intros σ. by destruct o. Qed.

Lemma respects_get_locals : respects R get_locals.
Proof. by intros σ. Qed.

Lemma respects_get_world : respects R get_world.
Proof. by intros σ. Qed.

Lemma respects_bind (m : M A) (f : A → M B) :
  respects R m → (∀ a, respects R (f a)) → respects R (m ≫= f).
Proof.
  intros Hm Hf σ. unfold mbind, M_bind, bind.
  specialize (Hm σ). destruct (m σ) as [[a|e|] σ']; simpl in *; try done.
  transitivity σ'; [exact Hm | apply Hf].
Qed.

Lemma respects_try_except (m : M A) (h : Exn → M A) :
  respects R m → (∀ e, respects R (h e)) → respects R (try_except m h).
Proof.
  intros Hm Hh σ. unfold try_except.
  specialize (Hm σ). destruct (m σ) as [[a|e|] σ']; simpl in *; try done.
  transitivity σ'; [exact Hm | apply Hh].
Qed.

Lemma respects_when b m : respects R m → respects R (when b m).
Proof. intros Hm σ. unfold when. destruct b; [apply Hm | done]. Qed.
End Respects.

#[export] Hint Resolve same_preorder no_more_keys_preorder respects_ret
  respects_raise respects_blocked respects_of_result respects_or_raise
  respects_get_locals respects_get_world : frame.

(** Splits a statement along its binds and branches, down to the
    statements the hint base knows. *)
Ltac frame :=
  repeat first
    [ progress intros
    | solve [eauto with frame]
    | apply respects_bind
    | apply respects_when
    | apply respects_try_except
    | match goal with
      | |- respects _ (if ?b then _ else _) => destruct b
      | |- respects _ (match ?x with _ => _ end) => destruct x
      end ].

(** The statements of [main] below the snapshot, undo and redo reach the
    machine through a few operations only; a relation these respect is
    respected by all of them. *)
Section Footprint.
Context (R : relation Machine) `{!PreOrder R}.
Context (R_set_board : ∀ b, respects R (set_board b))
        (R_set_selected_col : ∀ i, respects R (set_selected_col i))
        (R_set_selected_card : ∀ j, respects R (set_selected_card j))
        (R_set_files : ∀ fs, respects R (set_files fs))
        (R_getch : respects R getch)
        (R_get_input : ∀ y x prompt n, respects R (get_input y x prompt n))
        (R_file_picker : respects R file_picker)
        (R_show_startup_screen : respects R show_startup_screen).

#[local] Hint Resolve R_set_board R_set_selected_col R_set_selected_card
  R_set_files R_getch R_get_input R_file_picker R_show_startup_screen : frame.

Lemma respects_get_board : respects R get_board.
Proof. unfold get_board. frame. Qed.

Lemma respects_get_selected_col : respects R get_selected_col.
Proof. unfold get_selected_col. frame. Qed.

Lemma respects_get_selected_card : respects R get_selected_card.
Proof. unfold get_selected_card. frame. Qed.

#[local] Hint Resolve respects_get_board respects_get_selected_col
  respects_get_selected_card : frame.

Lemma respects_column_at i : respects R (column_at i).
Proof. unfold column_at. frame. Qed.

Lemma respects_set_column_at i col : respects R (set_column_at i col).
Proof. unfold set_column_at. frame. Qed.

#[local] Hint Resolve respects_column_at respects_set_column_at : frame.

Lemma respects_add_column n : respects R (add_column n).
Proof. unfold add_column. frame. Qed.

Lemma respects_add_card i t d p : respects R (add_card i t d p).
Proof. unfold add_card. frame. Qed.

Lemma respects_save f : respects R (save f).
Proof. unfold save. frame. Qed.

Lemma respects_load f : respects R (load f).
Proof. unfold load. frame. Qed.

#[local] Hint Resolve respects_add_column respects_add_card respects_save
  respects_load : frame.

Lemma respects_show_help : respects R show_help.
Proof. unfold show_help. frame. Qed.

Lemma respects_on_quit : respects R on_quit.
Proof. unfold on_quit. frame. Qed.

Lemma respects_move_card_by dir guard : respects R (move_card_by dir guard).
Proof. unfold move_card_by. frame. Qed.

Lemma respects_on_delete : respects R on_delete.
Proof. unfold on_delete. frame. Qed.

Lemma respects_on_add : respects R on_add.
Proof. unfold on_add. frame. Qed.

Lemma respects_on_edit : respects R on_edit.
Proof. unfold on_edit. frame. Qed.

Lemma respects_on_save : respects R on_save.
Proof. unfold on_save. frame. Qed.

Lemma respects_on_open : respects R on_open.
Proof. unfold on_open. frame. Qed.

Lemma respects_swap_columns i j : respects R (swap_columns i j).
Proof. unfold swap_columns. frame. Qed.

Lemma respects_on_add_column : respects R on_add_column.
Proof. unfold on_add_column. frame. Qed.

Lemma respects_on_priority : respects R on_priority.
Proof. unfold on_priority. frame. Qed.

#[local] Hint Resolve respects_show_help respects_on_quit
  respects_move_card_by respects_on_delete respects_on_add respects_on_edit
  respects_on_save respects_on_open respects_swap_columns
  respects_on_add_column respects_on_priority : frame.

Lemma respects_on_column_left : respects R on_column_left.
Proof. unfold on_column_left. frame. Qed.

Lemma respects_on_column_right : respects R on_column_right.
Proof. unfold on_column_right. frame. Qed.

Lemma respects_clamp_cursor : respects R clamp_cursor.
Proof. unfold clamp_cursor. frame. Qed.

Lemma respects_create_default_board : respects R create_default_board.
Proof. unfold create_default_board, add_card_default. frame. Qed.

#[local] Hint Resolve respects_on_column_left respects_on_column_right
  respects_create_default_board : frame.

Lemma respects_startup argv : respects R (startup argv).
Proof. unfold startup, new_default_board, path_exists. frame. Qed.

(** The chain respects [R] on every key, given that undo and redo do
    where the key is theirs. *)
Lemma respects_dispatch key :
  (key = Py.ord "z" → respects R on_undo) →
  (key = Py.ord "x" → respects R on_redo) →
  respects R (dispatch key).
Proof.
  intros Hz Hx. unfold dispatch, on_move_right, on_move_left.
  destruct (Z.eqb_spec key (Py.ord "z")) as [Ez|_];
    [specialize (Hz Ez)|clear Hz];
    (destruct (Z.eqb_spec key (Py.ord "x")) as [Ex|_];
     [specialize (Hx Ex)|clear Hx]);
    frame.
Qed.
End Footprint.

(** *** The stacks and the locals *)

Lemma keeps_locals_modify_world f : keeps_locals (modify_world f).
Proof. by intros σ. Qed.

#[export] Hint Resolve keeps_locals_modify_world : frame.

(** Reading keys and picking a file change the world only. *)
Lemma keeps_locals_set_keys ks : keeps_locals (set_keys ks).
Proof. unfold set_keys. frame. Qed.

#[export] Hint Resolve keeps_locals_set_keys : frame.

Lemma keeps_locals_getch : keeps_locals getch.
Proof. unfold getch. frame. Qed.

Lemma keeps_locals_get_input y x prompt n :
  keeps_locals (get_input y x prompt n).
Proof. unfold get_input. frame. Qed.

#[export] Hint Resolve keeps_locals_getch keeps_locals_get_input : frame.

Lemma keeps_locals_file_picker : keeps_locals file_picker.
Proof. unfold file_picker. frame. Qed.

Lemma keeps_locals_show_startup_screen : keeps_locals show_startup_screen.
Proof. unfold show_startup_screen. frame. Qed.

Lemma keeps_locals_stacks {A} (m : M A) : keeps_locals m → keeps_stacks m.
Proof. intros H σ. unfold same, stacks. by rewrite H. Qed.

(** Discharges the footprint of a relation on the stacks. *)
Ltac stacks_footprint :=
  first [ by intros ? σ | by intros σ
        | intros; apply keeps_locals_stacks;
          first [ apply keeps_locals_getch | apply keeps_locals_get_input
                | apply keeps_locals_file_picker
                | apply keeps_locals_show_startup_screen
                | unfold set_files; apply keeps_locals_modify_world ] ].

(** Every branch of the chain but undo and redo leaves the stacks alone. *)
Lemma keeps_dispatch key :
  key ≠ Py.ord "z" → key ≠ Py.ord "x" → keeps_stacks (dispatch key).
Proof.
  intros Hz Hx. apply respects_dispatch; try done; try apply _;
    stacks_footprint.
Qed.

Lemma keeps_clamp_cursor : keeps_stacks clamp_cursor.
Proof. apply respects_clamp_cursor; try apply _; stacks_footprint. Qed.

Ltac ord_eval :=
  repeat match goal with
         | |- context [Py.ord ?c] =>
             let v := eval vm_compute in (Py.ord c) in change (Py.ord c) with v
         end.

(** Runs the statement in the goal on its machine as far as the tests
    on known values decide. *)
Ltac mrun :=
  repeat (progress
    (unfold mbind, M_bind, mret, M_ret, bind, ret, when, raise, blocked,
       of_result, or_raise, get_locals, get_world, modify_locals, modify_world,
       set_board, set_selected_col, set_selected_card, set_undo_stack,
       set_redo_stack, set_keys, set_files, get_board, get_selected_col,
       get_selected_card;
     cbn [locals world board selected_col selected_card undo_stack redo_stack
          keys maxyx folder_path listing files writable columns cards fst snd
          Z.eqb Pos.eqb orb andb negb existsb key_in Py.truthy])).

Ltac on_key_unfold :=
  unfold on_key, dispatch, snapshot_keys, curses.KEY_RIGHT, curses.KEY_LEFT,
    curses.KEY_UP, curses.KEY_DOWN; ord_eval.

(** ** The keys left and the fuel of the loop *)

Lemma get_input_loop_keys yx y x prompt n inp ks :
  (length (get_input_loop yx y x prompt n inp ks).2 <= length ks)%nat.
Proof.
  revert inp. induction ks as [|k ks IH]; intros inp; simpl.
  - by destruct (negb _).
  - repeat case_match; simpl; try lia;
      match goal with
      | |- context [get_input_loop _ _ _ _ _ ?i _] => specialize (IH i)
      end; lia.
Qed.

Lemma file_picker_loop_keys path fs idx ks :
  (length (file_picker_loop path fs idx ks).2 <= length ks)%nat.
Proof.
  revert idx. induction ks as [|k ks IH]; intros idx; [done|].
  simpl. repeat case_match; simpl; try lia;
    match goal with |- context [file_picker_loop _ _ ?i _] => specialize (IH i) end;
    lia.
Qed.

Lemma startup_screen_loop_keys sel ks :
  (length (startup_screen_loop sel ks).2 <= length ks)%nat.
Proof.
  revert sel. induction ks as [|k ks IH]; intros sel; [done|].
  simpl. repeat case_match; simpl; try lia;
    match goal with |- context [startup_screen_loop ?i _] => specialize (IH i) end;
    lia.
Qed.

Lemma no_more_keys_modify_locals f : respects no_more_keys (modify_locals f).
Proof. intros σ. unfold no_more_keys. simpl. lia. Qed.

Lemma no_more_keys_set_files fs : respects no_more_keys (set_files fs).
Proof. intros σ. unfold no_more_keys. simpl. lia. Qed.

(** [getch] takes one key off the pending ones. *)
Lemma getch_keys σ k σ' :
  getch σ = (Ok k, σ') →
  keys (world σ) = k :: keys (world σ') ∧ locals σ' = locals σ.
Proof.
  destruct σ as [l w]. unfold getch. mrun.
  destruct (keys w) as [|k0 ks]; mrun; [discriminate|].
  by intros [= <- <-].
Qed.

Lemma no_more_keys_getch : respects no_more_keys getch.
Proof.
  intros [l w]. unfold getch, no_more_keys. mrun.
  destruct (keys w) as [|k ks] eqn:E; mrun; simpl; rewrite ?E; simpl; lia.
Qed.

Lemma no_more_keys_get_input y x prompt n :
  respects no_more_keys (get_input y x prompt n).
Proof.
  intros [l w]. unfold get_input, no_more_keys. mrun.
  pose proof (get_input_loop_keys (maxyx w) y x prompt n "" (keys w)) as H.
  destruct (get_input_loop _ _ _ _ _ _ _) as [r ks]. mrun.
  by destruct r.
Qed.

Lemma no_more_keys_file_picker : respects no_more_keys file_picker.
Proof.
  intros [l w]. unfold file_picker, no_more_keys. mrun.
  destruct (negb _); mrun.
  - pose proof (no_more_keys_getch {| locals := l; world := w |}) as H.
    unfold no_more_keys in H. destruct (getch _) as [[k|e|] σ']; exact H.
  - pose proof (file_picker_loop_keys (folder_path w)
                  (filter (λ f, Py.endswith f ".kanban" = true) (listing w))
                  0 (keys w)) as H.
    destruct (file_picker_loop _ _ _ _) as [r ks]. mrun. exact H.
Qed.

Lemma no_more_keys_show_startup_screen :
  respects no_more_keys show_startup_screen.
Proof.
  intros [l w]. unfold show_startup_screen, no_more_keys. mrun.
  pose proof (startup_screen_loop_keys 0 (keys w)) as H.
  destruct (startup_screen_loop _ _) as [r ks]. mrun. exact H.
Qed.

(** Discharges the footprint of [no_more_keys]. *)
Ltac keys_footprint :=
  first [ apply _
        | intros; first [ apply no_more_keys_modify_locals
                        | apply no_more_keys_set_files
                        | apply no_more_keys_getch
                        | apply no_more_keys_get_input
                        | apply no_more_keys_file_picker
                        | apply no_more_keys_show_startup_screen ] ].

#[export] Hint Resolve no_more_keys_modify_locals : frame.

(** A pass never adds to the pending keys. *)
Lemma no_more_keys_on_key key : respects no_more_keys (on_key key).
Proof.
  unfold on_key. apply respects_bind; [apply _| |intros _].
  - apply respects_when; [apply _|].
    unfold snapshot, set_undo_stack, set_redo_stack. frame.
  - apply respects_dispatch; try keys_footprint; intros _.
    + unfold on_undo, set_undo_stack, set_redo_stack, set_board. frame.
    + unfold on_redo, set_undo_stack, set_redo_stack, set_board. frame.
Qed.

(** With more fuel than pending keys the loop never stops for want of
    fuel: any two such amounts of fuel give the same run. *)
Lemma main_loop_fuel_enough n m σ :
  (length (keys (world σ)) < n)%nat → (length (keys (world σ)) < m)%nat →
  main_loop_fuel n σ = main_loop_fuel m σ.
Proof.
  revert m σ. induction n as [|n IH]; intros m σ Hn Hm; [lia|].
  destruct m as [|m]; [lia|]. simpl.
  unfold loop_body, mbind, M_bind, bind.
  destruct (getch σ) as [[k|e|] σ1] eqn:Eg; try reflexivity.
  destruct (getch_keys _ _ _ Eg) as [Hk _].
  pose proof (no_more_keys_on_key k σ1) as Hs. unfold no_more_keys in Hs.
  destruct (on_key k σ1) as [[[]|e|] σ2]; try reflexivity.
  simpl in Hs. rewrite Hk in Hn, Hm. simpl in Hn, Hm.
  apply IH; lia.
Qed.

(** [main_loop] is the loop run to its end: more fuel changes nothing. *)
Lemma main_loop_total n σ :
  (length (keys (world σ)) < n)%nat → main_loop_fuel n σ = main_loop σ.
Proof.
  intros Hn. destruct σ as [l w]. unfold main_loop. mrun.
  apply main_loop_fuel_enough; simpl in *; lia.
Qed.

(** ** Snapshot, undo and redo *)

Lemma key_in_snapshot_keys key :
  key_in key snapshot_keys = true → key ≠ Py.ord "z" ∧ key ≠ Py.ord "x".
Proof.
  intros H. split; intros ->; vm_compute in H; discriminate.
Qed.

(** A pass on a snapshotted key first snapshots, then runs the chain. *)
Lemma on_key_snapshotted key σ :
  key_in key snapshot_keys = true →
  on_key key σ =
  dispatch key
    {| locals := {| board := board (locals σ);
                    selected_col := selected_col (locals σ);
                    selected_card := selected_card (locals σ);
                    undo_stack := Py.append (undo_stack (locals σ)) (board (locals σ));
                    redo_stack := [] |};
       world := world σ |}.
Proof.
  intros H. unfold on_key. rewrite H. unfold snapshot. mrun. reflexivity.
Qed.

Lemma on_key_not_snapshotted key σ :
  key_in key snapshot_keys = false → on_key key σ = dispatch key σ.
Proof. intros H. unfold on_key. rewrite H. mrun. reflexivity. Qed.

Lemma stacks_after_snapshotted key σ :
  key_in key snapshot_keys = true →
  stacks (on_key key σ).2 =
  (Py.append (undo_stack (locals σ)) (board (locals σ)), []).
Proof.
  intros H. rewrite on_key_snapshotted by done.
  destruct (key_in_snapshot_keys _ H) as [Hz Hx].
  by rewrite keeps_dispatch.
Qed.

Lemma on_key_undo_empty σ :
  undo_stack (locals σ) = [] → on_key (Py.ord "z") σ = (Ok Continue, σ).
Proof.
  destruct σ as [l w]. simpl. intros H.
  on_key_unfold. mrun. unfold on_undo. mrun. rewrite H. by mrun.
Qed.

Lemma on_key_redo_empty σ :
  redo_stack (locals σ) = [] → on_key (Py.ord "x") σ = (Ok Continue, σ).
Proof.
  destruct σ as [l w]. simpl. intros H.
  on_key_unfold. mrun. unfold on_redo. mrun. rewrite H. by mrun.
Qed.

Lemma on_key_undo_push l w u b :
  undo_stack l = Py.append u b →
  on_key (Py.ord "z") {| locals := l; world := w |} =
  (Ok Continue,
   {| locals := {| board := b; selected_col := selected_col l;
                   selected_card := selected_card l; undo_stack := u;
                   redo_stack := Py.append (redo_stack l) (board l) |};
      world := w |}).
Proof.
  intros H. on_key_unfold. mrun. unfold on_undo. mrun.
  rewrite H, truthy_append, pop_append. by mrun.
Qed.

Lemma on_key_redo_push l w r b :
  redo_stack l = Py.append r b →
  on_key (Py.ord "x") {| locals := l; world := w |} =
  (Ok Continue,
   {| locals := {| board := b; selected_col := selected_col l;
                   selected_card := selected_card l;
                   undo_stack := Py.append (undo_stack l) (board l);
                   redo_stack := r |};
      world := w |}).
Proof.
  intros H. on_key_unfold. mrun. unfold on_redo. mrun.
  rewrite H, truthy_append, pop_append. by mrun.
Qed.

(** Undo and redo never raise and never wait for a key. *)
Lemma on_key_undo_total σ : ∃ σ', on_key (Py.ord "z") σ = (Ok Continue, σ').
Proof.
  destruct σ as [l w]. destruct (undo_stack l) as [|b0 u] eqn:E using rev_ind.
  - eexists. by apply on_key_undo_empty.
  - eexists. by apply (on_key_undo_push l w u b0).
Qed.

Lemma on_key_redo_total σ : ∃ σ', on_key (Py.ord "x") σ = (Ok Continue, σ').
Proof.
  destruct σ as [l w]. destruct (redo_stack l) as [|b0 u] eqn:E using rev_ind.
  - eexists. by apply on_key_redo_empty.
  - eexists. by apply (on_key_redo_push l w u b0).
Qed.

(** C1. A snapshotted pass followed by undo gives back the board the pass
    started from, with the undo stack as it was and the changed board on
    the redo stack; redo right after gives the changed board back.  Undo
    on an empty undo stack and redo on an empty redo stack change nothing. *)
Theorem snapshot_undo_redo :
  (∀ key σ c σ1,
     key_in key snapshot_keys = true →
     on_key key σ = (Ok c, σ1) →
     ∃ σ2 σ3,
       on_key (Py.ord "z") σ1 = (Ok Continue, σ2) ∧
       board (locals σ2) = board (locals σ) ∧
       stacks σ2 = (undo_stack (locals σ), [board (locals σ1)]) ∧
       on_key (Py.ord "x") σ2 = (Ok Continue, σ3) ∧
       board (locals σ3) = board (locals σ1) ∧
       stacks σ3 = stacks σ1) ∧
  (∀ σ, undo_stack (locals σ) = [] → on_key (Py.ord "z") σ = (Ok Continue, σ)) ∧
  (∀ σ, redo_stack (locals σ) = [] → on_key (Py.ord "x") σ = (Ok Continue, σ)).
Proof.
  split; [|split; [apply on_key_undo_empty | apply on_key_redo_empty]].
  intros key σ c σ1 Hkey Hrun.
  pose proof (stacks_after_snapshotted key σ Hkey) as Hst.
  rewrite Hrun in Hst. simpl in Hst. destruct σ1 as [l1 w1].
  unfold stacks in Hst. simpl in Hst. injection Hst as Hu Hr.
  eexists _, _. split; [by apply (on_key_undo_push l1 w1 _ _ Hu)|].
  split; [reflexivity|]. rewrite Hr. split; [reflexivity|].
  split; [by apply (on_key_redo_push _ w1 [] (board l1))|].
  split; [reflexivity|]. unfold stacks; simpl. by rewrite Hu, Hr.
Qed.

(** C3. A snapshot empties the redo stack; so after an undo and then a
    snapshotted pass, redo finds nothing to restore and leaves the whole
    machine, board and stacks, as it is. *)
Theorem snapshot_clears_redo :
  (∀ σ, ∃ σ', snapshot σ = (Ok tt, σ') ∧
              stacks σ' = (Py.append (undo_stack (locals σ)) (board (locals σ)), [])) ∧
  (∀ σ key c σ0 σ1,
     on_key (Py.ord "z") σ = (Ok Continue, σ0) →
     key_in key snapshot_keys = true →
     on_key key σ0 = (Ok c, σ1) →
     redo_stack (locals σ1) = [] ∧
     on_key (Py.ord "x") σ1 = (Ok Continue, σ1)).
Proof.
  split.
  - intros σ. eexists. split; [reflexivity|]. reflexivity.
  - intros σ key c σ0 σ1 _ Hkey Hrun.
    pose proof (stacks_after_snapshotted key σ0 Hkey) as Hst.
    rewrite Hrun in Hst. injection Hst as _ Hr. simpl in Hr.
    split; [exact Hr | by apply on_key_redo_empty].
Qed.


Lemma get_input_run y x prompt n l w inp ks :
  get_input_loop (maxyx w) y x prompt n "" (keys w) = (Ok inp, ks) →
  get_input y x prompt n {| locals := l; world := w |} =
  (Ok inp, {| locals := l;
              world := {| keys := ks; maxyx := maxyx w; folder_path := folder_path w;
                          listing := listing w; files := files w;
                          writable := writable w |} |}).
Proof. intros H. unfold get_input. mrun. rewrite H. by mrun. Qed.

Lemma entered_priority_cases s :
  (s = "1"%string ∧ entered_priority s = 1) ∨
  (s = "2"%string ∧ entered_priority s = 2) ∨
  (s = "3"%string ∧ entered_priority s = 3) ∨
  (s ≠ "1"%string ∧ s ≠ "2"%string ∧ s ≠ "3"%string ∧ entered_priority s = 1).
Proof.
  unfold entered_priority. simpl existsb.
  destruct (String.eqb_spec s "1"); [subst; by left|].
  destruct (String.eqb_spec s "2"); [subst; right; by left|].
  destruct (String.eqb_spec s "3"); [subst; right; right; by left|].
  by repeat right.
Qed.

(** C10 as stated, for every board, fails on a board without columns.
    Started on [empty.kanban], the program shows the loaded board, which
    has no column; [a] and three answers then end the program with
    [add_card]'s [OutOfRange], and no card has been appended anywhere. *)
Lemma add_card_without_columns :
  let argv := ["main.py"; "empty.kanban"]%string in
  let start ks := {| locals := initial_locals; world := empty_board_world ks |} in
  let ks := [Py.ord "a"; Py.ord "X"; ENTER; ENTER; ENTER] in
  (main argv (start [])).1 = Blocked ∧
  board (locals (main argv (start [])).2) = {| columns := [] |} ∧
  (main argv (start ks)).1 = Raise OutOfRange ∧
  board (locals (main argv (start ks)).2) = {| columns := [] |} ∧
  keys (world (main argv (start ks)).2) = [].
Proof. vm_compute. repeat split; reflexivity. Qed.

(** C10, amended. On a board that has a first column, whatever the
    cursor, the add-card pass appends the new card to the first column,
    [columns[0]], and to no other; the card carries the title and
    description entered, and priority 1 unless the priority entered is
    "1", "2" or "3". *)
Theorem add_card_first_column :
  ∀ l w t d priority_str ks1 ks2 ks3 c0 rest,
    columns (board l) = c0 :: rest →
    get_input_loop (maxyx w) 15 0 "Title: " 20 "" (keys w) = (Ok t, ks1) →
    get_input_loop (maxyx w) 16 0 "Description: " 40 "" ks1 = (Ok d, ks2) →
    get_input_loop (maxyx w) 17 0 "Priority (1=Low, 2=Med, 3=High): " 1 "" ks2
    = (Ok priority_str, ks3) →
    on_key (Py.ord "a") {| locals := l; world := w |} =
    (Ok Continue,
     {| locals :=
          {| board :=
               {| columns :=
                    with_cards c0
                      (Py.append (cards c0)
                         {| title := t; description := d;
                            priority := entered_priority priority_str |})
                    :: rest |};
             selected_col := selected_col l;
             selected_card := selected_card l;
             undo_stack := Py.append (undo_stack l) (board l);
             redo_stack := [] |};
        world := {| keys := ks3; maxyx := maxyx w; folder_path := folder_path w;
                    listing := listing w; files := files w;
                    writable := writable w |} |}) ∧
    (priority_str ≠ "1"%string → priority_str ≠ "2"%string →
     priority_str ≠ "3"%string → entered_priority priority_str = 1).
Proof.
  intros l w t d ps ks1 ks2 ks3 c0 rest Hcols H1 H2 H3. split.
  - destruct l as [[cols] sc scard u r]. simpl in Hcols. subst cols.
    rewrite on_key_snapshotted by reflexivity.
    unfold dispatch, curses.KEY_RIGHT, curses.KEY_LEFT, curses.KEY_UP,
      curses.KEY_DOWN. ord_eval. mrun.
    unfold on_add. mrun.
    rewrite (get_input_run _ _ _ 20 _ _ t ks1) by exact H1. mrun.
    rewrite (get_input_run _ _ _ 40 _ _ d ks2) by exact H2. mrun.
    rewrite (get_input_run _ _ _ 1 _ _ ps ks3) by exact H3. mrun.
    unfold add_card, column_at, set_column_at. mrun.
    rewrite len_cons.
    pose proof (len_nonneg rest).
    replace (0 <? Py.len rest + 1) with true by (symmetry; apply Z.ltb_lt; lia).
    change (0 <=? 0) with true. mrun. rewrite getitem_0. mrun. rewrite setitem_0. mrun. reflexivity.
  - intros. destruct (entered_priority_cases ps) as [[? ?]|[[? ?]|[[? ?]|(?&?&?&?)]]];
      congruence.
Qed.

(** ** Priority *)

Lemma getitem_setitem {A} (l : list A) i x y :
  Py.getitem l i = Some x → ∃ l', Py.setitem l i y = Some l'.
Proof.
  unfold Py.getitem, Py.setitem.
  destruct (Py.norm_index l i); simpl; [eauto | discriminate].
Qed.

Lemma getitem_truthy {A} (l : list A) i x :
  Py.getitem l i = Some x → Py.truthy l = true.
Proof.
  unfold Py.getitem. destruct (Py.norm_index l i); simpl; [|discriminate].
  destruct l; [by rewrite lookup_nil | done].
Qed.

(** The pass on [p] writes [bump] of its priority into the card under the
    cursor, in place, and touches nothing else. *)
Lemma on_key_priority l w col card :
  Py.getitem (columns (board l)) (selected_col l) = Some col →
  Py.getitem (cards col) (selected_card l) = Some card →
  ∃ cs cols,
    Py.setitem (cards col) (selected_card l)
               (with_priority card (bump (priority card))) = Some cs ∧
    Py.setitem (columns (board l)) (selected_col l) (with_cards col cs) = Some cols ∧
    on_key (Py.ord "p") {| locals := l; world := w |} =
    (Ok Continue,
     {| locals := {| board := {| columns := cols |};
                     selected_col := selected_col l;
                     selected_card := selected_card l;
                     undo_stack := undo_stack l;
                     redo_stack := redo_stack l |};
        world := w |}).
Proof.
  intros Hcol Hcard.
  destruct (getitem_setitem _ _ _ (with_priority card (bump (priority card))) Hcard)
    as [cs Hcs].
  destruct (getitem_setitem _ _ _ (with_cards col cs) Hcol) as [cols Hcols].
  exists cs, cols. split; [done|]. split; [done|].
  on_key_unfold. mrun. unfold on_priority, column_at, set_column_at. mrun.
  rewrite Hcol. mrun. rewrite (getitem_truthy _ _ _ Hcard). mrun.
  rewrite Hcard. mrun. rewrite Hcs. mrun. rewrite Hcols. by mrun.
Qed.

(** C5. The bump takes priority 1 to 2, 2 to 3 and 3 to 1, three bumps
    give back any priority from 1 to 3, and the pass on [p] is this bump
    applied to the priority of the card under the cursor. *)
Theorem bump_cycle :
  bump 1 = 2 ∧ bump 2 = 3 ∧ bump 3 = 1 ∧
  (∀ p, 1 <= p <= 3 → bump (bump (bump p)) = p) ∧
  (∀ l w col card,
     Py.getitem (columns (board l)) (selected_col l) = Some col →
     Py.getitem (cards col) (selected_card l) = Some card →
     ∃ cs cols,
       Py.setitem (cards col) (selected_card l)
                  (with_priority card (bump (priority card))) = Some cs ∧
       Py.setitem (columns (board l)) (selected_col l) (with_cards col cs) = Some cols ∧
       on_key (Py.ord "p") {| locals := l; world := w |} =
       (Ok Continue,
        {| locals := {| board := {| columns := cols |};
                        selected_col := selected_col l;
                        selected_card := selected_card l;
                        undo_stack := undo_stack l;
                        redo_stack := redo_stack l |};
           world := w |})).
Proof.
  repeat split; try reflexivity.
  - intros p Hp.
    assert (p = 1 ∨ p = 2 ∨ p = 3) as [->|[->| ->]] by lia; reflexivity.
  - apply on_key_priority.
Qed.

(** C5 on priority 2, and on "Task 1" of the default board. *)
Lemma bump_cycle_witness :
  (1 <= 2 <= 3 ∧ bump (bump (bump 2)) = 2) ∧
  ∃ cs cols,
    Py.setitem [ {| title := "Task 1"; description := "Press H for Help";
                    priority := 3 |} ] 0
               {| title := "Task 1"; description := "Press H for Help";
                  priority := 1 |} = Some cs ∧
    Py.setitem (columns default_board) 0 {| name := "To Do"; cards := cs |}
    = Some cols ∧
    on_key (Py.ord "p") (at_default []) =
    (Ok Continue,
     {| locals := {| board := {| columns := cols |}; selected_col := 0;
                     selected_card := 0; undo_stack := []; redo_stack := [] |};
        world := sample_world [] |}).
Proof.
  split.
  - split; [lia|]. apply (proj1 (proj2 (proj2 (proj2 bump_cycle))) 2). lia.
  - apply (proj2 (proj2 (proj2 (proj2 bump_cycle)))
             (locals (at_default [])) (sample_world [])
             {| name := "To Do";
                cards := [ {| title := "Task 1"; description := "Press H for Help";
                              priority := 3 |} ] |}
             {| title := "Task 1"; description := "Press H for Help";
                priority := 3 |}); reflexivity.
Defined.

(** ** Witnesses on the default board *)

(** C1 on the default board: delete "Task 1", undo, redo; and undo and
    redo with nothing to restore. *)
Lemma snapshot_undo_redo_witness :
  (key_in (Py.ord "d") snapshot_keys = true ∧
   ∃ σ1 σ2 σ3,
     on_key (Py.ord "d") (at_default []) = (Ok Continue, σ1) ∧
     on_key (Py.ord "z") σ1 = (Ok Continue, σ2) ∧
     board (locals σ2) = default_board ∧
     stacks σ2 = ([], [board (locals σ1)]) ∧
     on_key (Py.ord "x") σ2 = (Ok Continue, σ3) ∧
     board (locals σ3) = board (locals σ1) ∧
     stacks σ3 = stacks σ1) ∧
  (undo_stack (locals (at_default [])) = [] ∧
   on_key (Py.ord "z") (at_default []) = (Ok Continue, at_default [])) ∧
  (redo_stack (locals (at_default [])) = [] ∧
   on_key (Py.ord "x") (at_default []) = (Ok Continue, at_default [])).
Proof.
  split; [|split].
  - split; [reflexivity|].
    exists (on_key (Py.ord "d") (at_default [])).2.
    destruct (proj1 snapshot_undo_redo (Py.ord "d") (at_default []) Continue
                (on_key (Py.ord "d") (at_default [])).2)
      as (σ2 & σ3 & H); [reflexivity | reflexivity |].
    exists σ2, σ3. split; [reflexivity | exact H].
  - split; [reflexivity|].
    apply (proj1 (proj2 snapshot_undo_redo) (at_default [])). reflexivity.
  - split; [reflexivity|].
    apply (proj2 (proj2 snapshot_undo_redo) (at_default [])). reflexivity.
Defined.

(** C3 on the default board: delete "Task 1" and undo, which leaves the
    board without "Task 1" on the redo stack; then add a column "Q", whose
    snapshot empties the redo stack; redo then changes nothing. *)
Lemma snapshot_clears_redo_witness :
  ∃ σ σ0 σ1,
    on_key (Py.ord "d") (at_default [Py.ord "Q"; ENTER]) = (Ok Continue, σ) ∧
    on_key (Py.ord "z") σ = (Ok Continue, σ0) ∧
    board (locals σ0) = default_board ∧
    redo_stack (locals σ0) = [board (locals σ)] ∧
    board (locals σ) ≠ default_board ∧
    key_in (Py.ord "c") snapshot_keys = true ∧
    on_key (Py.ord "c") σ0 = (Ok Continue, σ1) ∧
    name <$> columns (board (locals σ1)) = ["To Do"; "In Progress"; "Done"; "Q"]%string ∧
    redo_stack (locals σ1) = [] ∧
    on_key (Py.ord "x") σ1 = (Ok Continue, σ1).
Proof.
  set (σ := (on_key (Py.ord "d") (at_default [Py.ord "Q"; ENTER])).2).
  set (σ0 := (on_key (Py.ord "z") σ).2).
  set (σ1 := (on_key (Py.ord "c") σ0).2).
  exists σ, σ0, σ1.
  split; [reflexivity|]. split; [reflexivity|]. split; [reflexivity|].
  split; [reflexivity|]. split; [discriminate|]. split; [reflexivity|].
  split; [reflexivity|]. split; [reflexivity|].
  apply (proj2 snapshot_clears_redo σ (Py.ord "c") Continue σ0 σ1); reflexivity.
Defined.

(** C10 with the cursor on the third column and "7" entered as the
    priority: the card "X" lands in the first column with priority 1. *)
Lemma add_card_first_column_witness :
  ∃ σ1,
    on_key (Py.ord "a")
      {| locals := {| board := default_board; selected_col := 2; selected_card := 0;
                      undo_stack := []; redo_stack := [] |};
         world := sample_world [Py.ord "X"; ENTER; ENTER; Py.ord "7"; ENTER] |}
    = (Ok Continue, σ1) ∧
    (cards <$> columns (board (locals σ1))) !! 0%nat =
    Some [ {| title := "Task 1"; description := "Press H for Help"; priority := 3 |};
           {| title := "X"; description := ""; priority := 1 |} ].
Proof.
  eexists. split.
  - apply (add_card_first_column
             {| board := default_board; selected_col := 2; selected_card := 0;
                undo_stack := []; redo_stack := [] |}
             (sample_world [Py.ord "X"; ENTER; ENTER; Py.ord "7"; ENTER])
             "X" "" "7" [ENTER; Py.ord "7"; ENTER] [Py.ord "7"; ENTER] []);
      reflexivity.
  - reflexivity.
Defined.

(** ** Which passes snapshot *)

(** The arrow keys move the cursor at most: no snapshot, no stack change. *)
Lemma navigation_never_snapshots key σ :
  key_in key [curses.KEY_UP; curses.KEY_DOWN; curses.KEY_LEFT; curses.KEY_RIGHT] = true →
  key_in key snapshot_keys = false ∧
  stacks (on_key key σ).2 = stacks σ ∧
  board (locals (on_key key σ).2) = board (locals σ).
Proof.
  intros H.
  assert (key = 259 ∨ key = 258 ∨ key = 260 ∨ key = 261) as Hk.
  { unfold key_in, existsb in H. rewrite !orb_true_iff in H.
    destruct H as [H|[H|[H|[H|H]]]]; try discriminate;
      apply Z.eqb_eq in H; unfold curses.KEY_UP, curses.KEY_DOWN,
        curses.KEY_LEFT, curses.KEY_RIGHT in H; lia. }
  assert (key_in key snapshot_keys = false) as Hs
      by (destruct Hk as [->|[->|[->| ->]]]; reflexivity).
  split; [exact Hs|]. rewrite on_key_not_snapshotted by exact Hs.
  split.
  - apply keeps_dispatch; intros ->; vm_compute in H; discriminate.
  - destruct σ as [l w].
    destruct Hk as [->|[->|[->| ->]]];
      unfold dispatch, curses.KEY_RIGHT, curses.KEY_LEFT, curses.KEY_UP,
        curses.KEY_DOWN; ord_eval; mrun; unfold column_at; mrun;
      repeat (case_match; mrun; simplify_eq; try reflexivity).
Qed.

(** C2. The pass on [p] changes a priority on the board and pushes no
    snapshot: on the default board "Task 1" goes from priority 3 to 1 with
    the undo stack still empty, so the undo that follows restores nothing. *)
Theorem priority_change_not_snapshotted :
  key_in (Py.ord "p") snapshot_keys = false ∧
  (∀ σ, stacks (on_key (Py.ord "p") σ).2 = stacks σ) ∧
  ∃ σ1,
    on_key (Py.ord "p") (at_default []) = (Ok Continue, σ1) ∧
    board (locals σ1) ≠ default_board ∧
    undo_stack (locals σ1) = [] ∧
    on_key (Py.ord "z") σ1 = (Ok Continue, σ1).
Proof.
  split; [reflexivity|]. split.
  - intros σ. rewrite on_key_not_snapshotted by reflexivity.
    apply keeps_dispatch; discriminate.
  - exists (on_key (Py.ord "p") (at_default [])).2.
    split; [reflexivity|]. split; [|split; reflexivity].
    vm_compute. discriminate.
Qed.

(** ** Passes that keep the cursor valid *)

Section InRange.
Context {A : Type}.
Implicit Types (l : list A) (x : A) (i : Z).

Lemma getitem_in_range l i :
  0 <= i < Py.len l → Py.getitem l i = l !! Z.to_nat i.
Proof. intros H. unfold Py.getitem. by rewrite norm_index_nonneg. Qed.

Lemma setitem_in_range l i x :
  0 <= i < Py.len l → Py.setitem l i x = Some (<[Z.to_nat i := x]> l).
Proof. intros H. unfold Py.setitem. by rewrite norm_index_nonneg. Qed.

Lemma pop_in_range l i x :
  0 <= i < Py.len l → l !! Z.to_nat i = Some x →
  Py.pop l i = Some (x, delete (Z.to_nat i) l).
Proof.
  intros H Hx. unfold Py.pop. rewrite norm_index_nonneg by done.
  simpl. by rewrite Hx.
Qed.

Lemma getitem_nonneg_Some l i x :
  0 <= i → Py.getitem l i = Some x →
  i < Py.len l ∧ l !! Z.to_nat i = Some x.
Proof.
  intros Hi H. unfold Py.getitem, Py.norm_index in H.
  replace (i <? 0) with false in H by (symmetry; apply Z.ltb_ge; lia).
  destruct ((0 <=? i) && (i <? Py.len l)) eqn:E; simpl in H; [|discriminate].
  apply andb_true_iff in E as [_ ?%Z.ltb_lt]. done.
Qed.

Lemma lookup_in_range l i :
  0 <= i < Py.len l → ∃ x, l !! Z.to_nat i = Some x.
Proof.
  intros H. apply lookup_lt_is_Some_2. unfold Py.len in H. lia.
Qed.

Lemma len_delete l (n : nat) :
  (n < length l)%nat → Py.len (delete n l) = Py.len l - 1.
Proof.
  intros H. unfold Py.len. rewrite length_delete by (by apply lookup_lt_is_Some_2). lia.
Qed.

Lemma len_insert l (n : nat) x : Py.len (<[n:=x]> l) = Py.len l.
Proof. unfold Py.len. by rewrite length_insert. Qed.

Lemma len_zero l : Py.len l = 0 ↔ l = [].
Proof. unfold Py.len. destruct l; simpl; split; intros; (done || lia). Qed.
End InRange.

Lemma cursor_valid_spec l :
  cursor_valid l = true ↔
  (columns (board l) = [] ∧ selected_col l = 0) ∨
  (∃ col, 0 <= selected_col l < Py.len (columns (board l)) ∧
          columns (board l) !! Z.to_nat (selected_col l) = Some col ∧
          ((cards col = [] ∧ selected_card l = 0) ∨
           0 <= selected_card l < Py.len (cards col))).
Proof.
  unfold cursor_valid. destruct (columns (board l)) as [|c0 cs] eqn:Ecols.
  - rewrite Z.eqb_eq. split; [by left|].
    intros [[_ ?]|(col & H & _)]; [done|]. unfold Py.len in H. simpl in H. lia.
  - split.
    + intros H. right.
      destruct (Py.getitem (c0 :: cs) (selected_col l)) as [col|] eqn:Eg; [|done].
      apply andb_true_iff in H as [H0%Z.leb_le H].
      destruct (getitem_nonneg_Some _ _ _ H0 Eg) as [Hlt Hcol].
      exists col. split; [lia|]. split; [done|].
      destruct (cards col) as [|c cs'] eqn:Ec.
      * left. split; [done|]. by apply Z.eqb_eq.
      * right. apply andb_true_iff in H as [?%Z.leb_le ?%Z.ltb_lt]. lia.
    + intros [[? _]|(col & Hr & Hcol & Hc)]; [done|].
      rewrite getitem_in_range by done. rewrite Hcol.
      apply andb_true_iff. split; [apply Z.leb_le; lia|].
      destruct (cards col) as [|c cs'] eqn:Ec.
      * destruct Hc as [[_ ?]|Hc]; [by apply Z.eqb_eq|].
        unfold Py.len in Hc. simpl in Hc. lia.
      * destruct Hc as [[? _]|Hc]; [done|].
        apply andb_true_iff. split; [apply Z.leb_le | apply Z.ltb_lt]; lia.
Qed.

(** Deleting the card under a valid cursor leaves a valid cursor. *)
Lemma cursor_valid_after_delete σ :
  cursor_valid (locals σ) = true →
  columns (board (locals σ)) ≠ [] →
  ∃ σ', on_key (Py.ord "d") σ = (Ok Continue, σ') ∧
        cursor_valid (locals σ') = true.
Proof.
  destruct σ as [[[cols] sc scard u r] w]. intros Hv Hne.
  apply cursor_valid_spec in Hv. simpl in Hv, Hne.
  destruct Hv as [[-> _]|(col & Hsc & Hcol & Hc)]; [done|].
  rewrite on_key_snapshotted by reflexivity.
  unfold dispatch, curses.KEY_RIGHT, curses.KEY_LEFT, curses.KEY_UP,
    curses.KEY_DOWN. ord_eval. mrun.
  unfold on_delete, column_at, set_column_at. mrun.
  rewrite getitem_in_range, Hcol by done. mrun.
  destruct Hc as [[Hc ->]|Hc].
  - rewrite Hc. mrun. eexists. split; [reflexivity|].
    apply cursor_valid_spec. right. exists col. simpl. rewrite Hc. auto.
  - destruct (cards col) as [|c0 cs] eqn:Ec.
    { unfold Py.len in Hc. simpl in Hc. lia. }
    mrun.
    destruct (lookup_in_range (c0 :: cs) scard Hc) as [x Hx].
    rewrite (pop_in_range _ _ x) by done. mrun.
    rewrite setitem_in_range by done. mrun.
    rewrite getitem_in_range by (by rewrite len_insert).
    rewrite list_lookup_insert_eq by (unfold Py.len in Hsc; lia). mrun.
    set (rest := delete (Z.to_nat scard) (c0 :: cs)).
    assert (Py.len rest = Py.len (c0 :: cs) - 1) as Hlen
        by (apply len_delete; unfold Py.len in Hc; lia).
    change (cards (with_cards col rest)) with rest.
    destruct (scard >=? Py.len rest) eqn:Hge; mrun;
      (eexists; split; [reflexivity|]); apply cursor_valid_spec; right;
      exists (with_cards col rest); simpl; rewrite len_insert;
      (split; [done|]);
      (split; [apply list_lookup_insert_eq; unfold Py.len in Hsc; lia|]).
    + destruct (decide (Py.len rest = 0)) as [H0|H0].
      * left. apply len_zero in H0. rewrite H0. split; [done|]. reflexivity.
      * right. pose proof (len_nonneg rest). lia.
    + right. rewrite Z.geb_leb in Hge. apply Z.leb_gt in Hge. lia.
Qed.

(** Adding a column puts the cursor on the new, empty, last column. *)
Lemma cursor_valid_after_add_column σ c σ' :
  cursor_valid (locals σ) = true →
  on_key (Py.ord "c") σ = (Ok c, σ') →
  cursor_valid (locals σ') = true.
Proof.
  destruct σ as [[[cols] sc scard u r] w]. intros Hv.
  rewrite on_key_snapshotted by reflexivity.
  unfold dispatch, curses.KEY_RIGHT, curses.KEY_LEFT, curses.KEY_UP,
    curses.KEY_DOWN. ord_eval. mrun.
  unfold on_add_column, get_input. mrun.
  destruct (get_input_loop _ _ _ _ 20 "" (keys w)) as [[col_name|?|] ks]; mrun;
    [|discriminate..].
  destruct col_name as [|a s]; mrun.
  - intros [= <- <-]. exact Hv.
  - unfold add_column. mrun. intros [= <- <-].
    apply cursor_valid_spec. right. simpl.
    exists {| name := String a s; cards := [] |}.
    rewrite len_app. pose proof (len_nonneg cols).
    split; [lia|]. split; [|by left].
    replace (Py.len cols + 1 - 1) with (Py.len cols) by lia.
    unfold Py.len, Py.append. rewrite Nat2Z.id.
    rewrite lookup_app_r by lia. by rewrite Nat.sub_diag.
Qed.

(** Swapping the selected column with its left neighbour takes the cursor
    along with the column. *)
Lemma cursor_valid_after_column_left σ :
  cursor_valid (locals σ) = true →
  ∃ σ', on_key (Py.ord "[") σ = (Ok Continue, σ') ∧
        cursor_valid (locals σ') = true.
Proof.
  destruct σ as [[[cols] sc scard u r] w]. intros Hv.
  rewrite on_key_snapshotted by reflexivity.
  unfold dispatch, curses.KEY_RIGHT, curses.KEY_LEFT, curses.KEY_UP,
    curses.KEY_DOWN. ord_eval. mrun.
  unfold on_column_left. mrun.
  destruct (sc >? 0) eqn:Hpos; mrun.
  - rewrite Z.gtb_ltb in Hpos. apply Z.ltb_lt in Hpos.
    apply cursor_valid_spec in Hv. simpl in Hv.
    destruct Hv as [[_ ->]|(col & Hsc & Hcol & Hc)]; [lia|].
    destruct (lookup_in_range cols (sc - 1)) as [left Hleft]; [lia|].
    unfold swap_columns, column_at, set_column_at. mrun.
    rewrite getitem_in_range, Hcol by done. mrun.
    rewrite getitem_in_range, Hleft by lia. mrun.
    rewrite setitem_in_range by lia. mrun.
    rewrite setitem_in_range by (rewrite len_insert; lia). mrun.
    eexists. split; [reflexivity|].
    apply cursor_valid_spec. right. exists col. simpl.
    rewrite !len_insert. split; [lia|]. split; [|done].
    rewrite list_lookup_insert_ne by lia.
    apply list_lookup_insert_eq. unfold Py.len in Hsc. lia.
  - eexists. split; [reflexivity|]. exact Hv.
Qed.

(** Likewise with the right neighbour. *)
Lemma cursor_valid_after_column_right σ :
  cursor_valid (locals σ) = true →
  ∃ σ', on_key (Py.ord "]") σ = (Ok Continue, σ') ∧
        cursor_valid (locals σ') = true.
Proof.
  destruct σ as [[[cols] sc scard u r] w]. intros Hv.
  rewrite on_key_snapshotted by reflexivity.
  unfold dispatch, curses.KEY_RIGHT, curses.KEY_LEFT, curses.KEY_UP,
    curses.KEY_DOWN. ord_eval. mrun.
  unfold on_column_right. mrun.
  destruct (sc <? Py.len cols - 1) eqn:Hlt; mrun.
  - apply Z.ltb_lt in Hlt.
    apply cursor_valid_spec in Hv. simpl in Hv.
    destruct Hv as [[-> ->]|(col & Hsc & Hcol & Hc)];
      [unfold Py.len in Hlt; simpl in Hlt; lia|].
    destruct (lookup_in_range cols (sc + 1)) as [right Hright]; [lia|].
    unfold swap_columns, column_at, set_column_at. mrun.
    rewrite getitem_in_range, Hcol by done. mrun.
    rewrite getitem_in_range, Hright by lia. mrun.
    rewrite setitem_in_range by lia. mrun.
    rewrite setitem_in_range by (rewrite len_insert; lia). mrun.
    eexists. split; [reflexivity|].
    apply cursor_valid_spec. right. exists col. simpl.
    rewrite !len_insert. split; [lia|]. split; [|done].
    rewrite list_lookup_insert_ne by lia.
    apply list_lookup_insert_eq. unfold Py.len in Hsc, Hlt. lia.
  - eexists. split; [reflexivity|]. exact Hv.
Qed.

(** ** The cursor after structural changes *)

(** C6. Two structural changes leave the cursor out of the board.  With
    four cards in the first column and the cursor on the third, moving
    that card right puts the cursor on card index 2 of a column of two
    cards; with the cursor on the third column, opening a board of one
    column leaves the column index at 2.  In both cases the cursor was
    valid before, and the next [d] raises [IndexError]. *)
Theorem cursor_invalid_after_move_and_open :
  ((run keys_before_move).1 = Blocked ∧
   cursor_valid (locals (run keys_before_move).2) = true ∧
   (run (keys_before_move ++ [Py.ord "m"])).1 = Blocked ∧
   cursor_valid (locals (run (keys_before_move ++ [Py.ord "m"])).2) = false ∧
   (run (keys_before_move ++ [Py.ord "m"; Py.ord "d"])).1 = Raise IndexError) ∧
  ((run keys_before_open).1 = Blocked ∧
   cursor_valid (locals (run keys_before_open).2) = true ∧
   (run (keys_before_open ++ Py.ord "o" :: keys_pick_work)).1 = Blocked ∧
   cursor_valid
     (locals (run (keys_before_open ++ Py.ord "o" :: keys_pick_work)).2) = false ∧
   (run (keys_before_open ++ Py.ord "o" :: keys_pick_work ++ [Py.ord "d"])).1
   = Raise IndexError).
Proof. vm_compute. repeat split; reflexivity. Qed.

(** Undo replaces the board under the cursor as well: after a column is
    added, which takes the cursor to it, undo leaves the cursor on the
    column that is gone. *)
Lemma cursor_invalid_after_undo :
  let ks := [ENTER; Py.ord "c"; Py.ord "N"; ENTER; Py.ord "z"] in
  (run ks).1 = Blocked ∧
  cursor_valid (locals (run ks).2) = false ∧
  (run (ks ++ [Py.ord "d"])).1 = Raise IndexError.
Proof. vm_compute. repeat split; reflexivity. Qed.

(** ** The display order *)

Lemma insert_by_priority_perm c l : insert_by_priority c l ≡ₚ c :: l.
Proof.
  induction l as [|d l IH]; simpl; [done|].
  destruct (priority d <=? priority c); [done|].
  rewrite IH. apply Permutation_swap.
Qed.

(** The display order shows the cards of the column, each once. *)
Lemma sorted_cards_perm l : sorted_cards l ≡ₚ l.
Proof.
  induction l as [|c l IH]; simpl; [done|].
  by rewrite insert_by_priority_perm, IH.
Qed.

Lemma insert_by_priority_descending c l :
  StronglySorted (λ a b, priority b <= priority a) l →
  StronglySorted (λ a b, priority b <= priority a) (insert_by_priority c l).
Proof.
  induction 1 as [|d l Hl IH Hd]; simpl; [repeat constructor|].
  destruct (priority d <=? priority c) eqn:E.
  - apply Z.leb_le in E. constructor; [by constructor|].
    constructor; [done|]. eapply Forall_impl; [exact Hd|]. simpl. lia.
  - apply Z.leb_gt in E. constructor; [done|].
    rewrite insert_by_priority_perm. constructor; [lia | done].
Qed.

(** It runs from high priority to low. *)
Lemma sorted_cards_descending l :
  StronglySorted (λ a b, priority b <= priority a) (sorted_cards l).
Proof.
  induction l as [|c l IH]; simpl; [constructor|].
  by apply insert_by_priority_descending.
Qed.

Lemma insert_by_priority_filter p c l :
  filter (λ a, priority a = p) (insert_by_priority c l)
  = filter (λ a, priority a = p) (c :: l).
Proof.
  induction l as [|d l IH]; simpl; [done|].
  destruct (priority d <=? priority c) eqn:E; [done|].
  apply Z.leb_gt in E. rewrite !filter_cons in *.
  destruct (decide (priority d = p)), (decide (priority c = p));
    try lia; by rewrite IH.
Qed.

(** And it is stable: the cards of one priority keep their stored order. *)
Lemma sorted_cards_stable p l :
  filter (λ a, priority a = p) (sorted_cards l)
  = filter (λ a, priority a = p) l.
Proof.
  induction l as [|c l IH]; simpl; [done|].
  rewrite insert_by_priority_filter, !filter_cons. by rewrite IH.
Qed.

(** ** The card drawn as selected and the card acted upon *)

(** C7. With "Task 1" (priority 1) stored before "X" (priority 3) and the
    cursor at card index 0, the screen shows "X" in reverse video, and the
    pass on [d] removes "Task 1": the handlers index the stored list with
    the position of the sorted view. *)
Theorem delete_acts_on_storage_index :
  let σ := (run keys_before_delete).2 in
  let σ' := (run (keys_before_delete ++ [Py.ord "d"])).2 in
  let task1 := {| title := "Task 1"; description := "Press H for Help"; priority := 1 |} in
  let x := {| title := "X"; description := ""; priority := 3 |} in
  (run keys_before_delete).1 = Blocked ∧
  (selected_col (locals σ), selected_card (locals σ)) = (0, 0) ∧
  (cards <$> columns (board (locals σ))) !! 0%nat = Some [task1; x] ∧
  highlighted (board (locals σ)) (selected_col (locals σ)) (selected_card (locals σ)) = [x] ∧
  (run (keys_before_delete ++ [Py.ord "d"])).1 = Blocked ∧
  (cards <$> columns (board (locals σ'))) !! 0%nat = Some [x].
Proof. vm_compute. repeat split; reflexivity. Qed.

(** ** Opening a file *)

(** Once a file is picked the board is rebound to a new, empty board
    before the load; when the load fails its exception leaves the loop
    with that empty board in place of the one on screen. *)
Lemma failed_open_replaces_board σ σ' p :
  file_picker σ = (Ok (Some p), σ') →
  Py.str_truthy p = true →
  (files (world σ') !! p ≫= decode_board) = None →
  on_key (Py.ord "o") σ =
  (Raise FormatError,
   {| locals := {| board := KanbanBoard_new;
                   selected_col := selected_col (locals σ);
                   selected_card := selected_card (locals σ);
                   undo_stack := undo_stack (locals σ);
                   redo_stack := redo_stack (locals σ) |};
      world := world σ' |}).
Proof.
  intros Hpick Hp Hload.
  pose proof (keeps_locals_file_picker σ) as Hl. unfold same in Hl.
  rewrite Hpick in Hl. destruct σ as [l w], σ' as [l' w']. simpl in *. subst l'.
  on_key_unfold. mrun. unfold on_open. mrun. rewrite Hpick. mrun.
  rewrite Hp. unfold load. mrun.
  destruct (files w' !! p) as [f|]; simpl in Hload; mrun; [|reflexivity].
  rewrite Hload. reflexivity.
Qed.

(** C8. From the default board, [o] and Enter on the unreadable file of
    the sample folder: the load raises, [main] ends with [FormatError],
    and the board bound at that point is the new empty one, not the
    default board that was on screen. *)
Theorem failed_open_loses_board :
  (run [ENTER]).1 = Blocked ∧
  board (locals (run [ENTER]).2) = default_board ∧
  (run [ENTER; Py.ord "o"; ENTER]).1 = Raise FormatError ∧
  board (locals (run [ENTER; Py.ord "o"; ENTER]).2) = KanbanBoard_new.
Proof. vm_compute. repeat split; reflexivity. Qed.

(** ** History across a board replacement *)

Lemma enter_loop_stacks σ : stacks (enter_loop σ).2 = ([], []).
Proof.
  destruct σ as [l w]. unfold enter_loop. mrun.
  by rewrite keeps_clamp_cursor.
Qed.

(** C9. The start-up empties both stacks once its board is created or
    loaded (l.324-326); the pass on [o], which replaces the board in the
    same way, leaves both stacks as they were, whatever they hold.  So
    after deleting "Task 1" of the default board and opening
    [work.kanban], the loaded board is on screen while the undo stack
    still holds the default board, a snapshot of the board replaced; the
    board as it was when replaced, without "Task 1", is on neither stack;
    and undo puts the default board back on screen with the loaded board
    on the redo stack. *)
Theorem open_keeps_undo_history :
  (∀ σ, stacks (enter_loop σ).2 = ([], [])) ∧
  (∀ σ, stacks (on_key (Py.ord "o") σ).2 = stacks σ) ∧
  let before := [ENTER; Py.ord "d"] in
  let ks := before ++ Py.ord "o" :: keys_pick_work in
  stacks (run before).2 = ([default_board], []) ∧
  (run ks).1 = Blocked ∧
  board (locals (run ks).2) = work_board ∧
  stacks (run ks).2 = ([default_board], []) ∧
  (board (locals (run before).2)
   ∉ (stacks (run ks).2).1 ++ (stacks (run ks).2).2) ∧
  board (locals (run (ks ++ [Py.ord "z"])).2) = default_board ∧
  stacks (run (ks ++ [Py.ord "z"])).2 = ([], [work_board]).
Proof.
  split; [apply enter_loop_stacks|]. split.
  - intros σ. rewrite on_key_not_snapshotted by reflexivity.
    apply keeps_dispatch; discriminate.
  - vm_compute. repeat split; try reflexivity; try discriminate.
    intros H. apply list_elem_of_In in H. destruct H as [H|[]]. discriminate.
Qed.

(** ** Save and load *)

Lemma decode_encode_card c :
  valid_priority (priority c) = true → decode_card (encode_card c) = Some c.
Proof.
  intros H. unfold decode_card, encode_card. simpl. rewrite H. by destruct c.
Qed.

Lemma decode_encode_cards cs :
  forallb (λ c, valid_priority (priority c)) cs = true →
  mapM decode_card (encode_card <$> cs) = Some cs.
Proof.
  intros H. apply mapM_fmap_Forall_Some.
  induction cs as [|c cs IH]; [constructor|].
  simpl in H. apply andb_true_iff in H as [Hc Hcs].
  constructor; [by apply decode_encode_card | by apply IH].
Qed.

Lemma decode_encode_column col :
  forallb (λ c, valid_priority (priority c)) (cards col) = true →
  decode_column (encode_column col) = Some col.
Proof.
  intros H. unfold decode_column, encode_column. simpl.
  rewrite decode_encode_cards by exact H. by destruct col.
Qed.

(** What [save] writes, [load] reads back as the same board. *)
Lemma decode_encode_board b :
  board_ok b = true → decode_board (encode_board b) = Some b.
Proof.
  intros H. unfold decode_board, encode_board. simpl.
  assert (mapM decode_column (encode_column <$> columns b) = Some (columns b)) as ->.
  { apply mapM_fmap_Forall_Some. unfold board_ok in H.
    induction (columns b) as [|col cols IH]; [constructor|].
    simpl in H. apply andb_true_iff in H as [Hc Hcs].
    constructor; [by apply decode_encode_column | by apply IH]. }
  by destruct b.
Qed.

(** C4. Saving a board and loading the same path, into whatever board
    object and under whatever cursor and history, gives a board equal to
    the one saved: same columns with the same names in the same order, and
    in each the same cards in the same order with the same title,
    description and priority.  The board saved is one of the data model:
    its priorities lie in 1..3.  The save succeeds where the path can be
    written; where it cannot, it raises [IOError] and writes nothing, so
    there is no saved file to load. *)
Theorem save_load_roundtrip :
  ∀ σ path l',
    board_ok (board (locals σ)) = true →
    (writable (world σ) path = true →
     ∃ σ1,
       save path σ = (Ok tt, σ1) ∧
       locals σ1 = locals σ ∧
       load path {| locals := l'; world := world σ1 |} =
       (Ok tt,
        {| locals := {| board := board (locals σ);
                        selected_col := selected_col l';
                        selected_card := selected_card l';
                        undo_stack := undo_stack l';
                        redo_stack := redo_stack l' |};
           world := world σ1 |})) ∧
    (writable (world σ) path = false → save path σ = (Raise IOError, σ)).
Proof.
  intros [l w] path l' Hok. simpl in Hok. split; intros Hw; simpl in Hw.
  - eexists. split; [unfold save; mrun; rewrite Hw; reflexivity|].
    split; [reflexivity|].
    unfold load. mrun. rewrite lookup_insert_eq. mrun.
    rewrite decode_encode_board by exact Hok. reflexivity.
  - unfold save. mrun. by rewrite Hw.
Qed.

(** C4 on the default board, saved as [plan.kanban] and loaded into a new
    board. *)
Lemma save_load_roundtrip_witness :
  board_ok default_board = true ∧
  writable (sample_world []) "plan.kanban" = true ∧
  ∃ σ1,
    save "plan.kanban" (at_default []) = (Ok tt, σ1) ∧
    locals σ1 = locals (at_default []) ∧
    load "plan.kanban" {| locals := initial_locals; world := world σ1 |} =
    (Ok tt,
     {| locals := {| board := default_board; selected_col := 0; selected_card := 0;
                     undo_stack := []; redo_stack := [] |};
        world := world σ1 |}).
Proof.
  split; [reflexivity|]. split; [reflexivity|].
  apply (proj1 (save_load_roundtrip (at_default []) "plan.kanban" initial_locals
                  eq_refl)).
  reflexivity.
Defined.

(** ** Priorities stay in the data model *)

Lemma valid_priority_spec p : valid_priority p = true ↔ 1 <= p <= 3.
Proof. unfold valid_priority. rewrite andb_true_iff, !Z.leb_le. done. Qed.

Lemma board_ok_spec b : board_ok b = true ↔ columns_ok (columns b).
Proof.
  unfold board_ok, columns_ok, cards_ok, card_ok.
  rewrite forallb_forall, Forall_forall. 
  split; intros H col Hin.
  - apply list_elem_of_In in Hin. specialize (H col Hin).
    rewrite forallb_forall in H. apply Forall_forall. intros c Hc.
    apply valid_priority_spec, H. by apply list_elem_of_In.
  - apply list_elem_of_In in Hin. specialize (H col Hin).
    apply forallb_forall. intros c Hc. apply valid_priority_spec.
    rewrite Forall_forall in H. apply H. by apply list_elem_of_In.
Qed.

Section OkLists.
Context {A : Type} (P : A → Prop).
Implicit Types (l : list A) (x : A) (i : Z).

Lemma Forall_getitem l i x : Forall P l → Py.getitem l i = Some x → P x.
Proof.
  unfold Py.getitem. intros Hl H.
  destruct (Py.norm_index l i); simpl in H; [|done].
  by eapply Forall_lookup_1.
Qed.

Lemma Forall_setitem l i x l' :
  Forall P l → P x → Py.setitem l i x = Some l' → Forall P l'.
Proof.
  unfold Py.setitem. intros Hl Hx H.
  destruct (Py.norm_index l i); simpl in H; [|done].
  injection H as <-. by apply Forall_insert.
Qed.

Lemma Forall_pop l i x l' :
  Forall P l → Py.pop l i = Some (x, l') → P x ∧ Forall P l'.
Proof.
  unfold Py.pop. intros Hl H.
  destruct (Py.norm_index l i) as [k|]; simpl in H; [|done].
  destruct (l !! k) eqn:E; simpl in H; [|done]. injection H as <- <-.
  split; [by eapply Forall_lookup_1 | by apply Forall_delete].
Qed.

Lemma Forall_append l x : Forall P l → P x → Forall P (Py.append l x).
Proof. intros. apply Forall_app. split; [done|]. by constructor. Qed.
End OkLists.

Lemma bump_ok p : 1 <= bump p <= 3.
Proof. unfold bump. pose proof (Z.mod_pos_bound p 3). lia. Qed.

Lemma entered_priority_ok s : 1 <= entered_priority s <= 3.
Proof.
  destruct (entered_priority_cases s) as [[_ ->]|[[_ ->]|[[_ ->]|(_&_&_& ->)]]]; lia.
Qed.

Lemma decode_card_ok fc c : decode_card fc = Some c → card_ok c.
Proof.
  unfold decode_card. intros H.
  destruct (f_title fc), (f_description fc), (f_priority fc) as [p|];
    simpl in H; try done.
  destruct (valid_priority p) eqn:E; [|done]. injection H as <-.
  by apply valid_priority_spec.
Qed.

Lemma decode_column_ok fcol col :
  decode_column fcol = Some col → cards_ok (cards col).
Proof.
  unfold decode_column. intros H.
  destruct (f_name fcol), (f_cards fcol) as [fcs|]; simpl in H; try done.
  destruct (mapM decode_card fcs) as [cs|] eqn:E; simpl in H; [|done].
  injection H as <-. simpl.
  apply mapM_Some in E. unfold cards_ok.
  induction E; constructor; eauto using decode_card_ok.
Qed.

(** Whatever the file holds, a board that [load] accepts has its
    priorities in 1..3. *)
Lemma decode_board_ok f b : decode_board f = Some b → columns_ok (columns b).
Proof.
  unfold decode_board. intros H. destruct f as [|[fcs|]]; simpl in H; try done.
  destruct (mapM decode_column fcs) as [cs|] eqn:E; simpl in H; [|done].
  injection H as <-. simpl.
  apply mapM_Some in E. unfold columns_ok.
  induction E; constructor; eauto using decode_column_ok.
Qed.

Create HintDb ok discriminated.

Section Yields.
Context {A B : Type}.

Lemma yields_ret (a : A) (φ : A → Prop) : φ a → yields (mret a) φ.
Proof. intros H σ Hσ. split; [done|]. by intros a' [= <-]. Qed.

Lemma yields_bind (m : M A) (f : A → M B) φ ψ :
  yields m φ → (∀ a, φ a → yields (f a) ψ) → yields (m ≫= f) ψ.
Proof.
  intros Hm Hf σ Hσ. unfold mbind, M_bind, bind.
  destruct (Hm σ Hσ) as [H1 Ha].
  destruct (m σ) as [[a|e|] σ1]; simpl in *; try (split; [done|]; discriminate).
  by apply Hf; [apply Ha|].
Qed.

Lemma yields_raise e φ : yields (@raise A e) φ.
Proof. intros σ Hσ. split; [done|]. discriminate. Qed.

Lemma yields_blocked φ : yields (@blocked A) φ.
Proof. intros σ Hσ. split; [done|]. discriminate. Qed.

Lemma yields_or_raise e (o : option A) (φ : A → Prop) :
  (∀ a, o = Some a → φ a) → yields (or_raise e o) φ.
Proof.
  intros H σ Hσ. destruct o; (split; [done|]); [|discriminate].
  intros a' [= <-]. auto.
Qed.

Lemma yields_of_result (r : Result A) (φ : A → Prop) :
  (∀ a, r = Ok a → φ a) → yields (of_result r) φ.
Proof. intros H σ Hσ. split; [done|]. simpl. auto. Qed.

Lemma yields_try_except (m : M A) h φ :
  yields m φ → (∀ e, yields (h e) φ) → yields (try_except m h) φ.
Proof.
  intros Hm Hh σ Hσ. unfold try_except.
  destruct (Hm σ Hσ) as [H1 Ha].
  destruct (m σ) as [[a|e|] σ1]; simpl in *; [done| |done].
  by apply Hh.
Qed.
End Yields.

Lemma yields_when b m : keeps_ok m → keeps_ok (when b m).
Proof. intros Hm σ Hσ. unfold when. destruct b; [by apply Hm | done]. Qed.

Lemma yields_get_locals : yields get_locals locals_ok.
Proof. intros σ Hσ. split; [done|]. by intros a [= <-]. Qed.

Lemma yields_get_world : keeps_ok get_world.
Proof. intros σ Hσ. by split. Qed.

Lemma yields_modify_world f : keeps_ok (modify_world f).
Proof. intros σ Hσ. by split. Qed.

Lemma yields_set_board b : columns_ok (columns b) → keeps_ok (set_board b).
Proof. intros H σ (Hb & Hu & Hr). by split. Qed.

Lemma yields_set_selected_col i : keeps_ok (set_selected_col i).
Proof. intros σ Hσ. by split. Qed.

Lemma yields_set_selected_card j : keeps_ok (set_selected_card j).
Proof. intros σ Hσ. by split. Qed.

Lemma yields_set_undo_stack u :
  Forall (λ b, columns_ok (columns b)) u → keeps_ok (set_undo_stack u).
Proof. intros H σ (Hb & Hu & Hr). by split. Qed.

Lemma yields_set_redo_stack r :
  Forall (λ b, columns_ok (columns b)) r → keeps_ok (set_redo_stack r).
Proof. intros H σ (Hb & Hu & Hr). by split. Qed.

#[export] Hint Resolve yields_raise yields_blocked yields_when yields_get_locals
  yields_get_world yields_modify_world yields_set_selected_col yields_set_selected_card : ok.

(** One statement of a sequence: its lemma from the hint base, then the
    rest under what it yields. *)
Ltac ok_bind :=
  eapply yields_bind; [solve [eauto with ok] | cbv beta; intros].

Ltac ok :=
  repeat first
    [ progress intros
    | solve [eauto with ok]
    | apply yields_ret; solve [auto]
    | apply yields_when
    | ok_bind
    | match goal with
      | |- yields (if ?b then _ else _) _ => destruct b eqn:?
      | |- yields (match ?x with _ => _ end) _ => destruct x eqn:?
      end ].

Lemma yields_set_keys ks : keeps_ok (set_keys ks).
Proof. unfold set_keys. ok. Qed.

Lemma yields_set_files fs : keeps_ok (set_files fs).
Proof. unfold set_files. ok. Qed.

Lemma yields_get_board : yields get_board (λ b, columns_ok (columns b)).
Proof.
  unfold get_board. ok_bind. apply yields_ret. by destruct H.
Qed.

Lemma yields_get_selected_col : keeps_ok get_selected_col.
Proof. unfold get_selected_col. ok. Qed.

Lemma yields_get_selected_card : keeps_ok get_selected_card.
Proof. unfold get_selected_card. ok. Qed.

#[export] Hint Resolve yields_set_keys yields_set_files yields_get_board
  yields_get_selected_col yields_get_selected_card : ok.

Lemma yields_column_at i : yields (column_at i) (λ col, cards_ok (cards col)).
Proof.
  unfold column_at. ok_bind. apply yields_or_raise.
  intros col Hcol. exact (Forall_getitem _ _ _ _ H Hcol).
Qed.

Lemma yields_set_column_at i col :
  cards_ok (cards col) → keeps_ok (set_column_at i col).
Proof.
  intros Hcol. unfold set_column_at. ok_bind.
  eapply yields_bind.
  - apply (yields_or_raise _ _ columns_ok). intros cs Hcs.
    exact (Forall_setitem _ _ _ _ _ H Hcol Hcs).
  - intros cs Hcs. by apply yields_set_board.
Qed.

#[export] Hint Resolve yields_column_at yields_set_column_at : ok.

Lemma yields_getch : keeps_ok getch.
Proof. unfold getch. ok. Qed.

Lemma yields_get_input y x prompt n : keeps_ok (get_input y x prompt n).
Proof.
  unfold get_input. ok_bind. destruct (get_input_loop _ _ _ _ _ _ _).
  ok_bind. by apply yields_of_result.
Qed.

Lemma yields_file_picker : keeps_ok file_picker.
Proof.
  unfold file_picker. ok_bind. destruct (negb _).
  - eapply (yields_bind _ _ (λ _, True)); [apply yields_getch|]. ok.
  - destruct (file_picker_loop _ _ _ _). ok_bind.
    by apply yields_of_result.
Qed.

Lemma yields_show_startup_screen : keeps_ok show_startup_screen.
Proof.
  unfold show_startup_screen. ok_bind. destruct (startup_screen_loop _ _).
  ok_bind. by apply yields_of_result.
Qed.

#[export] Hint Resolve yields_getch yields_get_input yields_file_picker
  yields_show_startup_screen : ok.

Lemma yields_add_column n : keeps_ok (add_column n).
Proof.
  unfold add_column. ok_bind. apply yields_set_board. simpl.
  apply Forall_append; [done | constructor].
Qed.

Lemma yields_add_card i t d p : 1 <= p <= 3 → keeps_ok (add_card i t d p).
Proof.
  intros Hp. unfold add_card. ok_bind.
  destruct (_ && _); [|ok]. ok_bind.
  apply yields_set_column_at. simpl. by apply Forall_append.
Qed.

Lemma yields_save f : keeps_ok (save f).
Proof.
  unfold save. ok_bind. ok.
Qed.

Lemma yields_load f : keeps_ok (load f).
Proof.
  unfold load. ok_bind.
  eapply yields_bind; [by apply (yields_or_raise _ _ (λ _, True))|]. intros fd _.
  eapply yields_bind.
  - apply (yields_or_raise _ _ (λ b, columns_ok (columns b))).
    intros b. apply decode_board_ok.
  - intros b Hb. by apply yields_set_board.
Qed.

#[export] Hint Resolve yields_add_column yields_save yields_load : ok.

Lemma yields_snapshot : keeps_ok snapshot.
Proof.
  unfold snapshot. ok_bind. destruct H as (Hb & Hu & Hr).
  eapply yields_bind.
  - apply yields_set_undo_stack. by apply Forall_append.
  - intros. apply yields_set_redo_stack. constructor.
Qed.

Lemma yields_move_card_by dir guard : keeps_ok (move_card_by dir guard).
Proof.
  unfold move_card_by. ok_bind.
  eapply (yields_bind _ _ (λ _, True)); [ok|]. intros go _.
  apply yields_when. ok_bind.
  eapply yields_bind.
  - apply (yields_or_raise _ _ (λ p, card_ok p.1 ∧ cards_ok p.2)).
    intros [c rest] Hpop. exact (Forall_pop _ _ _ _ _ H0 Hpop).
  - intros [card rest] [Hcard Hrest]. simpl in *.
    eapply yields_bind; [by apply yields_set_column_at|]. intros _ _.
    ok_bind.
    eapply yields_bind;
      [apply yields_set_column_at; simpl; by apply Forall_append|].
    ok.
Qed.

Lemma yields_on_delete : keeps_ok on_delete.
Proof.
  unfold on_delete. ok_bind. ok_bind. apply yields_when.
  eapply yields_bind.
  - apply (yields_or_raise _ _ (λ p, card_ok p.1 ∧ cards_ok p.2)).
    intros [c rest] Hpop. exact (Forall_pop _ _ _ _ _ H0 Hpop).
  - intros [card rest] [Hcard Hrest]. simpl in *.
    eapply yields_bind; [by apply yields_set_column_at|]. ok.
Qed.

Lemma yields_on_add : keeps_ok on_add.
Proof.
  unfold on_add. do 3 ok_bind. apply yields_add_card, entered_priority_ok.
Qed.

Lemma yields_on_edit : keeps_ok on_edit.
Proof.
  unfold on_edit. ok_bind. ok_bind. apply yields_when.
  eapply yields_bind.
  - apply (yields_or_raise _ _ card_ok).
    intros c Hc. exact (Forall_getitem _ _ _ _ H0 Hc).
  - intros card Hcard. do 2 ok_bind.
    eapply yields_bind.
    + apply (yields_or_raise _ _ cards_ok). intros cs Hcs.
      refine (Forall_setitem _ _ _ _ _ H0 _ Hcs). exact Hcard.
    + intros cs Hcs. by apply yields_set_column_at.
Qed.

Lemma yields_on_priority : keeps_ok on_priority.
Proof.
  unfold on_priority. ok_bind. ok_bind. apply yields_when.
  eapply yields_bind.
  - apply (yields_or_raise _ _ card_ok).
    intros c Hc. exact (Forall_getitem _ _ _ _ H0 Hc).
  - intros card Hcard.
    eapply yields_bind.
    + apply (yields_or_raise _ _ cards_ok). intros cs Hcs.
      refine (Forall_setitem _ _ _ _ _ H0 _ Hcs). apply bump_ok.
    + intros cs Hcs. by apply yields_set_column_at.
Qed.

Lemma yields_on_open : keeps_ok on_open.
Proof.
  unfold on_open. ok_bind. destruct a; [|ok]. apply yields_when.
  eapply yields_bind; [apply yields_set_board; constructor|]. ok.
Qed.

Lemma yields_swap_columns i j : keeps_ok (swap_columns i j).
Proof.
  unfold swap_columns. do 2 ok_bind.
  eapply yields_bind; [by apply yields_set_column_at|]. intros.
  by apply yields_set_column_at.
Qed.

Lemma yields_on_undo : keeps_ok on_undo.
Proof.
  unfold on_undo. ok_bind. destruct H as (Hb & Hu & Hr). apply yields_when.
  eapply yields_bind;
    [apply yields_set_redo_stack; by apply Forall_append|]. intros _ _.
  eapply yields_bind.
  - apply (yields_or_raise _ _
             (λ p, columns_ok (columns p.1) ∧
                   Forall (λ b, columns_ok (columns b)) p.2)).
    intros [b rest] Hpop. exact (Forall_pop _ _ _ _ _ Hu Hpop).
  - intros [b rest] [? ?]. simpl in *.
    eapply yields_bind; [by apply yields_set_undo_stack|]. intros.
    by apply yields_set_board.
Qed.

Lemma yields_on_redo : keeps_ok on_redo.
Proof.
  unfold on_redo. ok_bind. destruct H as (Hb & Hu & Hr). apply yields_when.
  eapply yields_bind;
    [apply yields_set_undo_stack; by apply Forall_append|]. intros _ _.
  eapply yields_bind.
  - apply (yields_or_raise _ _
             (λ p, columns_ok (columns p.1) ∧
                   Forall (λ b, columns_ok (columns b)) p.2)).
    intros [b rest] Hpop. exact (Forall_pop _ _ _ _ _ Hr Hpop).
  - intros [b rest] [? ?]. simpl in *.
    eapply yields_bind; [by apply yields_set_redo_stack|]. intros.
    by apply yields_set_board.
Qed.

#[export] Hint Resolve yields_snapshot yields_move_card_by yields_on_delete
  yields_on_add yields_on_edit yields_on_priority yields_on_open
  yields_swap_columns yields_on_undo yields_on_redo : ok.

Lemma yields_on_quit : keeps_ok on_quit.
Proof. unfold on_quit. ok. Qed.

Lemma yields_on_save : keeps_ok on_save.
Proof. unfold on_save. ok. Qed.

Lemma yields_on_add_column : keeps_ok on_add_column.
Proof. unfold on_add_column. ok. Qed.

Lemma yields_on_column_left : keeps_ok on_column_left.
Proof. unfold on_column_left. ok. Qed.

Lemma yields_on_column_right : keeps_ok on_column_right.
Proof. unfold on_column_right. ok. Qed.

Lemma yields_show_help : keeps_ok show_help.
Proof. unfold show_help. ok. Qed.

#[export] Hint Resolve yields_on_quit yields_on_save yields_on_add_column
  yields_on_column_left yields_on_column_right yields_show_help : ok.

Lemma yields_dispatch key : keeps_ok (dispatch key).
Proof.
  unfold dispatch, on_move_right, on_move_left. ok.
  eapply (yields_bind _ _ (λ _, True)); [destruct (key =? curses.KEY_DOWN)|];
    ok.
Qed.

(** Every pass of the main loop keeps the board and both stacks within
    the data model. *)
Lemma yields_on_key key : keeps_ok (on_key key).
Proof. unfold on_key. ok_bind. apply yields_dispatch. Qed.

Lemma yields_loop_body : keeps_ok loop_body.
Proof. unfold loop_body. ok_bind. apply yields_on_key. Qed.

Lemma yields_main_loop_fuel n : keeps_ok (main_loop_fuel n).
Proof.
  induction n as [|n IH]; simpl; [ok|].
  eapply (yields_bind _ _ (λ _, True)); [apply yields_loop_body|].
  intros [] _; [exact IH | ok].
Qed.

Lemma yields_create_default_board : keeps_ok create_default_board.
Proof.
  unfold create_default_board, add_card_default.
  do 3 ok_bind.
  repeat (eapply (yields_bind _ _ (λ _, True));
          [apply yields_add_card; lia | intros _ _]).
  apply yields_add_card; lia.
Qed.

Lemma yields_new_default_board : keeps_ok new_default_board.
Proof.
  unfold new_default_board.
  eapply (yields_bind _ _ (λ _, True)); [apply yields_set_board; constructor|].
  intros. apply yields_create_default_board.
Qed.

#[export] Hint Resolve yields_create_default_board yields_new_default_board : ok.

Lemma yields_startup argv : keeps_ok (startup argv).
Proof.
  unfold startup.
  eapply (yields_bind _ _ (λ _, True)); [apply yields_set_board; constructor|].
  intros _ _. do 2 ok_bind. destruct (_ >? _).
  - eapply (yields_bind _ _ (λ _, True));
      [by apply yields_or_raise|]. intros file_to_open _.
    eapply (yields_bind _ _ (λ _, True)); [unfold path_exists; ok|].
    intros ex _. destruct (_ && _).
    + eapply (yields_bind _ _ (λ _, True)); [|ok].
      apply yields_try_except; [ok|]. intros _. ok_bind.
      eapply (yields_bind _ _ (λ _, True));
        [apply yields_set_board; constructor|]. ok.
    + do 2 ok_bind. destruct a2; [ok| |ok].
      ok_bind. destruct a2 as [p|]; [|ok].
      eapply (yields_bind _ _ (λ _, True)); [|ok].
      destruct (Py.str_truthy p); [|ok].
      eapply (yields_bind _ _ (λ _, True));
        [apply yields_set_board; constructor|]. ok.
  - ok_bind. destruct a1; [ok| |ok].
    ok_bind. destruct a1 as [p|]; [|ok].
    eapply (yields_bind _ _ (λ _, True)); [|ok].
    destruct (Py.str_truthy p); ok.
Qed.

Lemma yields_enter_loop : keeps_ok enter_loop.
Proof.
  unfold enter_loop.
  eapply (yields_bind _ _ (λ _, True));
    [apply yields_set_undo_stack; constructor|]. intros _ _.
  eapply (yields_bind _ _ (λ _, True));
    [apply yields_set_redo_stack; constructor|]. intros _ _.
  ok.
Qed.

(** Started with no history, [main] only ever holds, snapshots and saves
    boards whose priorities lie in 1..3, wherever it stops. *)
Lemma main_boards_ok argv w :
  let σ := (main argv {| locals := initial_locals; world := w |}).2 in
  board_ok (board (locals σ)) = true ∧
  forallb board_ok (undo_stack (locals σ)) = true ∧
  forallb board_ok (redo_stack (locals σ)) = true.
Proof.
  assert (keeps_ok (main argv)) as Hmain.
  { unfold main, main_loop.
    eapply (yields_bind _ _ (λ _, True)); [apply yields_startup|].
    intros [] _; [|ok]. 
    eapply (yields_bind _ _ (λ _, True)); [apply yields_enter_loop|].
    intros _ _. ok_bind. apply yields_main_loop_fuel. }
  destruct (Hmain {| locals := initial_locals; world := w |}) as [(Hb & Hu & Hr) _].
  { repeat split; constructor. }
  simpl. split; [by apply board_ok_spec|].
  split; apply forallb_forall; intros b Hin; apply board_ok_spec;
    apply list_elem_of_In in Hin.
  - rewrite Forall_forall in Hu. by apply Hu.
  - rewrite Forall_forall in Hr. by apply Hr.
Qed.

(** ** Text input *)

Lemma str_len_drop_last s : Py.str_len (Py.drop_last s) <= Py.str_len s.
Proof.
  unfold Py.str_len. induction s as [|a [|b s] IH]; simpl in *; lia.
Qed.

Lemma str_len_app_char s c :
  Py.str_len (s +:+ String c EmptyString) = Py.str_len s + 1.
Proof. unfold Py.str_len. induction s as [|a s IH]; simpl in *; lia. Qed.

Lemma printable_drop_last s : printable s → printable (Py.drop_last s).
Proof.
  unfold printable. induction s as [|a [|b s] IH]; simpl; intros H;
    [done | constructor |].
  inversion H; subst. constructor; [done | by apply IH].
Qed.

Lemma printable_app_char s c :
  printable s → 32 <= Py.ord c <= 126 → printable (s +:+ String c EmptyString).
Proof.
  unfold printable. induction s as [|a s IH]; simpl; intros H Hc.
  - by constructor.
  - inversion H; subst. constructor; [done | by apply IH].
Qed.

Lemma ord_chr key : 0 <= key <= 255 → Py.ord (Py.chr key) = key.
Proof.
  intros H. unfold Py.ord, Py.chr.
  rewrite nat_ascii_embedding by lia. lia.
Qed.

Lemma chr_ord c : Py.chr (Py.ord c) = c.
Proof. unfold Py.ord, Py.chr. by rewrite Nat2Z.id, ascii_nat_embedding. Qed.

(** [ERR], what a read at a cell outside the window returns, takes none
    of the branches of l.124-134. *)
Lemma ERR_ignored :
  is_enter ERR = false ∧ is_backspace ERR = false ∧ (32 <=? ERR) = false.
Proof. by repeat split. Qed.

(** The cells of a row that are inside the window form an interval. *)
Lemma in_window_between yx y a b c :
  in_window yx y a = true → in_window yx y b = true → a <= c <= b →
  in_window yx y c = true.
Proof.
  unfold in_window. rewrite !andb_true_iff, !Z.leb_le, !Z.ltb_lt. lia.
Qed.

(** A read at a cell outside the window: the loop never ends and takes no
    key. *)
Lemma get_input_loop_off_screen yx y x prompt n inp ks :
  in_window yx y (x + Py.str_len prompt + Py.str_len inp) = false →
  get_input_loop yx y x prompt n inp ks = (Blocked, ks).
Proof. intros H. destruct ks; simpl; by rewrite H. Qed.

Lemma get_input_loop_on_screen yx y x prompt n inp key ks :
  in_window yx y (x + Py.str_len prompt + Py.str_len inp) = true →
  get_input_loop yx y x prompt n inp (key :: ks) =
  if is_enter key then (Ok inp, ks)
  else if is_backspace key then
    if 0 <? Py.str_len inp then
      get_input_loop yx y x prompt n (Py.drop_last inp) ks
    else get_input_loop yx y x prompt n inp ks
  else if (32 <=? key) && (key <=? 126) && (Py.str_len inp <? n) then
    get_input_loop yx y x prompt n (inp +:+ String (Py.chr key) EmptyString) ks
  else get_input_loop yx y x prompt n inp ks.
Proof. intros H. simpl. by rewrite H. Qed.

Lemma get_input_loop_bounded yx y x prompt n inp ks s ks' :
  get_input_loop yx y x prompt n inp ks = (Ok s, ks') →
  Py.str_len inp <= Z.max 0 n → printable inp →
  Py.str_len s <= Z.max 0 n ∧ printable s.
Proof.
  revert inp. induction ks as [|k ks IH]; intros inp H Hlen Hp.
  { simpl in H. by destruct (negb _). }
  destruct (in_window yx y (x + Py.str_len prompt + Py.str_len inp)) eqn:Hw;
    [|by rewrite get_input_loop_off_screen in H].
  rewrite get_input_loop_on_screen in H by done.
  destruct (is_enter k); [by injection H as <- _|].
  destruct (is_backspace k).
  - destruct (0 <? Py.str_len inp); [|by eapply IH].
    eapply IH; [exact H | | by apply printable_drop_last].
    pose proof (str_len_drop_last inp). lia.
  - destruct ((32 <=? k) && (k <=? 126) && (Py.str_len inp <? n)) eqn:E;
      [|by eapply IH].
    apply andb_true_iff in E as [E ?%Z.ltb_lt].
    apply andb_true_iff in E as [?%Z.leb_le ?%Z.leb_le].
    eapply IH; [exact H | rewrite str_len_app_char; lia |].
    apply printable_app_char; [done|]. rewrite ord_chr; lia.
Qed.

(** X1. Whatever keys come, the text [get_input] returns has at most
    [max_length] characters (none for a negative [max_length]), all of
    them with codes 32 to 126, and reading it changes no local variable. *)
Theorem get_input_bounded y x prompt n σ s σ' :
  get_input y x prompt n σ = (Ok s, σ') →
  Py.str_len s <= Z.max 0 n ∧ printable s ∧ locals σ' = locals σ.
Proof.
  intros H. pose proof (keeps_locals_get_input y x prompt n σ) as Hl.
  unfold same in Hl. rewrite H in Hl. split; [|split; [|exact Hl]];
    destruct σ as [l w]; unfold get_input in H; revert H; mrun;
    destruct (get_input_loop (maxyx w) y x prompt n "" (keys w))
      as [[s0|?|] ks] eqn:E; mrun;
    try discriminate; intros [= <- <-];
    apply get_input_loop_bounded in E as [? ?]; try done;
    try (unfold Py.str_len; simpl; lia); constructor.
Qed.

Lemma get_input_bounded_witness :
  get_input 17 0 "Priority (1=Low, 2=Med, 3=High): " 1
    (at_default [Py.ord "2"; Py.ord "3"; ENTER; Py.ord "x"])
  = (Ok "2"%string, at_default [Py.ord "x"]) ∧
  Py.str_len "2" <= Z.max 0 1 ∧ printable "2" ∧
  locals (at_default [Py.ord "x"])
  = locals (at_default [Py.ord "2"; Py.ord "3"; ENTER; Py.ord "x"]).
Proof.
  split; [reflexivity|].
  apply (get_input_bounded 17 0 "Priority (1=Low, 2=Med, 3=High): " 1
           (at_default [Py.ord "2"; Py.ord "3"; ENTER; Py.ord "x"]) "2"
           (at_default [Py.ord "x"])).
  reflexivity.
Defined.

Lemma printable_key c :
  32 <= Py.ord c <= 126 →
  is_enter (Py.ord c) = false ∧ is_backspace (Py.ord c) = false ∧
  (32 <=? Py.ord c) && (Py.ord c <=? 126) = true.
Proof.
  intros H. unfold is_enter, is_backspace, curses.KEY_ENTER,
    curses.KEY_BACKSPACE.
  repeat split; rewrite ?orb_false_iff, ?andb_true_iff, ?Z.eqb_neq, ?Z.leb_le;
    repeat split; lia.
Qed.

Lemma string_app_char_cons s c t :
  (s +:+ String c EmptyString) +:+ t = s +:+ String c t.
Proof.
  induction s as [|a s IH]; [reflexivity|].
  change (String a ((s +:+ String c "") +:+ t) = String a (s +:+ String c t)).
  by rewrite IH.
Qed.

Lemma string_app_empty s : s +:+ "" = s.
Proof.
  induction s as [|a s IH]; [reflexivity|].
  change (String a (s +:+ "") = String a s). by rewrite IH.
Qed.

Lemma substring_0_empty k : String.substring 0 k "" = ""%string.
Proof. by destruct k. Qed.

Lemma drop_last_app_char s c : Py.drop_last (s +:+ String c EmptyString) = s.
Proof.
  induction s as [|a s IH]; [reflexivity|].
  change (Py.drop_last (String a (s +:+ String c "")) = String a s).
  destruct s as [|b s]; [reflexivity|].
  change (String a (Py.drop_last (String b s +:+ String c "")) = String a (String b s)).
  by rewrite IH.
Qed.

Lemma substring_0_all s k :
  (String.length s <= k)%nat → String.substring 0 k s = s.
Proof.
  revert k. induction s as [|a s IH]; intros k H; [apply substring_0_empty|].
  destruct k; simpl in *; [lia|]. rewrite IH; [done | lia].
Qed.

Lemma str_len_cons c s : Py.str_len (String c s) = Py.str_len s + 1.
Proof. unfold Py.str_len. simpl. lia. Qed.

Lemma str_len_nonneg s : 0 <= Py.str_len s.
Proof. unfold Py.str_len. lia. Qed.


(** Typing [s] extends the text by as much of [s] as still fits, as long
    as each key is read at a cell of the window. *)
Lemma get_input_loop_typed yx y x prompt n inp s ks :
  printable s →
  (∀ j, 0 <= j < Py.str_len s →
        in_window yx y (x + Py.str_len prompt + Py.str_len inp
                        + Z.min j (Z.max 0 (n - Py.str_len inp))) = true) →
  get_input_loop yx y x prompt n inp (keys_of_string s ++ ks) =
  get_input_loop yx y x prompt n
    (inp +:+ String.substring 0 (Z.to_nat (n - Py.str_len inp)) s) ks.
Proof.
  unfold keys_of_string, printable.
  revert inp. induction s as [|c s IH]; intros inp Hp Hw.
  - by rewrite substring_0_empty, string_app_empty.
  - cbn [list_ascii_of_string fmap list_fmap app].
    inversion Hp as [|? ? Hc Hs]; subst.
    pose proof (str_len_nonneg s) as Hs0.
    assert (in_window yx y (x + Py.str_len prompt + Py.str_len inp) = true) as H0.
    { specialize (Hw 0). rewrite str_len_cons in Hw.
      replace (Z.min 0 (Z.max 0 (n - Py.str_len inp))) with 0 in Hw by lia.
      rewrite Z.add_0_r in Hw. apply Hw. lia. }
    rewrite get_input_loop_on_screen by exact H0.
    destruct (printable_key c Hc) as (-> & -> & ->). cbn [andb].
    destruct (Py.str_len inp <? n) eqn:E.
    + apply Z.ltb_lt in E. rewrite chr_ord, IH; [|done|].
      * rewrite str_len_app_char.
        replace (Z.to_nat (n - Py.str_len inp))
          with (S (Z.to_nat (n - (Py.str_len inp + 1)))) by lia.
        cbn [String.substring]. by rewrite string_app_char_cons.
      * intros j Hj. rewrite str_len_app_char.
        specialize (Hw (j + 1)). rewrite str_len_cons in Hw.
        replace (x + Py.str_len prompt + (Py.str_len inp + 1)
                 + Z.min j (Z.max 0 (n - (Py.str_len inp + 1))))
          with (x + Py.str_len prompt + Py.str_len inp
                + Z.min (j + 1) (Z.max 0 (n - Py.str_len inp))) by lia.
        apply Hw. lia.
    + apply Z.ltb_ge in E. rewrite IH; [|done|].
      * replace (Z.to_nat (n - Py.str_len inp)) with 0%nat by lia.
        by destruct s.
      * intros j Hj. specialize (Hw (j + 1)). rewrite str_len_cons in Hw.
        replace (Z.min j (Z.max 0 (n - Py.str_len inp))) with 0 by lia.
        replace (Z.min (j + 1) (Z.max 0 (n - Py.str_len inp))) with 0 in Hw by lia.
        apply Hw. lia.
Qed.



(** X3. A backspace takes back the last character of the text.  With
    every key read inside the window: after [s], shorter than
    [max_length], one more character and a backspace, Enter returns [s];
    after [s] of exactly [max_length] characters the further character is
    dropped, so the backspace takes the last character of [s]; on an
    empty text a backspace does nothing. *)
Theorem get_input_backspace yx y x prompt n s c bs rest :
  printable s → 32 <= Py.ord c <= 126 →
  is_backspace bs = true →
  in_window yx y (x + Py.str_len prompt) = true →
  (Py.str_len s < n →
   in_window yx y (x + Py.str_len prompt + Py.str_len s + 1) = true →
   get_input_loop yx y x prompt n ""
     (keys_of_string s ++ Py.ord c :: bs :: ENTER :: rest) = (Ok s, rest)) ∧
  (Py.str_len s = n →
   in_window yx y (x + Py.str_len prompt + Py.str_len s) = true →
   get_input_loop yx y x prompt n ""
     (keys_of_string s ++ Py.ord c :: bs :: ENTER :: rest)
   = (Ok (Py.drop_last s), rest)) ∧
  get_input_loop yx y x prompt n "" (bs :: ENTER :: rest) = (Ok ""%string, rest).
Proof.
  intros Hp Hc Hbs H0.
  pose proof (str_len_nonneg s) as Hs0.
  assert (Py.str_len "" = 0) as He by reflexivity.
  assert (is_enter bs = false) as Hne.
  { unfold is_backspace, is_enter, curses.KEY_BACKSPACE, curses.KEY_ENTER in *.
    rewrite !orb_true_iff, !Z.eqb_eq in Hbs.
    rewrite !orb_false_iff, !Z.eqb_neq. lia. }
  assert (∀ b, in_window yx y (x + Py.str_len prompt + b) = true →
               ∀ j, 0 <= j <= b →
                    in_window yx y (x + Py.str_len prompt + j) = true) as Hbetween.
  { intros b Hb j Hj. rewrite <- (Z.add_0_r (x + Py.str_len prompt)) in H0.
    eapply in_window_between; [exact H0 | exact Hb | lia]. }
  assert (∀ b, in_window yx y (x + Py.str_len prompt + b) = true →
               Py.str_len s <= b → Py.str_len s <= n →
               get_input_loop yx y x prompt n "" (keys_of_string s ++
                 Py.ord c :: bs :: ENTER :: rest) =
               get_input_loop yx y x prompt n s
                 (Py.ord c :: bs :: ENTER :: rest)) as Htyped.
  { intros b Hb Hsb Hsn. rewrite get_input_loop_typed; [|done|].
    - rewrite He, Z.sub_0_r. change ("" +:+ ?t) with t.
      by rewrite substring_0_all by (unfold Py.str_len in *; lia).
    - intros j Hj. rewrite He, Z.sub_0_r, Z.add_0_r.
      apply (Hbetween b Hb). lia. }
  split; [|split].
  - intros Hn H1. rewrite Z.add_assoc in H1 || idtac.
    replace (x + Py.str_len prompt + Py.str_len s + 1)
      with (x + Py.str_len prompt + (Py.str_len s + 1)) in H1 by lia.
    rewrite (Htyped _ H1) by lia.
    rewrite get_input_loop_on_screen by (apply (Hbetween _ H1); lia).
    destruct (printable_key c Hc) as (-> & -> & ->). cbn [andb].
    replace (Py.str_len s <? n) with true by (symmetry; by apply Z.ltb_lt).
    rewrite get_input_loop_on_screen
      by (rewrite str_len_app_char; exact H1).
    rewrite Hne, Hbs, str_len_app_char, chr_ord, drop_last_app_char.
    replace (0 <? Py.str_len s + 1) with true by (symmetry; apply Z.ltb_lt; lia).
    rewrite get_input_loop_on_screen by (apply (Hbetween _ H1); lia).
    reflexivity.
  - intros Hn H1. rewrite (Htyped _ H1) by lia.
    rewrite get_input_loop_on_screen by exact H1.
    destruct (printable_key c Hc) as (-> & -> & ->). cbn [andb].
    replace (Py.str_len s <? n) with false by (symmetry; apply Z.ltb_ge; lia).
    rewrite get_input_loop_on_screen by exact H1.
    rewrite Hne, Hbs.
    destruct (0 <? Py.str_len s) eqn:E.
    + rewrite get_input_loop_on_screen; [reflexivity|].
      apply (Hbetween _ H1). pose proof (str_len_drop_last s).
      pose proof (str_len_nonneg (Py.drop_last s)). lia.
    + apply Z.ltb_ge in E. assert (s = ""%string) as ->
          by (destruct s; [done | rewrite str_len_cons in E;
                                  pose proof (str_len_nonneg s); lia]).
      by rewrite get_input_loop_on_screen by exact H1.
  - assert (in_window yx y (x + Py.str_len prompt + Py.str_len "") = true) as H1
        by (by rewrite He, Z.add_0_r).
    rewrite get_input_loop_on_screen by exact H1.
    rewrite Hne, Hbs. change (0 <? Py.str_len "") with false. cbn match.
    by rewrite get_input_loop_on_screen by exact H1.
Qed.

Lemma get_input_backspace_witness :
  get_input_loop (24, 80) 15 0 "Title: " 20 ""
    (keys_of_string "Task" ++ Py.ord "x" :: 127 :: ENTER :: [])
  = (Ok "Task"%string, []) ∧
  get_input_loop (24, 80) 15 0 "Title: " 4 ""
    (keys_of_string "Task" ++ Py.ord "x" :: 127 :: ENTER :: [])
  = (Ok "Tas"%string, []) ∧
  get_input_loop (24, 80) 15 0 "Title: " 20 "" (127 :: ENTER :: [])
  = (Ok ""%string, []).
Proof.
  assert (printable "Task") as Hp
      by (repeat constructor; vm_compute; discriminate).
  assert (32 <= Py.ord "x" <= 126) as Hc by (vm_compute; split; discriminate).
  split; [|split].
  - apply (proj1 (get_input_backspace (24, 80) 15 0 "Title: " 20 "Task" "x"
                    127 [] Hp Hc eq_refl eq_refl)); reflexivity.
  - apply (proj1 (proj2 (get_input_backspace (24, 80) 15 0 "Title: " 4 "Task"
                           "x" 127 [] Hp Hc eq_refl eq_refl))); reflexivity.
  - apply (proj2 (proj2 (get_input_backspace (24, 80) 15 0 "Title: " 20 "Task"
                           "x" 127 [] Hp Hc eq_refl eq_refl))).
Defined.

(** ** The file picker *)

Lemma file_picker_loop_result path fs idx ks :
  0 <= idx < Py.len fs →
  match (file_picker_loop path fs idx ks).1 with
  | Ok (Some p) => ∃ f, f ∈ fs ∧ p = Py.path_join path f
  | Raise _ => False
  | _ => True
  end.
Proof.
  revert idx. induction ks as [|k ks IH]; intros idx Hidx; [done|]. simpl.
  destruct (_ && (idx >? 0)) eqn:E1.
  { apply IH. apply andb_true_iff in E1 as [_ E1].
    rewrite Z.gtb_ltb in E1. apply Z.ltb_lt in E1. lia. }
  destruct (_ && (idx <? Py.len fs - 1)) eqn:E2.
  { apply IH. apply andb_true_iff in E2 as [_ ?%Z.ltb_lt]. lia. }
  destruct (is_enter k).
  - rewrite getitem_in_range by done.
    destruct (lookup_in_range fs idx Hidx) as [f Hf]. rewrite Hf. simpl.
    exists f. split; [|done]. apply list_elem_of_lookup. eauto.
  - destruct (k =? 27); [done | by apply IH].
Qed.


(** X5. With no [.kanban] file in the save folder, [o] takes one more key,
    whatever it is, and changes nothing else: board, cursor, history and
    files stay as they are. *)
Theorem open_without_board_files l w k ks :
  filter (λ f, Py.endswith f ".kanban" = true) (listing w) = [] →
  keys w = k :: ks →
  on_key (Py.ord "o") {| locals := l; world := w |} =
  (Ok Continue,
   {| locals := l;
      world := {| keys := ks; maxyx := maxyx w; folder_path := folder_path w;
                  listing := listing w; files := files w;
                  writable := writable w |} |}).
Proof.
  intros Hfs Hk. on_key_unfold. mrun. unfold on_open, file_picker. mrun.
  rewrite Hfs. mrun. unfold getch. mrun. rewrite Hk. by mrun.
Qed.

Lemma open_without_board_files_witness :
  on_key (Py.ord "o")
    {| locals := initial_locals;
       world := {| keys := [Py.ord "x"; Py.ord "q"]; maxyx := (24, 80);
                   folder_path := sample_folder;
                   listing := ["notes.txt"; "kanban"]%string; files := ∅;
                   writable := λ _, true |} |}
  = (Ok Continue,
     {| locals := initial_locals;
        world := {| keys := [Py.ord "q"]; maxyx := (24, 80);
                    folder_path := sample_folder;
                    listing := ["notes.txt"; "kanban"]%string; files := ∅;
                    writable := λ _, true |} |}).
Proof.
  apply (open_without_board_files initial_locals
           {| keys := [Py.ord "x"; Py.ord "q"]; maxyx := (24, 80);
              folder_path := sample_folder;
              listing := ["notes.txt"; "kanban"]%string; files := ∅;
              writable := λ _, true |}
           (Py.ord "x") [Py.ord "q"]); reflexivity.
Defined.

(** ** The start screen *)

Lemma startup_option_in_range sel :
  0 <= sel < 3 → ∃ a, Py.getitem startup_options sel = Some a.
Proof.
  intros H. assert (sel = 0 ∨ sel = 1 ∨ sel = 2) as [->|[->| ->]] by lia;
    eexists; reflexivity.
Qed.

Lemma startup_screen_loop_no_raise sel ks e :
  0 <= sel < 3 → (startup_screen_loop sel ks).1 ≠ Raise e.
Proof.
  revert sel. induction ks as [|k ks IH]; intros sel Hsel; [done|]. simpl.
  change (Py.len startup_options) with 3.
  destruct (_ || _).
  { apply IH. apply Z.mod_pos_bound. lia. }
  destruct (_ || _).
  { apply IH. apply Z.mod_pos_bound. lia. }
  destruct (is_enter k).
  - destruct (startup_option_in_range sel Hsel) as [a ->]. done.
  - destruct (k =? 27); [done | by apply IH].
Qed.

(** X6. The start screen never raises: the selection stays among the
    three options however often up and down are pressed. *)
Theorem show_startup_screen_no_raise σ e :
  (show_startup_screen σ).1 ≠ Raise e.
Proof.
  destruct σ as [l w]. unfold show_startup_screen. mrun.
  pose proof (startup_screen_loop_no_raise 0 (keys w) e) as H.
  destruct (startup_screen_loop 0 (keys w)) as [r ks]. mrun.
  apply H. lia.
Qed.

Lemma startup_screen_loop_down sel n ks :
  startup_screen_loop sel (replicate n curses.KEY_DOWN ++ ks) =
  startup_screen_loop (if n is O then sel else (sel + Z.of_nat n) `mod` 3) ks.
Proof.
  revert sel. induction n as [|n IH]; intros sel; [done|].
  cbn [replicate app]. simpl startup_screen_loop.
  change (Py.len startup_options) with 3. rewrite IH.
  destruct n; [f_equal; f_equal; lia|].
  f_equal. rewrite Zplus_mod_idemp_l. f_equal. lia.
Qed.

Lemma startup_screen_loop_up sel n ks :
  startup_screen_loop sel (replicate n curses.KEY_UP ++ ks) =
  startup_screen_loop (if n is O then sel else (sel - Z.of_nat n) `mod` 3) ks.
Proof.
  revert sel. induction n as [|n IH]; intros sel; [done|].
  cbn [replicate app]. simpl startup_screen_loop.
  change (Py.len startup_options) with 3. rewrite IH.
  destruct n; [f_equal; f_equal; lia|].
  f_equal. rewrite Zminus_mod_idemp_l. f_equal. lia.
Qed.

(** X7. The start screen wraps around: from "New Board", [n] presses of
    down and Enter pick option [n mod 3], and [n] presses of up pick
    option [-n mod 3], of New Board, Open Board, Quit. *)
Theorem startup_screen_wraps n rest :
  startup_screen_loop 0 (replicate n curses.KEY_DOWN ++ ENTER :: rest) =
  (match Z.of_nat n `mod` 3 with 0 => Ok new | 1 => Ok open | _ => Ok quit end,
   rest) ∧
  startup_screen_loop 0 (replicate n curses.KEY_UP ++ ENTER :: rest) =
  (match (- Z.of_nat n) `mod` 3 with 0 => Ok new | 1 => Ok open | _ => Ok quit end,
   rest).
Proof.
  rewrite startup_screen_loop_down, startup_screen_loop_up. split.
  - destruct n as [|n]; [reflexivity|]. rewrite Z.add_0_l.
    pose proof (Z.mod_pos_bound (Z.of_nat (S n)) 3) as H.
    assert (Z.of_nat (S n) `mod` 3 = 0 ∨ Z.of_nat (S n) `mod` 3 = 1
            ∨ Z.of_nat (S n) `mod` 3 = 2) as [->|[->| ->]] by lia; reflexivity.
  - destruct n as [|n]; [reflexivity|]. rewrite Z.sub_0_l.
    pose proof (Z.mod_pos_bound (- Z.of_nat (S n)) 3) as H.
    assert ((- Z.of_nat (S n)) `mod` 3 = 0 ∨ (- Z.of_nat (S n)) `mod` 3 = 1
            ∨ (- Z.of_nat (S n)) `mod` 3 = 2) as [->|[->| ->]] by lia; reflexivity.
Qed.

(** ** What the screen shows as selected *)

(** X8. The display order of a column is its stored cards sorted by
    priority, high to low, stably: every stored card once, no card before
    one of higher priority, and cards of equal priority in their stored
    order. *)
Theorem display_order_stable_sort l :
  sorted_cards l ≡ₚ l ∧
  StronglySorted (λ a b, priority b <= priority a) (sorted_cards l) ∧
  ∀ p, filter (λ a, priority a = p) (sorted_cards l)
       = filter (λ a, priority a = p) l.
Proof.
  split; [apply sorted_cards_perm|].
  split; [apply sorted_cards_descending|].
  intros p. apply sorted_cards_stable.
Qed.

Lemma unflagged_cards (l : list Card) (f : nat → bool) :
  fst <$> filter (λ cb : Card * bool, cb.2 = true)
            (imap (λ j c, (c, false && f j)) l) = [].
Proof.
  revert f. induction l as [|x l IH]; intros f; [done|].
  rewrite imap_cons, filter_cons_False by (simpl; done).
  apply (IH (f ∘ S)).
Qed.

Lemma flagged_cards (b : bool) t k (l : list Card) :
  fst <$> filter (λ cb : Card * bool, cb.2 = true)
            (imap (λ j c, (c, b && (Z.of_nat (k + j) =? t))) l)
  = if b && (Z.of_nat k <=? t)
    then option_list (l !! (Z.to_nat t - k)%nat) else [].
Proof.
  destruct b; [|apply (unflagged_cards l (λ j, Z.of_nat (k + j) =? t))].
  cbn [andb].
  revert k. induction l as [|x l IH]; intros k.
  - simpl. rewrite ?lookup_nil. by destruct (_ <=? _).
  - rewrite imap_cons.
    rewrite (imap_ext _ (λ j c, (c, Z.of_nat (S k + j) =? t)))
      by (intros i c _; unfold compose;
          by replace (k + S i)%nat with (S k + i)%nat by lia).
    specialize (IH (S k)). rewrite Nat.add_0_r.
    destruct (decide (Z.of_nat k = t)) as [<-|Hne].
    + rewrite filter_cons_True by (simpl; by apply Z.eqb_eq).
      rewrite fmap_cons, IH.
      replace (Z.of_nat (S k) <=? Z.of_nat k) with false
        by (symmetry; apply Z.leb_gt; lia).
      replace (Z.of_nat k <=? Z.of_nat k) with true
        by (symmetry; apply Z.leb_le; lia).
      replace (Z.to_nat (Z.of_nat k) - k)%nat with 0%nat by lia. done.
    + rewrite filter_cons_False
        by (simpl; intros ?%Z.eqb_eq; lia).
      rewrite IH.
      destruct (Z.leb_spec (Z.of_nat (S k)) t), (Z.leb_spec (Z.of_nat k) t);
        try lia; [|done].
      replace (Z.to_nat t - k)%nat with (S (Z.to_nat t - S k)) by lia. done.
Qed.

Lemma flagged_columns sc scard k (cols : list Column) :
  fst <$> filter (λ cb : Card * bool, cb.2 = true)
            (concat (snd <$> imap (λ i, draw_column sc scard (k + i)) cols))
  = if (Z.of_nat k <=? sc) && (0 <=? scard)
    then option_list (col ← cols !! (Z.to_nat sc - k)%nat;
                      sorted_cards (cards col) !! Z.to_nat scard)
    else [].
Proof.
  revert k. induction cols as [|col cols IH]; intros k.
  - simpl. rewrite ?lookup_nil. by destruct (_ && _).
  - rewrite imap_cons, fmap_cons. simpl concat.
    rewrite filter_app, fmap_app.
    rewrite (imap_ext _ (λ i, draw_column sc scard (S k + i)))
      by (intros i c _; unfold compose;
          by replace (k + S i)%nat with (S k + i)%nat by lia).
    rewrite IH. rewrite Nat.add_0_r.
    pose proof (flagged_cards (Z.of_nat k =? sc) scard 0
                  (sorted_cards (cards col))) as H.
    simpl in H. rewrite H. rewrite Nat.sub_0_r.
    destruct (Z.eqb_spec (Z.of_nat k) sc) as [<-|Hne]; simpl.
    + replace (Z.of_nat (S k) <=? Z.of_nat k) with false
        by (symmetry; apply Z.leb_gt; lia).
      replace (Z.of_nat k <=? Z.of_nat k) with true
        by (symmetry; apply Z.leb_le; lia).
      replace (Z.to_nat (Z.of_nat k) - k)%nat with 0%nat by lia.
      simpl. rewrite app_nil_r. reflexivity.
    + destruct (Z.leb_spec (Z.of_nat (S k)) sc), (Z.leb_spec (Z.of_nat k) sc);
        try lia; [|done].
      replace (Z.to_nat sc - k)%nat with (S (Z.to_nat sc - S k)) by lia. done.
Qed.

(** X9. [draw_board] puts the reverse-video attribute on at most one
    card: the one at position [selected_card] of the priority-sorted cards
    of column [selected_col]; on none when either index is negative or past
    the end. *)
Theorem highlighted_card b sc scard :
  highlighted b sc scard =
  if (0 <=? sc) && (0 <=? scard)
  then option_list (col ← columns b !! Z.to_nat sc;
                    sorted_cards (cards col) !! Z.to_nat scard)
  else [].
Proof.
  unfold highlighted, draw_board.
  pose proof (flagged_columns sc scard 0 (columns b)) as H.
  simpl in H. rewrite Nat.sub_0_r in H. exact H.
Qed.

(** ** Moving the cursor *)

Lemma cursor_valid_at_first_card cols sc u r col :
  0 <= sc < Py.len cols → cols !! Z.to_nat sc = Some col →
  cursor_valid {| board := {| columns := cols |}; selected_col := sc;
                  selected_card := 0; undo_stack := u; redo_stack := r |} = true.
Proof.
  intros Hsc Hcol. apply cursor_valid_spec. right. exists col. simpl.
  split; [done|]. split; [done|].
  destruct (cards col) as [|c cs] eqn:E; [by left|].
  right. rewrite len_cons. pose proof (len_nonneg cs). lia.
Qed.

Lemma arrow_keys_cursor key σ c σ' :
  key_in key [curses.KEY_UP; curses.KEY_DOWN; curses.KEY_LEFT; curses.KEY_RIGHT] = true →
  cursor_valid (locals σ) = true →
  on_key key σ = (Ok c, σ') →
  c = Continue ∧ cursor_valid (locals σ') = true ∧ world σ' = world σ.
Proof.
  intros Hkey Hv.
  assert (key = 259 ∨ key = 258 ∨ key = 260 ∨ key = 261) as Hk.
  { unfold key_in, existsb in Hkey. rewrite !orb_true_iff in Hkey.
    destruct Hkey as [H|[H|[H|[H|H]]]]; try discriminate;
      apply Z.eqb_eq in H; unfold curses.KEY_UP, curses.KEY_DOWN,
        curses.KEY_LEFT, curses.KEY_RIGHT in H; lia. }
  destruct σ as [[[cols] sc scard u r] w].
  pose proof Hv as Hspec. apply cursor_valid_spec in Hspec. simpl in Hspec.
  destruct Hk as [->|[->|[->| ->]]];
    (rewrite on_key_not_snapshotted by reflexivity);
    unfold dispatch, curses.KEY_RIGHT, curses.KEY_LEFT, curses.KEY_UP,
      curses.KEY_DOWN; ord_eval; mrun.
  - (* up *)
    destruct (scard >? 0) eqn:E; mrun; intros [= <- <-];
      (split; [done|]); (split; [|done]); [|exact Hv].
    rewrite Z.gtb_ltb in E. apply Z.ltb_lt in E.
    apply cursor_valid_spec. simpl.
    destruct Hspec as [[-> ->]|(col & Hsc & Hcol & Hc)]; [by left|].
    right. exists col. split; [done|]. split; [done|]. right.
    destruct Hc as [[_ ->]|Hc]; lia.
  - (* down *)
    unfold column_at. mrun.
    destruct Hspec as [[-> ->]|(col & Hsc & Hcol & Hc)]; [discriminate|].
    rewrite getitem_in_range, Hcol by done. mrun.
    destruct (scard <? Py.len (cards col) - 1) eqn:E; mrun; intros [= <- <-];
      (split; [done|]); (split; [|done]); [|exact Hv].
    apply Z.ltb_lt in E. apply cursor_valid_spec. simpl.
    right. exists col. split; [done|]. split; [done|]. right.
    destruct Hc as [[Hc ->]|Hc]; [|lia].
    rewrite Hc in E. unfold Py.len in E. simpl in E. lia.
  - (* left *)
    destruct (sc >? 0) eqn:E; mrun; intros [= <- <-];
      (split; [done|]); (split; [|done]); [|exact Hv].
    rewrite Z.gtb_ltb in E. apply Z.ltb_lt in E.
    destruct Hspec as [[-> ->]|(col & Hsc & Hcol & Hc)]; [lia|].
    destruct (lookup_in_range cols (sc - 1)) as [left Hleft]; [lia|].
    eapply cursor_valid_at_first_card; [|exact Hleft]. lia.
  - (* right *)
    destruct (sc <? Py.len cols - 1) eqn:E; mrun; intros [= <- <-];
      (split; [done|]); (split; [|done]); [|exact Hv].
    apply Z.ltb_lt in E.
    destruct Hspec as [[-> ->]|(col & Hsc & Hcol & Hc)];
      [unfold Py.len in E; simpl in E; lia|].
    destruct (lookup_in_range cols (sc + 1)) as [right Hright]; [lia|].
    eapply cursor_valid_at_first_card; [|exact Hright]. lia.
Qed.

(** X10. An arrow key only moves the cursor: the pass changes neither
    the board nor the stacks nor the files, takes no further key, and
    leaves a valid cursor valid. *)
Theorem arrow_keys_only_move_cursor key σ c σ' :
  key_in key [curses.KEY_UP; curses.KEY_DOWN; curses.KEY_LEFT; curses.KEY_RIGHT] = true →
  cursor_valid (locals σ) = true →
  on_key key σ = (Ok c, σ') →
  c = Continue ∧
  board (locals σ') = board (locals σ) ∧ stacks σ' = stacks σ ∧
  world σ' = world σ ∧ cursor_valid (locals σ') = true.
Proof.
  intros Hkey Hv Hrun.
  destruct (arrow_keys_cursor _ _ _ _ Hkey Hv Hrun) as (Hc & Hv' & Hw).
  destruct (navigation_never_snapshots key σ Hkey) as (_ & Hs & Hb).
  rewrite Hrun in Hs, Hb. done.
Qed.

Lemma arrow_keys_only_move_cursor_witness :
  ∃ σ', on_key curses.KEY_RIGHT (at_default [Py.ord "q"]) = (Ok Continue, σ') ∧
        selected_col (locals σ') = 1 ∧
        board (locals σ') = default_board ∧ stacks σ' = ([], []) ∧
        world σ' = sample_world [Py.ord "q"] ∧ cursor_valid (locals σ') = true.
Proof.
  exists (on_key curses.KEY_RIGHT (at_default [Py.ord "q"])).2.
  split; [reflexivity|]. split; [reflexivity|].
  apply (arrow_keys_only_move_cursor curses.KEY_RIGHT
           (at_default [Py.ord "q"]) Continue); reflexivity.
Defined.

(** ** Edge cases of the main loop *)

Lemma getitem_nil {A} (i : Z) : Py.getitem (@nil A) i = None.
Proof.
  unfold Py.getitem, Py.norm_index. change (Py.len (@nil A)) with 0.
  destruct (i <? 0) eqn:E; [apply Z.ltb_lt in E | apply Z.ltb_ge in E].
  - replace (0 <=? i + 0) with false by (symmetry; apply Z.leb_gt; lia). done.
  - replace (i <? 0) with false by (symmetry; apply Z.ltb_ge; lia).
    rewrite andb_false_r. done.
Qed.

(** X11. On a board without columns the keys down, [d], [e] and [p]
    raise [IndexError], wherever the cursor is: each reads
    [board.columns[selected_col]] unguarded. *)
Theorem empty_board_raises l w key :
  columns (board l) = [] →
  key_in key [curses.KEY_DOWN; Py.ord "d"; Py.ord "e"; Py.ord "p"] = true →
  (on_key key {| locals := l; world := w |}).1 = Raise IndexError.
Proof.
  intros Hcols Hkey. destruct l as [[cols] sc scard u r]. simpl in Hcols. subst.
  assert (key = 258 ∨ key = 100 ∨ key = 101 ∨ key = 112) as Hk.
  { unfold key_in, existsb in Hkey. rewrite !orb_true_iff in Hkey.
    destruct Hkey as [H|[H|[H|[H|H]]]]; try discriminate;
      apply Z.eqb_eq in H; revert H; unfold curses.KEY_DOWN; ord_eval; lia. }
  destruct Hk as [->|[->|[->| ->]]]; on_key_unfold; mrun;
    unfold snapshot, on_delete, on_edit, on_priority, column_at; mrun;
    rewrite ?getitem_nil; mrun; reflexivity.
Qed.

Lemma empty_board_raises_witness :
  (on_key (Py.ord "p")
     {| locals := {| board := KanbanBoard_new; selected_col := 0;
                     selected_card := 0; undo_stack := []; redo_stack := [] |};
        world := sample_world [] |}).1 = Raise IndexError.
Proof.
  apply (empty_board_raises
           {| board := KanbanBoard_new; selected_col := 0; selected_card := 0;
              undo_stack := []; redo_stack := [] |} (sample_world []) (Py.ord "p"));
    reflexivity.
Defined.

(** X12. A move or column swap that has nowhere to go changes neither
    the board nor the cursor but still snapshots: [m] and []] on the last
    column, [b] and [[] on the first, push the unchanged board on the undo
    stack and empty the redo stack. *)
Theorem blocked_move_still_snapshots l w key :
  (key_in key [Py.ord "m"; Py.ord "]"] = true ∧
   Py.len (columns (board l)) - 1 <= selected_col l) ∨
  (key_in key [Py.ord "b"; Py.ord "["] = true ∧ selected_col l <= 0) →
  on_key key {| locals := l; world := w |} =
  (Ok Continue,
   {| locals := {| board := board l; selected_col := selected_col l;
                   selected_card := selected_card l;
                   undo_stack := undo_stack l ++ [board l];
                   redo_stack := [] |};
      world := w |}).
Proof.
  intros [[Hkey Hsc]|[Hkey Hsc]].
  - assert (key = 109 ∨ key = 93) as Hk.
    { unfold key_in, existsb in Hkey. rewrite !orb_true_iff in Hkey.
      destruct Hkey as [H|[H|H]]; try discriminate;
        apply Z.eqb_eq in H; revert H; ord_eval; lia. }
    destruct Hk as [-> | ->]; rewrite on_key_snapshotted by reflexivity;
      unfold dispatch, curses.KEY_RIGHT, curses.KEY_LEFT, curses.KEY_UP,
        curses.KEY_DOWN; ord_eval; mrun;
      unfold on_move_right, move_card_by, on_column_right; mrun;
      replace (selected_col l <? Py.len (columns (board l)) - 1) with false
        by (symmetry; apply Z.ltb_ge; lia); mrun; reflexivity.
  - assert (key = 98 ∨ key = 91) as Hk.
    { unfold key_in, existsb in Hkey. rewrite !orb_true_iff in Hkey.
      destruct Hkey as [H|[H|H]]; try discriminate;
        apply Z.eqb_eq in H; revert H; ord_eval; lia. }
    destruct Hk as [-> | ->]; rewrite on_key_snapshotted by reflexivity;
      unfold dispatch, curses.KEY_RIGHT, curses.KEY_LEFT, curses.KEY_UP,
        curses.KEY_DOWN; ord_eval; mrun;
      unfold on_move_left, move_card_by, on_column_left; mrun;
      replace (selected_col l >? 0) with false
        by (symmetry; rewrite Z.gtb_ltb; apply Z.ltb_ge; lia); mrun; reflexivity.
Qed.

Lemma blocked_move_still_snapshots_witness :
  on_key (Py.ord "b")
    {| locals := {| board := default_board; selected_col := 0; selected_card := 0;
                    undo_stack := []; redo_stack := [work_board] |};
       world := sample_world [] |} =
  (Ok Continue,
   {| locals := {| board := default_board; selected_col := 0; selected_card := 0;
                   undo_stack := [default_board]; redo_stack := [] |};
      world := sample_world [] |}).
Proof.
  apply (blocked_move_still_snapshots
           {| board := default_board; selected_col := 0; selected_card := 0;
              undo_stack := []; redo_stack := [work_board] |}
           (sample_world []) (Py.ord "b")).
  right. split; [reflexivity | simpl; lia].
Defined.

(** A key without a branch in the chain leaves the machine as it is. *)
Lemma on_key_unbound key σ :
  key_in key bound_keys = false → on_key key σ = (Ok Continue, σ).
Proof.
  intros H. destruct σ as [l w].
  unfold key_in, bound_keys, existsb in H.
  repeat (apply orb_false_iff in H as [?%Z.eqb_neq H]).
  rewrite on_key_not_snapshotted.
  - unfold dispatch.
    repeat match goal with
           | Hne : key ≠ ?k |- _ =>
               apply Z.eqb_neq in Hne; rewrite ?Hne; clear Hne
           end.
    mrun. by destruct l.
  - unfold key_in, snapshot_keys, existsb.
    repeat match goal with
           | Hne : key ≠ ?k |- _ =>
               apply Z.eqb_neq in Hne; rewrite ?Hne; clear Hne
           end.
    reflexivity.
Qed.

(** X13. A key without a branch in the chain does nothing at all: the
    pass takes no snapshot and leaves board, cursor, stacks, pending keys
    and files as they are. *)
Theorem unbound_key_does_nothing key σ :
  key_in key bound_keys = false →
  on_key key σ = (Ok Continue, σ) ∧ key_in key snapshot_keys = false.
Proof.
  intros H. split; [by apply on_key_unbound|].
  revert H. unfold key_in, bound_keys, snapshot_keys, existsb.
  rewrite !orb_false_iff. tauto.
Qed.

Lemma unbound_key_does_nothing_witness :
  on_key (Py.ord "A") (at_default [Py.ord "q"])
  = (Ok Continue, at_default [Py.ord "q"]) ∧
  key_in (Py.ord "A") snapshot_keys = false.
Proof.
  apply (unbound_key_does_nothing (Py.ord "A") (at_default [Py.ord "q"])).
  reflexivity.
Defined.

(** X14. Undo and redo are inverse to each other on the whole machine:
    with a snapshot to go back to, undo then redo restores board, cursor
    and both stacks, and with one to go forward to, so does redo then
    undo. *)
Theorem undo_redo_inverse σ :
  (undo_stack (locals σ) ≠ [] →
   ∃ σ1, on_key (Py.ord "z") σ = (Ok Continue, σ1) ∧
         on_key (Py.ord "x") σ1 = (Ok Continue, σ)) ∧
  (redo_stack (locals σ) ≠ [] →
   ∃ σ1, on_key (Py.ord "x") σ = (Ok Continue, σ1) ∧
         on_key (Py.ord "z") σ1 = (Ok Continue, σ)).
Proof.
  destruct σ as [[b sc scard u r] w]. simpl. split; intros Hne.
  - destruct u as [|b0 u0 _] using rev_ind; [done|].
    eexists. split; [by apply (on_key_undo_push _ w u0 b0)|].
    by rewrite (on_key_redo_push _ w r b).
  - destruct r as [|b0 r0 _] using rev_ind; [done|].
    eexists. split; [by apply (on_key_redo_push _ w r0 b0)|].
    by rewrite (on_key_undo_push _ w u b).
Qed.

Lemma undo_redo_inverse_witness :
  let σ := {| locals := {| board := work_board; selected_col := 0;
                           selected_card := 0; undo_stack := [default_board];
                           redo_stack := [] |};
              world := sample_world [] |} in
  ∃ σ1, on_key (Py.ord "z") σ = (Ok Continue, σ1) ∧
        board (locals σ1) = default_board ∧
        on_key (Py.ord "x") σ1 = (Ok Continue, σ).
Proof.
  intros σ.
  destruct (proj1 (undo_redo_inverse σ) ltac:(discriminate)) as (σ1 & Hz & Hx).
  exists σ1. split; [exact Hz|]. split; [|exact Hx].
  assert (on_key (Py.ord "z") σ
          = (Ok Continue,
             {| locals := {| board := default_board; selected_col := 0;
                             selected_card := 0; undo_stack := [];
                             redo_stack := [work_board] |};
                world := sample_world [] |})) as Hrun by reflexivity.
  rewrite Hrun in Hz. by injection Hz as <-.
Defined.

(** ** What the passes do to the board *)

Section Middle.
Context {A : Type}.
Implicit Types (l : list A) (x y : A).

Lemma norm_index_middle l1 x l2 :
  Py.norm_index (l1 ++ x :: l2) (Py.len l1) = Some (length l1).
Proof.
  rewrite norm_index_nonneg.
  - unfold Py.len. by rewrite Nat2Z.id.
  - unfold Py.len. rewrite length_app. simpl. lia.
Qed.

Lemma getitem_middle l1 x l2 : Py.getitem (l1 ++ x :: l2) (Py.len l1) = Some x.
Proof.
  unfold Py.getitem. rewrite norm_index_middle. simpl.
  by apply list_lookup_middle.
Qed.

Lemma setitem_middle l1 x y l2 :
  Py.setitem (l1 ++ x :: l2) (Py.len l1) y = Some (l1 ++ y :: l2).
Proof.
  unfold Py.setitem. rewrite norm_index_middle. simpl.
  replace (length l1) with (length l1 + 0)%nat at 1 by lia.
  by rewrite insert_app_r.
Qed.

Lemma pop_middle l1 x l2 :
  Py.pop (l1 ++ x :: l2) (Py.len l1) = Some (x, l1 ++ l2).
Proof.
  unfold Py.pop. rewrite norm_index_middle. simpl.
  rewrite list_lookup_middle by done. simpl. by rewrite delete_middle.
Qed.

Lemma len_snoc l x : Py.len (l ++ [x]) = Py.len l + 1.
Proof. apply len_app. Qed.

Lemma getitem_middle_next l1 x y l2 :
  Py.getitem (l1 ++ x :: y :: l2) (Py.len l1 + 1) = Some y.
Proof.
  rewrite <- (len_snoc l1 x). rewrite (cons_middle x l1 (y :: l2)), app_assoc.
  apply getitem_middle.
Qed.

Lemma setitem_middle_next l1 x y z l2 :
  Py.setitem (l1 ++ x :: y :: l2) (Py.len l1 + 1) z = Some (l1 ++ x :: z :: l2).
Proof.
  rewrite <- (len_snoc l1 x). rewrite (cons_middle x l1 (y :: l2)), app_assoc.
  rewrite setitem_middle. by rewrite <- app_assoc.
Qed.
End Middle.

(** Where the cursor lands in a column that lost the card at [scard] of
    [n] cards: on the same index, or on the new last card. *)
Lemma clamp_after_pop scard n :
  0 <= scard < n →
  (if scard >=? n - 1 then Z.max 0 (n - 1 - 1) else scard)
  = Z.min scard (Z.max 0 (n - 2)).
Proof.
  intros H. destruct (scard >=? n - 1) eqn:E; rewrite Z.geb_leb in E;
    [apply Z.leb_le in E | apply Z.leb_gt in E]; lia.
Qed.

Ltac dispatch_unfold :=
  unfold dispatch, curses.KEY_RIGHT, curses.KEY_LEFT, curses.KEY_UP,
    curses.KEY_DOWN; ord_eval; mrun.

(** X15. [d] removes the card stored at the cursor's index and no other:
    the cards before and after it keep their order, the other columns are
    untouched, the board before the pass goes on the undo stack, and the
    cursor stays on its index or moves to the new last card. *)
Theorem delete_removes_stored_card l1 col l2 c1 card c2 u r w :
  cards col = c1 ++ card :: c2 →
  on_key (Py.ord "d")
    {| locals := {| board := {| columns := l1 ++ col :: l2 |};
                    selected_col := Py.len l1; selected_card := Py.len c1;
                    undo_stack := u; redo_stack := r |};
       world := w |} =
  (Ok Continue,
   {| locals := {| board := {| columns := l1 ++ with_cards col (c1 ++ c2) :: l2 |};
                   selected_col := Py.len l1;
                   selected_card :=
                     Z.min (Py.len c1) (Z.max 0 (Py.len (cards col) - 2));
                   undo_stack := u ++ [ {| columns := l1 ++ col :: l2 |} ];
                   redo_stack := [] |};
      world := w |}).
Proof.
  intros Hc. rewrite on_key_snapshotted by reflexivity. dispatch_unfold.
  unfold on_delete, column_at, set_column_at. mrun.
  rewrite getitem_middle. mrun. rewrite Hc. mrun.
  assert (Py.truthy (c1 ++ card :: c2) = true) as -> by (by destruct c1).
  rewrite pop_middle. mrun. rewrite setitem_middle. mrun.
  rewrite getitem_middle. mrun.
  change (cards (with_cards col (c1 ++ c2))) with (c1 ++ c2).
  assert (Py.len (c1 ++ c2) = Py.len (c1 ++ card :: c2) - 1) as ->
      by (unfold Py.len; rewrite !length_app; simpl; lia).
  pose proof (clamp_after_pop (Py.len c1) (Py.len (c1 ++ card :: c2))) as Hcl.
  assert (0 <= Py.len c1 < Py.len (c1 ++ card :: c2)) as Hr
      by (unfold Py.len; rewrite length_app; simpl; lia).
  specialize (Hcl Hr). 
  destruct (Py.len c1 >=? Py.len (c1 ++ card :: c2) - 1); mrun;
    rewrite <- Hcl; reflexivity.
Qed.

Lemma delete_removes_stored_card_witness :
  ∃ σ', on_key (Py.ord "d") (at_default []) = (Ok Continue, σ') ∧
        (cards <$> columns (board (locals σ'))) !! 0%nat = Some [] ∧
        selected_card (locals σ') = 0.
Proof.
  eexists. split.
  - apply (delete_removes_stored_card []
             {| name := "To Do";
                cards := [ {| title := "Task 1"; description := "Press H for Help";
                              priority := 3 |} ] |}
             _ []
             {| title := "Task 1"; description := "Press H for Help";
                priority := 3 |} [] [] [] (sample_world [])).
    reflexivity.
  - split; reflexivity.
Defined.

Lemma move_right_result l1 col dst l2 c1 card c2 u r w :
  cards col = c1 ++ card :: c2 →
  on_key (Py.ord "m")
    {| locals := {| board := {| columns := l1 ++ col :: dst :: l2 |};
                    selected_col := Py.len l1; selected_card := Py.len c1;
                    undo_stack := u; redo_stack := r |};
       world := w |} =
  (Ok Continue,
   {| locals :=
        {| board := {| columns := l1 ++ with_cards col (c1 ++ c2)
                                     :: with_cards dst (cards dst ++ [card]) :: l2 |};
           selected_col := Py.len l1 + 1;
           selected_card := Z.min (Py.len c1) (Z.max 0 (Py.len (cards col) - 2));
           undo_stack := u ++ [ {| columns := l1 ++ col :: dst :: l2 |} ];
           redo_stack := [] |};
      world := w |}).
Proof.
  intros Hc. rewrite on_key_snapshotted by reflexivity. dispatch_unfold.
  unfold on_move_right, move_card_by, column_at, set_column_at. mrun.
  assert ((Py.len l1 <? Py.len (l1 ++ col :: dst :: l2) - 1) = true) as ->.
  { apply Z.ltb_lt. unfold Py.len. rewrite length_app. simpl. lia. }
  mrun. rewrite getitem_middle. mrun. rewrite Hc.
  assert (Py.truthy (c1 ++ card :: c2) = true) as -> by (by destruct c1).
  mrun. rewrite getitem_middle. mrun. rewrite Hc, pop_middle. mrun.
  rewrite setitem_middle. mrun. rewrite getitem_middle_next. mrun.
  rewrite setitem_middle_next. mrun. rewrite getitem_middle. mrun.
  change (cards (with_cards col (c1 ++ c2))) with (c1 ++ c2).
  assert (Py.len (c1 ++ c2) = Py.len (c1 ++ card :: c2) - 1) as ->
      by (unfold Py.len; rewrite !length_app; simpl; lia).
  assert (0 <= Py.len c1 < Py.len (c1 ++ card :: c2)) as Hr
      by (unfold Py.len; rewrite length_app; simpl; lia).
  pose proof (clamp_after_pop _ _ Hr) as Hcl.
  destruct (Py.len c1 >=? Py.len (c1 ++ card :: c2) - 1); mrun;
    rewrite <- Hcl; reflexivity.
Qed.

Lemma move_left_result l1 dst col l2 c1 card c2 u r w :
  cards col = c1 ++ card :: c2 →
  on_key (Py.ord "b")
    {| locals := {| board := {| columns := l1 ++ dst :: col :: l2 |};
                    selected_col := Py.len l1 + 1; selected_card := Py.len c1;
                    undo_stack := u; redo_stack := r |};
       world := w |} =
  (Ok Continue,
   {| locals :=
        {| board := {| columns := l1 ++ with_cards dst (cards dst ++ [card])
                                     :: with_cards col (c1 ++ c2) :: l2 |};
           selected_col := Py.len l1;
           selected_card := Z.min (Py.len c1) (Z.max 0 (Py.len (cards col) - 2));
           undo_stack := u ++ [ {| columns := l1 ++ dst :: col :: l2 |} ];
           redo_stack := [] |};
      world := w |}).
Proof.
  intros Hc. rewrite on_key_snapshotted by reflexivity. dispatch_unfold.
  unfold on_move_left, move_card_by, column_at, set_column_at. mrun.
  pose proof (len_nonneg l1) as Hl1.
  assert ((Py.len l1 + 1 >? 0) = true) as ->
      by (rewrite Z.gtb_ltb; apply Z.ltb_lt; lia).
  replace (Py.len l1 + 1 + -1) with (Py.len l1) by lia.
  mrun. rewrite getitem_middle_next. mrun. rewrite Hc.
  assert (Py.truthy (c1 ++ card :: c2) = true) as -> by (by destruct c1).
  mrun. rewrite getitem_middle_next. mrun. rewrite Hc, pop_middle. mrun.
  rewrite setitem_middle_next. mrun. rewrite getitem_middle. mrun.
  rewrite setitem_middle. mrun. rewrite getitem_middle_next. mrun.
  change (cards (with_cards col (c1 ++ c2))) with (c1 ++ c2).
  assert (Py.len (c1 ++ c2) = Py.len (c1 ++ card :: c2) - 1) as ->
      by (unfold Py.len; rewrite !length_app; simpl; lia).
  assert (0 <= Py.len c1 < Py.len (c1 ++ card :: c2)) as Hr
      by (unfold Py.len; rewrite length_app; simpl; lia).
  pose proof (clamp_after_pop _ _ Hr) as Hcl.
  destruct (Py.len c1 >=? Py.len (c1 ++ card :: c2) - 1); mrun;
    rewrite <- Hcl; reflexivity.
Qed.

(** The cards of all columns together are the same after a move. *)
Lemma all_cards_moved (l1 l2 : list Column) (a b a' b' : Column) card c1 c2 :
  cards a = c1 ++ card :: c2 → cards a' = c1 ++ c2 →
  cards b' = cards b ++ [card] →
  concat (cards <$> l1 ++ a' :: b' :: l2) ≡ₚ concat (cards <$> l1 ++ a :: b :: l2) ∧
  concat (cards <$> l1 ++ b' :: a' :: l2) ≡ₚ concat (cards <$> l1 ++ b :: a :: l2).
Proof.
  intros Ha Ha' Hb'. rewrite !fmap_app, !fmap_cons, !concat_app. simpl.
  rewrite Ha, Ha', Hb'.
  split; apply Permutation_app_head; rewrite <- ?app_assoc; simpl;
    rewrite <- !Permutation_middle; done.
Qed.

(** X16. [m] takes the card stored at the cursor's index out of its
    column and appends it to the next column, and [b] to the previous one;
    the other columns are untouched and the cards of the board are the
    same as before, none lost and none doubled.  The cursor goes to the
    destination column, with the card index clamped for the source. *)
Theorem move_card_conserves_cards l1 a b l2 c1 card c2 u r w :
  (cards a = c1 ++ card :: c2 →
   ∃ σ',
     on_key (Py.ord "m")
       {| locals := {| board := {| columns := l1 ++ a :: b :: l2 |};
                       selected_col := Py.len l1; selected_card := Py.len c1;
                       undo_stack := u; redo_stack := r |};
          world := w |} = (Ok Continue, σ') ∧
     columns (board (locals σ')) =
       l1 ++ with_cards a (c1 ++ c2) :: with_cards b (cards b ++ [card]) :: l2 ∧
     selected_col (locals σ') = Py.len l1 + 1 ∧
     concat (cards <$> columns (board (locals σ')))
       ≡ₚ concat (cards <$> l1 ++ a :: b :: l2)) ∧
  (cards b = c1 ++ card :: c2 →
   ∃ σ',
     on_key (Py.ord "b")
       {| locals := {| board := {| columns := l1 ++ a :: b :: l2 |};
                       selected_col := Py.len l1 + 1; selected_card := Py.len c1;
                       undo_stack := u; redo_stack := r |};
          world := w |} = (Ok Continue, σ') ∧
     columns (board (locals σ')) =
       l1 ++ with_cards a (cards a ++ [card]) :: with_cards b (c1 ++ c2) :: l2 ∧
     selected_col (locals σ') = Py.len l1 ∧
     concat (cards <$> columns (board (locals σ')))
       ≡ₚ concat (cards <$> l1 ++ a :: b :: l2)).
Proof.
  split; intros Hc.
  - eexists. split; [by apply (move_right_result l1 a b l2 c1 card c2)|].
    simpl. split; [done|]. split; [done|].
    by apply (all_cards_moved l1 l2 a b _ _ card c1 c2).
  - eexists. split; [by apply (move_left_result l1 a b l2 c1 card c2)|].
    simpl. split; [done|]. split; [done|].
    by apply (all_cards_moved l1 l2 b a _ _ card c1 c2).
Qed.

Lemma swap_left_result l1 left col l2 scard u r w :
  on_key (Py.ord "[")
    {| locals := {| board := {| columns := l1 ++ left :: col :: l2 |};
                    selected_col := Py.len l1 + 1; selected_card := scard;
                    undo_stack := u; redo_stack := r |};
       world := w |} =
  (Ok Continue,
   {| locals := {| board := {| columns := l1 ++ col :: left :: l2 |};
                   selected_col := Py.len l1; selected_card := scard;
                   undo_stack := u ++ [ {| columns := l1 ++ left :: col :: l2 |} ];
                   redo_stack := [] |};
      world := w |}).
Proof.
  rewrite on_key_snapshotted by reflexivity. dispatch_unfold.
  unfold on_column_left, swap_columns, column_at, set_column_at. mrun.
  pose proof (len_nonneg l1) as Hl1.
  assert ((Py.len l1 + 1 >? 0) = true) as ->
      by (rewrite Z.gtb_ltb; apply Z.ltb_lt; lia).
  replace (Py.len l1 + 1 - 1) with (Py.len l1) by lia. mrun.
  rewrite getitem_middle_next. mrun. rewrite getitem_middle. mrun.
  rewrite setitem_middle. mrun. rewrite setitem_middle_next. mrun.
  reflexivity.
Qed.

Lemma swap_right_result l1 col right l2 scard u r w :
  on_key (Py.ord "]")
    {| locals := {| board := {| columns := l1 ++ col :: right :: l2 |};
                    selected_col := Py.len l1; selected_card := scard;
                    undo_stack := u; redo_stack := r |};
       world := w |} =
  (Ok Continue,
   {| locals := {| board := {| columns := l1 ++ right :: col :: l2 |};
                   selected_col := Py.len l1 + 1; selected_card := scard;
                   undo_stack := u ++ [ {| columns := l1 ++ col :: right :: l2 |} ];
                   redo_stack := [] |};
      world := w |}).
Proof.
  rewrite on_key_snapshotted by reflexivity. dispatch_unfold.
  unfold on_column_right, swap_columns, column_at, set_column_at. mrun.
  assert ((Py.len l1 <? Py.len (l1 ++ col :: right :: l2) - 1) = true) as ->.
  { apply Z.ltb_lt. unfold Py.len. rewrite length_app. simpl. lia. }
  mrun. rewrite getitem_middle. mrun. rewrite getitem_middle_next. mrun.
  rewrite setitem_middle_next. mrun. rewrite setitem_middle. mrun.
  reflexivity.
Qed.

(** X17. [[] exchanges the selected column with its left neighbour and
    []] with its right one, the cursor following the column and every card
    staying in its column; one after the other they give back the board
    and the cursor they started from. *)
Theorem column_swap_round_trip l1 a b l2 scard u r w :
  ∃ σ1 σ2,
    on_key (Py.ord "[")
      {| locals := {| board := {| columns := l1 ++ a :: b :: l2 |};
                      selected_col := Py.len l1 + 1; selected_card := scard;
                      undo_stack := u; redo_stack := r |};
         world := w |} = (Ok Continue, σ1) ∧
    columns (board (locals σ1)) = l1 ++ b :: a :: l2 ∧
    selected_col (locals σ1) = Py.len l1 ∧
    on_key (Py.ord "]") σ1 = (Ok Continue, σ2) ∧
    columns (board (locals σ2)) = l1 ++ a :: b :: l2 ∧
    selected_col (locals σ2) = Py.len l1 + 1 ∧
    selected_card (locals σ2) = scard.
Proof.
  eexists _, _. split; [apply swap_left_result|].
  split; [reflexivity|]. split; [reflexivity|].
  split; [apply swap_right_result|]. done.
Qed.

Lemma move_card_conserves_cards_witness :
  ∃ σ',
    on_key (Py.ord "m") (at_default []) = (Ok Continue, σ') ∧
    (cards <$> columns (board (locals σ'))) =
      [ [];
        [ {| title := "Task 2"; description := "Press 'E' to edit me!"; priority := 1 |};
          {| title := "Task 1"; description := "Press H for Help"; priority := 3 |} ];
        [ {| title := "Task 3";
             description := "Issue? Report it at https://github.com/armadillomike/termikanban/issues";
             priority := 1 |} ] ] ∧
    selected_col (locals σ') = 1 ∧
    concat (cards <$> columns (board (locals σ')))
      ≡ₚ concat (cards <$> columns default_board).
Proof.
  destruct (proj1 (move_card_conserves_cards []
              {| name := "To Do";
                 cards := [ {| title := "Task 1"; description := "Press H for Help";
                               priority := 3 |} ] |}
              {| name := "In Progress";
                 cards := [ {| title := "Task 2";
                               description := "Press 'E' to edit me!";
                               priority := 1 |} ] |}
              [ {| name := "Done";
                   cards := [ {| title := "Task 3";
                                 description := "Issue? Report it at https://github.com/armadillomike/termikanban/issues";
                                 priority := 1 |} ] |} ]
              [] {| title := "Task 1"; description := "Press H for Help";
                    priority := 3 |} [] [] [] (sample_world []))
              eq_refl) as (σ' & Hrun & Hcols & Hsc & Hperm).
  exists σ'. split; [exact Hrun|]. split; [by rewrite Hcols|].
  split; [exact Hsc | exact Hperm].
Defined.



(** X19. [c] with a non-empty name appends a column of that name and no
    cards after the existing columns, which stay as they are, and puts the
    cursor on it; with an empty name no column is added, though the
    snapshot is taken all the same. *)
Theorem add_column_result l w col_name ks :
  get_input_loop (maxyx w) 15 0 "New column name: " 20 "" (keys w)
  = (Ok col_name, ks) →
  on_key (Py.ord "c") {| locals := l; world := w |} =
  (Ok Continue,
   {| locals :=
        if Py.str_truthy col_name then
          {| board := {| columns := columns (board l)
                                    ++ [ {| name := col_name; cards := [] |} ] |};
             selected_col := Py.len (columns (board l));
             selected_card := 0;
             undo_stack := undo_stack l ++ [board l]; redo_stack := [] |}
        else
          {| board := board l; selected_col := selected_col l;
             selected_card := selected_card l;
             undo_stack := undo_stack l ++ [board l]; redo_stack := [] |};
      world := {| keys := ks; maxyx := maxyx w; folder_path := folder_path w;
                  listing := listing w; files := files w;
                  writable := writable w |} |}).
Proof.
  intros H. rewrite on_key_snapshotted by reflexivity. dispatch_unfold.
  unfold on_add_column. mrun.
  rewrite (get_input_run _ _ _ 20 _ _ col_name ks) by exact H. mrun.
  destruct (Py.str_truthy col_name); mrun; [|reflexivity].
  unfold add_column. mrun. rewrite len_app.
  replace (Py.len (columns (board l)) + 1 - 1)
    with (Py.len (columns (board l))) by lia.
  reflexivity.
Qed.

Lemma add_column_result_witness :
  ∃ σ',
    on_key (Py.ord "c") (at_default [Py.ord "Q"; ENTER]) = (Ok Continue, σ') ∧
    name <$> columns (board (locals σ')) = ["To Do"; "In Progress"; "Done"; "Q"]%string ∧
    selected_col (locals σ') = 3.
Proof.
  eexists. split.
  - apply (add_column_result (locals (at_default [])) (sample_world [Py.ord "Q"; ENTER])
             "Q" []). reflexivity.
  - split; reflexivity.
Defined.

(** X20. [q] asks one more key: [n] or [N] leaves the loop with nothing
    changed; [y] or [Y] reads a name of at most 10 characters and saves
    the board under that name with [.kanban] appended: where that path
    can be written the file holds the board and the loop is left, and
    where it cannot the pass raises [IOError] and no file is changed; any
    other key goes back to the loop with nothing changed. *)
Theorem quit_cases l w confirm ks :
  keys w = confirm :: ks →
  let w' := {| keys := ks; maxyx := maxyx w; folder_path := folder_path w;
               listing := listing w; files := files w;
               writable := writable w |} in
  (key_in confirm [Py.ord "n"; Py.ord "N"] = true →
   on_key (Py.ord "q") {| locals := l; world := w |}
   = (Ok Break, {| locals := l; world := w' |})) ∧
  (key_in confirm [Py.ord "y"; Py.ord "Y"] = true →
   ∀ save_name ks',
     get_input_loop (maxyx w) 16 0 "Name:" 10 "" ks = (Ok save_name, ks') →
     on_key (Py.ord "q") {| locals := l; world := w |}
     = if writable w (save_name +:+ ".kanban") then
         (Ok Break,
          {| locals := l;
             world := {| keys := ks'; maxyx := maxyx w;
                         folder_path := folder_path w; listing := listing w;
                         files := <[save_name +:+ ".kanban" := encode_board (board l)]>
                                    (files w);
                         writable := writable w |} |})
       else
         (Raise IOError,
          {| locals := l;
             world := {| keys := ks'; maxyx := maxyx w;
                         folder_path := folder_path w; listing := listing w;
                         files := files w; writable := writable w |} |})) ∧
  (key_in confirm [Py.ord "y"; Py.ord "Y"; Py.ord "n"; Py.ord "N"] = false →
   on_key (Py.ord "q") {| locals := l; world := w |}
   = (Ok Continue, {| locals := l; world := w' |})).
Proof.
  intros Hk w'. subst w'.
  assert (∀ σ, on_key (Py.ord "q") σ = on_quit σ) as Hq.
  { intros [l0 w0]. rewrite on_key_not_snapshotted by reflexivity.
    unfold dispatch. ord_eval. reflexivity. }
  rewrite Hq. unfold on_quit, getch. mrun. rewrite Hk. mrun.
  unfold key_in, existsb. ord_eval.
  split; [|split].
  - intros H. rewrite !orb_true_iff, !Z.eqb_eq in H.
    assert (confirm = 110 ∨ confirm = 78) as [-> | ->] by lia; mrun;
      by destruct l.
  - intros H save_name ks' Hin. rewrite H. mrun.
    rewrite (get_input_run _ _ _ 10 _ _ save_name ks') by exact Hin. mrun.
    unfold save. mrun.
    destruct (writable w (save_name +:+ ".kanban")); mrun; by destruct l.
  - intros H. rewrite !orb_false_iff in H. destruct H as (H1 & H2 & H3 & H4 & _).
    rewrite H1, H2, H3, H4. mrun. by destruct l.
Qed.

Lemma quit_cases_witness :
  on_key (Py.ord "q") (at_default [Py.ord "n"; Py.ord "x"])
  = (Ok Break, at_default [Py.ord "x"]) ∧
  (∃ σ', on_key (Py.ord "q")
           (at_default ([Py.ord "y"] ++ keys_of_string "plan" ++ [ENTER]))
         = (Ok Break, σ') ∧
         files (world σ') !! "plan.kanban"%string = Some (encode_board default_board)) ∧
  on_key (Py.ord "q") (at_default ([Py.ord "y"] ++ keys_of_string "a/b" ++ [ENTER]))
  = (Raise IOError, at_default []) ∧
  on_key (Py.ord "q") (at_default [Py.ord "x"; Py.ord "d"])
  = (Ok Continue, at_default [Py.ord "d"]).
Proof.
  split; [|split; [|split]].
  - apply (proj1 (quit_cases (locals (at_default []))
                    (sample_world [Py.ord "n"; Py.ord "x"])
                    (Py.ord "n") [Py.ord "x"] eq_refl)).
    reflexivity.
  - eexists. split.
    + apply (proj1 (proj2 (quit_cases (locals (at_default []))
                      (sample_world ([Py.ord "y"] ++ keys_of_string "plan" ++ [ENTER]))
                      (Py.ord "y") (keys_of_string "plan" ++ [ENTER]) eq_refl))
               eq_refl "plan" []).
      reflexivity.
    + reflexivity.
  - apply (proj1 (proj2 (quit_cases (locals (at_default []))
                    (sample_world ([Py.ord "y"] ++ keys_of_string "a/b" ++ [ENTER]))
                    (Py.ord "y") (keys_of_string "a/b" ++ [ENTER]) eq_refl))
             eq_refl "a/b" []).
    reflexivity.
  - apply (proj2 (proj2 (quit_cases (locals (at_default []))
                    (sample_world [Py.ord "x"; Py.ord "d"])
                    (Py.ord "x") [Py.ord "d"] eq_refl))).
    reflexivity.
Defined.

(** ** The start-up *)

Lemma str_truthy_app_r a b :
  Py.str_truthy b = true → Py.str_truthy (a +:+ b) = true.
Proof. intros H. destruct a; [exact H | reflexivity]. Qed.

Lemma endswith_nonempty f : Py.endswith f ".kanban" = true → Py.str_truthy f = true.
Proof. by destruct f. Qed.

Lemma path_join_truthy a b :
  Py.str_truthy b = true → Py.str_truthy (Py.path_join a b) = true.
Proof.
  intros H. unfold Py.path_join.
  destruct (Py.startswith b "/"); [exact H|].
  destruct (_ && _); repeat apply str_truthy_app_r; exact H.
Qed.

Lemma new_default_board_run l w :
  new_default_board {| locals := l; world := w |} =
  (Ok tt, {| locals := {| board := default_board; selected_col := selected_col l;
                          selected_card := selected_card l;
                          undo_stack := undo_stack l; redo_stack := redo_stack l |};
             world := w |}).
Proof. reflexivity. Qed.

(** X21. Started with a path that exists and ends in [.kanban] but that
    cannot be loaded, the program waits for one key and builds its
    fallback board: the three default columns with their cards followed by
    a second, empty To Do, In Progress and Done, since the three columns
    are added once before [create_default_board] and once by it. *)
Theorem startup_load_failure_gives_six_columns prog file f k ks l w :
  files w !! file = Some f →
  Py.endswith file ".kanban" = true →
  decode_board f = None →
  keys w = k :: ks →
  startup [prog; file] {| locals := l; world := w |} =
  (Ok Continue,
   {| locals :=
        {| board := {| columns := columns default_board
                                  ++ [ {| name := "To Do"; cards := [] |};
                                       {| name := "In Progress"; cards := [] |};
                                       {| name := "Done"; cards := [] |} ] |};
           selected_col := 0; selected_card := 0;
           undo_stack := undo_stack l; redo_stack := redo_stack l |};
      world := {| keys := ks; maxyx := maxyx w; folder_path := folder_path w;
                  listing := listing w; files := files w;
                  writable := writable w |} |}).
Proof.
  intros Hf He Hd Hk. unfold startup, path_exists. mrun.
  change (Py.len [prog; file] >? 1) with true.
  change (Py.getitem [prog; file] 1) with (Some file). mrun.
  rewrite Hf, He. rewrite bool_decide_eq_true_2 by eauto.
  cbn [andb]. unfold try_except, load. mrun. rewrite Hf. mrun. rewrite Hd. mrun.
  unfold getch. mrun. rewrite Hk. mrun. reflexivity.
Qed.

Lemma startup_load_failure_gives_six_columns_witness :
  ∃ σ',
    startup ["main.py"; Py.path_join sample_folder "broken.kanban"]
      (start [Py.ord " "]) = (Ok Continue, σ') ∧
    name <$> columns (board (locals σ')) =
      ["To Do"; "In Progress"; "Done"; "To Do"; "In Progress"; "Done"]%string.
Proof.
  eexists. split.
  - apply (startup_load_failure_gives_six_columns "main.py"
             (Py.path_join sample_folder "broken.kanban") Unreadable
             (Py.ord " ") [] initial_locals (sample_world [Py.ord " "]));
      reflexivity.
  - reflexivity.
Defined.

(** The path [file_picker] returns is never the empty string. *)
Lemma file_picker_path_truthy σ p σ' :
  file_picker σ = (Ok (Some p), σ') → Py.str_truthy p = true.
Proof.
  destruct σ as [l w]. unfold file_picker. mrun.
  set (fs := filter (λ f, Py.endswith f ".kanban" = true) (listing w)).
  destruct fs as [|f0 fs'] eqn:Efs; mrun.
  { unfold getch. mrun. destruct (keys w); mrun; discriminate. }
  pose proof (file_picker_loop_result (folder_path w) (f0 :: fs') 0 (keys w)) as H.
  destruct (file_picker_loop _ _ _ _) as [r ks']. mrun. simpl in H.
  assert (0 <= 0 < Py.len (f0 :: fs')) as H0
      by (rewrite len_cons; pose proof (len_nonneg fs'); lia).
  specialize (H H0). intros [= -> <-].
  destruct H as (f & Hin & ->). rewrite <- Efs in Hin. unfold fs in Hin.
  apply list_elem_of_filter in Hin as [Hend _].
  apply path_join_truthy. by apply endswith_nonempty.
Qed.

(** X22. Started without an argument, the program never enters the main
    loop on a loaded board.  Choosing Open Board and picking a file raises
    [TypeError], with the board still the new, empty one (l.316-317 call
    [load] on the class).  Otherwise the start-up goes on with the default
    board, cursor on the first card, or leaves at Quit, or waits for a
    key; no other exception leaves it. *)
Theorem startup_without_argument_never_loads prog l w :
  let σ0 := {| locals := {| board := KanbanBoard_new; selected_col := 0;
                            selected_card := 0; undo_stack := undo_stack l;
                            redo_stack := redo_stack l |};
               world := w |} in
  (∀ σ1 p σ2,
     show_startup_screen σ0 = (Ok open, σ1) →
     file_picker σ1 = (Ok (Some p), σ2) →
     startup [prog] {| locals := l; world := w |} = (Raise TypeError, σ2) ∧
     board (locals σ2) = KanbanBoard_new) ∧
  match startup [prog] {| locals := l; world := w |} with
  | (Ok Continue, σ') =>
      board (locals σ') = default_board ∧
      selected_col (locals σ') = 0 ∧ selected_card (locals σ') = 0
  | (Ok Break, _) => True
  | (Raise e, _) => e = TypeError
  | (Blocked, _) => True
  end.
Proof.
  intros σ0. subst σ0. split.
  - intros σ1 p σ2 Hs Hf.
    pose proof (file_picker_path_truthy _ _ _ Hf) as Hp.
    pose proof (keeps_locals_show_startup_screen
                  {| locals := {| board := KanbanBoard_new; selected_col := 0;
                                  selected_card := 0; undo_stack := undo_stack l;
                                  redo_stack := redo_stack l |};
                     world := w |}) as Hl1.
    pose proof (keeps_locals_file_picker σ1) as Hl2.
    unfold same in Hl1, Hl2. rewrite Hs in Hl1. rewrite Hf in Hl2.
    simpl in Hl1, Hl2. split; [|by rewrite Hl2, Hl1].
    unfold startup. mrun. change (Py.len [prog] >? 1) with false. cbn match.
    mrun. rewrite Hs. mrun. rewrite Hf. mrun. rewrite Hp. by mrun.
  - unfold startup. mrun.
    change (Py.len [prog] >? 1) with false. cbn match.
    unfold show_startup_screen. mrun.
    pose proof (λ e, startup_screen_loop_no_raise 0 (keys w) e ltac:(lia)) as Hs.
    destruct (startup_screen_loop 0 (keys w)) as [[[ | | ]|e| ] ks]; mrun;
      [| | done | by destruct (Hs e) | done].
    + rewrite new_default_board_run. by mrun.
    + unfold file_picker. mrun.
      set (fs := filter (λ f, Py.endswith f ".kanban" = true) (listing w)).
      destruct fs as [|f0 fs'] eqn:Efs; mrun.
      * unfold getch. mrun. destruct ks; mrun; [done|].
        rewrite new_default_board_run. by mrun.
      * pose proof (file_picker_loop_result (folder_path w) (f0 :: fs') 0 ks) as H.
        destruct (file_picker_loop _ _ _ _) as [r ks']. mrun. simpl in H.
        assert (0 <= 0 < Py.len (f0 :: fs')) as H0
            by (rewrite len_cons; pose proof (len_nonneg fs'); lia).
        specialize (H H0). destruct r as [[p|]|e|]; mrun; [| |done|done].
        -- destruct H as (f & Hin & ->). rewrite <- Efs in Hin. unfold fs in Hin.
           apply list_elem_of_filter in Hin as [Hend _].
           rewrite path_join_truthy by (by apply endswith_nonempty). by mrun.
        -- rewrite new_default_board_run. by mrun.
Qed.

Lemma startup_without_argument_never_loads_witness :
  startup ["main.py"] (start [curses.KEY_DOWN; ENTER; ENTER; Py.ord "q"])
  = (Raise TypeError, start [Py.ord "q"]).
Proof.
  apply (proj1 (startup_without_argument_never_loads "main.py" initial_locals
                  (sample_world [curses.KEY_DOWN; ENTER; ENTER; Py.ord "q"]))
           (start [ENTER; Py.ord "q"])
           (Py.path_join sample_folder "broken.kanban")
           (start [Py.ord "q"]));
    reflexivity.
Defined.

(** ** The cursor over all keys *)

(** Replacing a column by one with at least as many cards keeps a valid
    cursor valid. *)
Lemma cursor_valid_insert_col cols sc scard u r u' r' (i : nat) col col' :
  cursor_valid {| board := {| columns := cols |}; selected_col := sc;
                  selected_card := scard; undo_stack := u; redo_stack := r |} = true →
  cols !! i = Some col →
  Py.len (cards col) <= Py.len (cards col') →
  cursor_valid {| board := {| columns := <[i := col']> cols |}; selected_col := sc;
                  selected_card := scard; undo_stack := u'; redo_stack := r' |} = true.
Proof.
  intros Hv Hi Hlen. apply cursor_valid_spec in Hv. apply cursor_valid_spec.
  simpl in *. destruct Hv as [[-> _]|(c & Hsc & Hc & Hcard)]; [done|].
  right. rewrite len_insert.
  destruct (decide (i = Z.to_nat sc)) as [->|Hne].
  - exists col'. split; [done|].
    split; [apply list_lookup_insert_eq; unfold Py.len in Hsc; lia|].
    assert (c = col) as -> by congruence.
    destruct Hcard as [[Hnil ->]|Hcard]; [|right; lia].
    destruct (cards col') as [|x xs]; [by left|].
    right. rewrite len_cons. pose proof (len_nonneg xs). lia.
  - exists c. split; [done|]. split; [|done].
    by rewrite list_lookup_insert_ne.
Qed.

Lemma cursor_valid_after_add σ c σ' :
  cursor_valid (locals σ) = true →
  on_key (Py.ord "a") σ = (Ok c, σ') →
  cursor_valid (locals σ') = true.
Proof.
  destruct σ as [[[cols] sc scard u r] w]. intros Hv.
  rewrite on_key_snapshotted by reflexivity. dispatch_unfold.
  unfold on_add, get_input. mrun.
  destruct (get_input_loop _ _ _ _ 20 "" (keys w)) as [[t|?|] ks1]; mrun;
    [|discriminate..].
  destruct (get_input_loop _ _ _ _ 40 "" ks1) as [[d|?|] ks2]; mrun;
    [|discriminate..].
  destruct (get_input_loop _ _ _ _ 1 "" ks2) as [[ps|?|] ks3]; mrun;
    [|discriminate..].
  unfold add_card, column_at, set_column_at. mrun.
  change (0 <=? 0) with true. cbn [andb].
  destruct (0 <? Py.len cols) eqn:E; mrun; [|discriminate].
  apply Z.ltb_lt in E.
  destruct (lookup_in_range cols 0) as [col0 Hcol0]; [lia|].
  rewrite getitem_in_range, Hcol0 by lia. mrun.
  rewrite setitem_in_range by lia. mrun. intros [= <- <-].
  eapply cursor_valid_insert_col; [exact Hv | exact Hcol0 |].
  simpl. rewrite len_app. lia.
Qed.

Lemma cursor_valid_after_edit σ c σ' :
  cursor_valid (locals σ) = true →
  on_key (Py.ord "e") σ = (Ok c, σ') →
  cursor_valid (locals σ') = true.
Proof.
  destruct σ as [[[cols] sc scard u r] w]. intros Hv.
  pose proof Hv as Hspec. apply cursor_valid_spec in Hspec. simpl in Hspec.
  rewrite on_key_snapshotted by reflexivity. dispatch_unfold.
  unfold on_edit, column_at, set_column_at. mrun.
  destruct Hspec as [[-> _]|(col & Hsc & Hcol & Hc)].
  { rewrite getitem_nil. mrun. discriminate. }
  rewrite getitem_in_range, Hcol by done. mrun.
  destruct (cards col) as [|c0 cs] eqn:Ec; mrun.
  { intros [= <- <-]. exact Hv. }
  destruct Hc as [[? _]|Hc]; [done|].
  destruct (lookup_in_range (c0 :: cs) scard Hc) as [card Hcard].
  rewrite getitem_in_range, Hcard by done. mrun.
  unfold get_input. mrun.
  destruct (get_input_loop _ _ _ _ 20 "" (keys w)) as [[t|?|] ks1]; mrun;
    [|discriminate..].
  destruct (get_input_loop _ _ _ _ 40 "" ks1) as [[d|?|] ks2]; mrun;
    [|discriminate..].
  rewrite setitem_in_range by done. mrun.
  rewrite setitem_in_range by done. mrun. intros [= <- <-].
  eapply cursor_valid_insert_col; [exact Hv | exact Hcol |].
  simpl. rewrite len_insert, Ec. lia.
Qed.

Lemma cursor_valid_after_priority σ c σ' :
  cursor_valid (locals σ) = true →
  on_key (Py.ord "p") σ = (Ok c, σ') →
  cursor_valid (locals σ') = true.
Proof.
  destruct σ as [[[cols] sc scard u r] w]. intros Hv.
  pose proof Hv as Hspec. apply cursor_valid_spec in Hspec. simpl in Hspec.
  rewrite on_key_not_snapshotted by reflexivity. dispatch_unfold.
  unfold on_priority, column_at, set_column_at. mrun.
  destruct Hspec as [[-> _]|(col & Hsc & Hcol & Hc)].
  { rewrite getitem_nil. mrun. discriminate. }
  rewrite getitem_in_range, Hcol by done. mrun.
  destruct (cards col) as [|c0 cs] eqn:Ec; mrun.
  { intros [= <- <-]. exact Hv. }
  destruct Hc as [[? _]|Hc]; [done|].
  destruct (lookup_in_range (c0 :: cs) scard Hc) as [card Hcard].
  rewrite getitem_in_range, Hcard by done. mrun.
  rewrite setitem_in_range by done. mrun.
  rewrite setitem_in_range by done. mrun. intros [= <- <-].
  eapply cursor_valid_insert_col; [exact Hv | exact Hcol |].
  simpl. rewrite len_insert, Ec. lia.
Qed.

(** [q], [s] and [h] leave the locals as they are. *)
Lemma quit_save_help_keep_locals key :
  key_in key [Py.ord "q"; Py.ord "s"; Py.ord "h"] = true →
  keeps_locals (on_key key).
Proof.
  intros Hkey.
  assert (key = 113 ∨ key = 115 ∨ key = 104) as Hk.
  { unfold key_in, existsb in Hkey. rewrite !orb_true_iff in Hkey.
    destruct Hkey as [H|[H|[H|H]]]; try discriminate;
      apply Z.eqb_eq in H; revert H; ord_eval; lia. }
  assert (∀ f, keeps_locals (save f)) as Hsave
      by (intros f; unfold save, set_files; frame).
  intros σ.
  destruct Hk as [->|[->| ->]]; rewrite on_key_not_snapshotted by reflexivity;
    revert σ.
  - change (dispatch 113) with on_quit. unfold on_quit. frame.
  - assert (∀ σ, dispatch 115 σ = (on_save;; mret Continue) σ) as Hd.
    { intros [l w]. dispatch_unfold. reflexivity. }
    intros σ. rewrite Hd. revert σ. unfold on_save. frame.
  - assert (∀ σ, dispatch 104 σ = (show_help;; mret Continue) σ) as Hd.
    { intros [l w]. dispatch_unfold. reflexivity. }
    intros σ. rewrite Hd. revert σ. unfold show_help. frame.
Qed.

(** X23. Only five keys can leave the cursor off the board: a pass that
    ends normally on any key other than [m], [b], [o], [z] and [x] keeps
    a valid cursor valid. *)
Theorem cursor_stays_valid key σ c σ' :
  key_in key [Py.ord "m"; Py.ord "b"; Py.ord "o"; Py.ord "z"; Py.ord "x"] = false →
  cursor_valid (locals σ) = true →
  on_key key σ = (Ok c, σ') →
  cursor_valid (locals σ') = true.
Proof.
  intros Hkey Hv Hrun.
  destruct (key_in key bound_keys) eqn:Hb.
  2:{ rewrite on_key_unbound in Hrun by done. by injection Hrun as _ <-. }
  destruct (key_in key [curses.KEY_UP; curses.KEY_DOWN; curses.KEY_LEFT;
                        curses.KEY_RIGHT]) eqn:Harrow.
  { by destruct (arrow_keys_cursor _ _ _ _ Harrow Hv Hrun) as (_ & ? & _). }
  destruct (key_in key [Py.ord "q"; Py.ord "s"; Py.ord "h"]) eqn:Hqsh.
  { pose proof (quit_save_help_keep_locals key Hqsh σ) as Hl.
    rewrite Hrun in Hl. unfold same in Hl. simpl in Hl. by rewrite Hl. }
  assert (key = 100 ∨ key = 97 ∨ key = 101 ∨ key = 99 ∨ key = 91 ∨ key = 93
          ∨ key = 112) as Hk.
  { revert Hkey Hb Harrow Hqsh.
    unfold key_in, bound_keys, existsb, curses.KEY_UP, curses.KEY_DOWN,
      curses.KEY_LEFT, curses.KEY_RIGHT. ord_eval.
    rewrite !orb_false_iff, !orb_true_iff, !Z.eqb_neq, !Z.eqb_eq. lia. }
  destruct Hk as [->|[->|[->|[->|[->|[->| ->]]]]]].
  - destruct (columns (board (locals σ))) eqn:Ecols.
    + destruct σ as [[[cols] sc scard u r] w]. simpl in Ecols. subst cols.
      revert Hrun. rewrite on_key_snapshotted by reflexivity. dispatch_unfold.
      unfold on_delete, column_at. mrun. rewrite getitem_nil. mrun. discriminate.
    + destruct (cursor_valid_after_delete σ Hv) as (σ1 & H1 & Hv1);
        [by rewrite Ecols|].
      change 100 with (Py.ord "d") in Hrun. rewrite H1 in Hrun.
      by injection Hrun as _ <-.
  - exact (cursor_valid_after_add σ c σ' Hv Hrun).
  - exact (cursor_valid_after_edit σ c σ' Hv Hrun).
  - exact (cursor_valid_after_add_column σ c σ' Hv Hrun).
  - destruct (cursor_valid_after_column_left σ Hv) as (σ1 & H1 & Hv1).
    change 91 with (Py.ord "[") in Hrun. rewrite H1 in Hrun.
    by injection Hrun as _ <-.
  - destruct (cursor_valid_after_column_right σ Hv) as (σ1 & H1 & Hv1).
    change 93 with (Py.ord "]") in Hrun. rewrite H1 in Hrun.
    by injection Hrun as _ <-.
  - exact (cursor_valid_after_priority σ c σ' Hv Hrun).
Qed.

Lemma cursor_stays_valid_witness :
  ∃ σ', on_key (Py.ord "d") (at_default [Py.ord "q"]) = (Ok Continue, σ') ∧
        cursor_valid (locals σ') = true.
Proof.
  exists (on_key (Py.ord "d") (at_default [Py.ord "q"])).2.
  split; [reflexivity|].
  apply (cursor_stays_valid (Py.ord "d") (at_default [Py.ord "q"]) Continue);
    reflexivity.
Defined.

(** ** Priorities over one pass *)

(** X24. A pass of the main loop keeps every priority within 1..3: if all
    cards of the board and of the snapshots on both stacks have a priority
    from 1 to 3, they do after the pass, whichever key was pressed and
    however the pass ends. *)
Theorem pass_keeps_priorities key σ :
  locals_ok (locals σ) → locals_ok (locals (on_key key σ).2).
Proof. intros H. by apply (yields_on_key key σ). Qed.

Lemma pass_keeps_priorities_witness :
  locals_ok (locals (on_key (Py.ord "p") (at_default [])).2).
Proof.
  apply (pass_keeps_priorities (Py.ord "p") (at_default [])).
  unfold locals_ok, columns_ok, cards_ok, card_ok. simpl.
  repeat constructor; simpl; lia.
Defined.

(** ** Entering the main loop *)

Lemma startup_cursor argv σ :
  selected_col (locals (startup argv σ).2) = 0 ∧
  selected_card (locals (startup argv σ).2) = 0.
Proof.
  set (pos := λ σ : Machine, (selected_col (locals σ), selected_card (locals σ))).
  assert (∀ {A} (m : M A), keeps_locals m → keeps pos m) as Hl.
  { intros A m H σ0. unfold same, pos. by rewrite H. }
  assert (∀ b, keeps pos (set_board b)) as Hb by (by intros b σ0).
  assert (keeps pos getch) as Hg by apply Hl, keeps_locals_getch.
  assert (keeps pos show_startup_screen) as Hs
      by apply Hl, keeps_locals_show_startup_screen.
  assert (keeps pos file_picker) as Hf by apply Hl, keeps_locals_file_picker.
  pose proof (respects_load (same pos) Hb) as Hload.
  pose proof (respects_add_column (same pos) Hb) as Hcol.
  pose proof (respects_create_default_board (same pos) Hb) as Hdef.
  assert (keeps pos new_default_board) as Hnew
      by (unfold new_default_board; frame).
  destruct σ as [[b sc scard u r] w]. unfold startup.
  match goal with
  | |- context [ set_selected_card 0 ≫= ?f ] =>
      assert (keeps pos (f tt)) as Hrest; [unfold path_exists; frame|];
      set (rest := f tt) in *
  end.
  specialize (Hrest {| locals := {| board := KanbanBoard_new; selected_col := 0;
                                    selected_card := 0; undo_stack := u;
                                    redo_stack := r |};
                       world := w |}).
  unfold same, pos in Hrest. injection Hrest as H1 H2.
  split; [exact H1 | exact H2].
Qed.

(** X25. The main loop is entered with the cursor at (0, 0), a valid
    position on whatever board the start-up produced, and with both
    stacks empty; the clamp of l.328-343 changes nothing, since nothing
    moves the cursor before it. *)
Theorem loop_entered_at_origin argv σ σ1 :
  startup argv σ = (Ok Continue, σ1) →
  enter_loop σ1 =
  (Ok tt, {| locals := {| board := board (locals σ1); selected_col := 0;
                          selected_card := 0; undo_stack := []; redo_stack := [] |};
             world := world σ1 |}) ∧
  cursor_valid {| board := board (locals σ1); selected_col := 0;
                  selected_card := 0; undo_stack := []; redo_stack := [] |} = true.
Proof.
  intros Hrun. destruct (startup_cursor argv σ) as [Hsc Hscard].
  rewrite Hrun in Hsc, Hscard. simpl in Hsc, Hscard.
  destruct σ1 as [[[cols] sc scard u r] w]. simpl in *. subst sc scard.
  unfold enter_loop, clamp_cursor, column_at. mrun.
  destruct cols as [|col cols]; mrun; [done|].
  rewrite len_cons. pose proof (len_nonneg cols).
  replace (Z.min 0 (Py.len cols + 1 - 1)) with 0 by lia.
  change (Py.getitem (col :: cols) 0) with (Some col). mrun.
  unfold cursor_valid. simpl. change (Py.getitem (col :: cols) 0) with (Some col).
  destruct (cards col) as [|c cs] eqn:Ec; mrun; [done|].
  rewrite len_cons. pose proof (len_nonneg cs).
  replace (Z.min 0 (Py.len cs + 1 - 1)) with 0 by lia.
  split; [done|]. simpl. apply Z.ltb_lt. lia.
Qed.

Lemma loop_entered_at_origin_witness :
  enter_loop (at_default [Py.ord "q"]) = (Ok tt, at_default [Py.ord "q"]) ∧
  cursor_valid (locals (at_default [Py.ord "q"])) = true.
Proof.
  apply (loop_entered_at_origin ["main.py"] (start [ENTER; Py.ord "q"])
           (at_default [Py.ord "q"])).
  reflexivity.
Defined.
